(** * Dark Document Reader: the viewer host and its rendering strategies

    A shallow embedding of the TypeScript sources

      - [src/app/page.tsx]                       (the viewer host, [DocumentReader])
      - [src/components/pdf-viewer-alternative.tsx] (iframe [PDFViewer], [TextViewer])
      - [src/unnamed/part_000]                   ([WordViewer], canvas [PDFViewer])

    Conventions.  JavaScript strings are [string]; page numbers and pixel
    channels are [Z]; the fractional quantities (zoom, contrast, brightness,
    scroll speed, opacities, timer intervals) are exact rationals [Q]; the
    arithmetic of the canvas sepia filter is also given on binary64 numbers
    ([Canvas.Binary64]), which is what decides the bytes it stores; a
    React state cell is a record field and a state setter is a function on
    the record.  [null] is [None]. *)

From Stdlib Require Import ZArith QArith Qminmax Qround String Ascii List Bool Lia Lqa.
From Stdlib Require Import Qpower Floats Uint63.
Import ListNotations.

(* A decimal literal in [float_scope] denotes the nearest binary64 number,
   as it does in JavaScript. *)
Set Warnings "-inexact-float".

Local Open Scope string_scope.
Local Open Scope Z_scope.

(** ** Files and format detection ([page.tsx], [getFileType]) *)

Module Detect.

(** The part of a browser [File] the host looks at: its name, its declared
    media type and its payload. *)
Record File : Type := mkFile {
  name : string;
  type : string;
  data : list Byte.byte
}.

Inductive FileType : Type := pdf | word | text.

Definition FileType_eqb (a b : FileType) : bool :=
  match a, b with
  | pdf, pdf | word, word | text, text => true
  | _, _ => false
  end.

(** [String.prototype.endsWith]: [suffix] occupies the last
    [length suffix] characters of [s]. *)
Definition endsWith (s suffix : string) : bool :=
  let n := String.length s in
  let m := String.length suffix in
  (m <=? n)%nat && String.eqb (substring (n - m) m s) suffix.

Definition mime_pdf : string := "application/pdf".
Definition mime_docx : string :=
  "application/vnd.openxmlformats-officedocument.wordprocessingml.document".
Definition mime_doc : string := "application/msword".
Definition mime_txt : string := "text/plain".

(** [getFileType], lines 90-104. *)
Definition getFileType (file : File) : option FileType :=
  if String.eqb (type file) mime_pdf then Some pdf
  else if String.eqb (type file) mime_docx
          || String.eqb (type file) mime_doc
          || endsWith (name file) ".docx"
          || endsWith (name file) ".doc"
  then Some word
  else if String.eqb (type file) mime_txt || endsWith (name file) ".txt"
  then Some text
  else None.

(** The decision order as the specification words it: the declared media
    type is matched first, against the signatures of the three formats; the
    file name is consulted only when no signature matched. *)
Definition by_media_type (file : File) : option FileType :=
  if String.eqb (type file) mime_pdf then Some pdf
  else if String.eqb (type file) mime_docx || String.eqb (type file) mime_doc
  then Some word
  else if String.eqb (type file) mime_txt then Some text
  else None.

Definition by_extension (file : File) : option FileType :=
  if endsWith (name file) ".pdf" then Some pdf
  else if endsWith (name file) ".docx" || endsWith (name file) ".doc"
  then Some word
  else if endsWith (name file) ".txt" then Some text
  else None.

(** Two file values denote the same selected file. *)
Fixpoint bytes_eqb (a b : list Byte.byte) : bool :=
  match a, b with
  | [], [] => true
  | x :: a', y :: b' => Byte.eqb x y && bytes_eqb a' b'
  | _, _ => false
  end.

Definition File_eqb (f g : File) : bool :=
  String.eqb (name f) (name g) && String.eqb (type f) (type g)
  && bytes_eqb (data f) (data g).

Definition detect_spec (file : File) : option FileType :=
  match by_media_type file with
  | Some t => Some t
  | None => by_extension file
  end.

End Detect.


(** ** The viewer host ([page.tsx], [DocumentReader]) *)

Module Host.
Import Detect.

Inductive Theme : Type := dark | sepia | high_contrast.

(** The [useState] cells of [DocumentReader], lines 47-58. *)
Record ViewState : Type := mkViewState {
  documentFile : option File;
  fileType : option FileType;
  currentPage : Z;
  totalPages : Z;
  zoom : Q;
  rotation : Z;
  isFullscreen : bool;
  theme : Theme;
  autoScroll : bool;
  scrollSpeed : Q;
  contrast : Q;
  brightness : Q
}.

(** The initial values handed to [useState]. *)
Definition initial : ViewState :=
  {| documentFile := None; fileType := None; currentPage := 1; totalPages := 0;
     zoom := 1.0; rotation := 0; isFullscreen := false; theme := dark;
     autoScroll := false; scrollSpeed := 1; contrast := 1.0; brightness := 1.0 |}.

(** State setters.  React setters take either a value or an updater
    [prev => next]; the ones the source calls with an updater take a
    function here. *)
Definition setDocumentFile (v : option File) (st : ViewState) : ViewState :=
  {| documentFile := v; fileType := fileType st; currentPage := currentPage st;
     totalPages := totalPages st; zoom := zoom st; rotation := rotation st;
     isFullscreen := isFullscreen st; theme := theme st; autoScroll := autoScroll st;
     scrollSpeed := scrollSpeed st; contrast := contrast st; brightness := brightness st |}.

Definition setFileType (v : option FileType) (st : ViewState) : ViewState :=
  {| documentFile := documentFile st; fileType := v; currentPage := currentPage st;
     totalPages := totalPages st; zoom := zoom st; rotation := rotation st;
     isFullscreen := isFullscreen st; theme := theme st; autoScroll := autoScroll st;
     scrollSpeed := scrollSpeed st; contrast := contrast st; brightness := brightness st |}.

Definition setCurrentPage (upd : Z -> Z) (st : ViewState) : ViewState :=
  {| documentFile := documentFile st; fileType := fileType st;
     currentPage := upd (currentPage st);
     totalPages := totalPages st; zoom := zoom st; rotation := rotation st;
     isFullscreen := isFullscreen st; theme := theme st; autoScroll := autoScroll st;
     scrollSpeed := scrollSpeed st; contrast := contrast st; brightness := brightness st |}.

Definition setTotalPages (v : Z) (st : ViewState) : ViewState :=
  {| documentFile := documentFile st; fileType := fileType st; currentPage := currentPage st;
     totalPages := v; zoom := zoom st; rotation := rotation st;
     isFullscreen := isFullscreen st; theme := theme st; autoScroll := autoScroll st;
     scrollSpeed := scrollSpeed st; contrast := contrast st; brightness := brightness st |}.

Definition setZoom (upd : Q -> Q) (st : ViewState) : ViewState :=
  {| documentFile := documentFile st; fileType := fileType st; currentPage := currentPage st;
     totalPages := totalPages st; zoom := upd (zoom st); rotation := rotation st;
     isFullscreen := isFullscreen st; theme := theme st; autoScroll := autoScroll st;
     scrollSpeed := scrollSpeed st; contrast := contrast st; brightness := brightness st |}.

Definition setRotation (upd : Z -> Z) (st : ViewState) : ViewState :=
  {| documentFile := documentFile st; fileType := fileType st; currentPage := currentPage st;
     totalPages := totalPages st; zoom := zoom st; rotation := upd (rotation st);
     isFullscreen := isFullscreen st; theme := theme st; autoScroll := autoScroll st;
     scrollSpeed := scrollSpeed st; contrast := contrast st; brightness := brightness st |}.

Definition setIsFullscreen (v : bool) (st : ViewState) : ViewState :=
  {| documentFile := documentFile st; fileType := fileType st; currentPage := currentPage st;
     totalPages := totalPages st; zoom := zoom st; rotation := rotation st;
     isFullscreen := v; theme := theme st; autoScroll := autoScroll st;
     scrollSpeed := scrollSpeed st; contrast := contrast st; brightness := brightness st |}.

Definition setTheme (v : Theme) (st : ViewState) : ViewState :=
  {| documentFile := documentFile st; fileType := fileType st; currentPage := currentPage st;
     totalPages := totalPages st; zoom := zoom st; rotation := rotation st;
     isFullscreen := isFullscreen st; theme := v; autoScroll := autoScroll st;
     scrollSpeed := scrollSpeed st; contrast := contrast st; brightness := brightness st |}.

Definition setAutoScroll (v : bool) (st : ViewState) : ViewState :=
  {| documentFile := documentFile st; fileType := fileType st; currentPage := currentPage st;
     totalPages := totalPages st; zoom := zoom st; rotation := rotation st;
     isFullscreen := isFullscreen st; theme := theme st; autoScroll := v;
     scrollSpeed := scrollSpeed st; contrast := contrast st; brightness := brightness st |}.

Definition setScrollSpeed (v : Q) (st : ViewState) : ViewState :=
  {| documentFile := documentFile st; fileType := fileType st; currentPage := currentPage st;
     totalPages := totalPages st; zoom := zoom st; rotation := rotation st;
     isFullscreen := isFullscreen st; theme := theme st; autoScroll := autoScroll st;
     scrollSpeed := v; contrast := contrast st; brightness := brightness st |}.

Definition setContrast (v : Q) (st : ViewState) : ViewState :=
  {| documentFile := documentFile st; fileType := fileType st; currentPage := currentPage st;
     totalPages := totalPages st; zoom := zoom st; rotation := rotation st;
     isFullscreen := isFullscreen st; theme := theme st; autoScroll := autoScroll st;
     scrollSpeed := scrollSpeed st; contrast := v; brightness := brightness st |}.

Definition setBrightness (v : Q) (st : ViewState) : ViewState :=
  {| documentFile := documentFile st; fileType := fileType st; currentPage := currentPage st;
     totalPages := totalPages st; zoom := zoom st; rotation := rotation st;
     isFullscreen := isFullscreen st; theme := theme st; autoScroll := autoScroll st;
     scrollSpeed := scrollSpeed st; contrast := contrast st; brightness := v |}.

Definition unsupported_message : string :=
  "Please select a valid PDF, Word document, or text file".

(** The body shared by [handleFileSelect] (lines 106-119) and [handleDrop]
    (lines 121-135): [files] is the event's file list, the second component
    of the result is the text passed to [alert], if any. *)
Definition accept_file (files : list File) (st : ViewState)
  : ViewState * option string :=
  match files with
  | [] => (st, None)
  | file :: _ =>
      match getFileType file with
      | Some t =>
          (setTotalPages 0
             (setCurrentPage (fun _ => 1)
                (setFileType (Some t) (setDocumentFile (Some file) st))),
           None)
      | None => (st, Some unsupported_message)
      end
  end.

Definition handleFileSelect (files : list File) (st : ViewState) :=
  accept_file files st.

Definition handleDrop (files : list File) (st : ViewState) :=
  accept_file files st.

(** [handleGoHome], lines 141-150. *)
Definition handleGoHome (st : ViewState) : ViewState :=
  setTotalPages 0
    (setCurrentPage (fun _ => 1) (setFileType None (setDocumentFile None st))).

(** Lines 166-172. *)
Definition zoomIn : ViewState -> ViewState :=
  setZoom (fun prev => Qmin (prev + 0.25) 3.0)%Q.
Definition zoomOut : ViewState -> ViewState :=
  setZoom (fun prev => Qmax (prev - 0.25) 0.5)%Q.
Definition resetZoom : ViewState -> ViewState :=
  setZoom (fun _ => 1.0%Q).
Definition rotate : ViewState -> ViewState :=
  setRotation (fun prev => Z.rem (prev + 90) 360).

Definition nextPage (st : ViewState) : ViewState :=
  setCurrentPage (fun prev => Z.min (prev + 1) (totalPages st)) st.
Definition prevPage (st : ViewState) : ViewState :=
  setCurrentPage (fun prev => Z.max (prev - 1) 1) st.

(** [resetVisualSettings], lines 174-178. *)
Definition resetVisualSettings (st : ViewState) : ViewState :=
  setZoom (fun _ => 1.0%Q) (setBrightness 1.0 (setContrast 1.0 st)).

(** The [disabled] attributes of the two page buttons, lines 287 and 291. *)
Definition prevPage_disabled (st : ViewState) : bool := currentPage st <=? 1.
Definition nextPage_disabled (st : ViewState) : bool :=
  totalPages st <=? currentPage st.

(** The keyboard handler installed by the first effect, lines 65-88: the
    new state and whether [event.preventDefault()] was called. *)
Record KeyboardEvent : Type := mkKey {
  ctrlKey : bool;
  metaKey : bool;
  key : string
}.

Definition handleKeyDown (event : KeyboardEvent) (st : ViewState)
  : ViewState * bool :=
  if ctrlKey event || metaKey event then
    if String.eqb (key event) "=" || String.eqb (key event) "+"
    then (zoomIn st, true)
    else if String.eqb (key event) "-" then (zoomOut st, true)
    else if String.eqb (key event) "0" then (resetZoom st, true)
    else (st, false)
  else (st, false).



(** [getFileTypeLabel], lines 198-209. *)
Definition getFileTypeLabel (st : ViewState) : string :=
  match fileType st with
  | Some pdf => "PDF"
  | Some word => "Word"
  | Some text => "Text"
  | None => ""
  end.

(** The rotations the host produces: quarter turns. *)
Definition quarter_turn (r : Z) : Prop := r = 0 \/ r = 90 \/ r = 180 \/ r = 270.

End Host.

(** ** Theme-dependent text colours ([WordViewer], [TextViewer]) *)

Module Styles.
Import Host.

Local Open Scope Q_scope.

(** A CSS [rgba(r, g, b, a)] colour. *)
Record RGBA : Type := rgba {
  red : Z;
  green : Z;
  blue : Z;
  alpha : Q
}.

(** One rule of the generated style sheet: its selector, its [color]
    declaration and its remaining (constant) declarations. *)
Record CssRule : Type := mkRule {
  selector : string;
  color : RGBA;
  declarations : list (string * string)
}.

Definition headings : string :=
  ".word-content h1, .word-content h2, .word-content h3, .word-content h4, .word-content h5, .word-content h6".
Definition body_text : string :=
  ".word-content p, .word-content li, .word-content span, .word-content div".
Definition strong_text : string := ".word-content strong, .word-content b".
Definition list_text : string := ".word-content ul, .word-content ol".

(** [WordViewer], lines 80-81 of [part_000]. *)
Definition textOpacity (contrast : Q) : Q := Qmin 1 (0.7 + (contrast - 1) * 0.3).
Definition headingOpacity (contrast : Q) : Q := Qmin 1 (0.9 + (contrast - 1) * 0.1).

(** [getContentStyles], lines 79-142 of [part_000]: the template string as
    the list of its rules. *)
Definition getContentStyles (theme : Theme) (contrast : Q) : list CssRule :=
  let textOpacity := textOpacity contrast in
  let headingOpacity := headingOpacity contrast in
  match theme with
  | sepia =>
      [ mkRule headings (rgba 244 228 193 headingOpacity)
          [("font-weight", "600"); ("margin-top", "1.5em"); ("margin-bottom", "0.5em")];
        mkRule body_text (rgba 232 213 183 textOpacity) [("line-height", "1.7")];
        mkRule strong_text (rgba 244 228 193 headingOpacity) [("font-weight", "600")] ]
  | high_contrast =>
      [ mkRule headings (rgba 255 255 255 headingOpacity)
          [("font-weight", "700"); ("margin-top", "1.5em"); ("margin-bottom", "0.5em");
           ("text-shadow", "0 0 2px rgba(255, 255, 255, 0.5)")];
        mkRule body_text (rgba 255 255 255 textOpacity) [("line-height", "1.8")];
        mkRule strong_text (rgba 255 255 255 headingOpacity)
          [("font-weight", "700"); ("text-shadow", "0 0 1px rgba(255, 255, 255, 0.5)")] ]
  | dark =>
      [ mkRule headings (rgba 249 250 251 headingOpacity)
          [("font-weight", "600"); ("margin-top", "1.5em"); ("margin-bottom", "0.5em")];
        mkRule body_text (rgba 229 231 235 textOpacity) [("line-height", "1.7")];
        mkRule strong_text (rgba 243 244 246 headingOpacity) [("font-weight", "600")];
        mkRule list_text (rgba 229 231 235 textOpacity) [("padding-left", "1.5em")] ]
  end.

(** [TextViewer.getTextColor], lines 221-232 of
    [pdf-viewer-alternative.tsx]. *)
Definition getTextColor (theme : Theme) (contrast : Q) : RGBA :=
  let textOpacity := Qmin 1 (0.8 + (contrast - 1) * 0.2) in
  match theme with
  | sepia => rgba 232 213 183 textOpacity
  | high_contrast => rgba 255 255 255 textOpacity
  | dark => rgba 229 231 235 textOpacity
  end.

(** Every text colour a theme resolves to at a given contrast: the rules
    of the Word style sheet and the colour of the text block. *)
Definition resolved_colors (theme : Theme) (contrast : Q) : list RGBA :=
  getTextColor theme contrast :: map color (getContentStyles theme contrast).

(** The opacity curve as the specification writes it. *)
Definition clamped_affine (base slope contrast : Q) : Q :=
  Qmin 1 (base + (contrast - 1) * slope).

(** The (base, slope) pairs in use: body text and headings of the Word
    viewer, text of the text viewer. *)
Definition opacity_curves : list (Q * Q) := [(0.7, 0.3); (0.9, 0.1); (0.8, 0.2)].

(** The slider range of the contrast setting ([page.tsx], lines 421-428). *)
Definition contrast_in_range (c : Q) : Prop := 0.5 <= c <= 2.0.

End Styles.

(** ** The canvas PDF strategy ([part_000], second component) *)

Module Canvas.

(** What the viewer reads of a loaded PDF.js document. *)
Record PdfDoc : Type := mkPdfDoc { numPages : Z }.

Record ViewerState : Type := mkViewer {
  isLoading : bool;
  pdfDoc : option PdfDoc
}.

Section Load.
(** The PDF decoding collaborator, [pdfjsLib.getDocument({data}).promise]:
    [None] is a rejected promise (the payload is not a PDF). *)
Variable getDocument : list Byte.byte -> option PdfDoc.

(** [loadPDF], lines 224-243: the viewer state once the promise has
    settled, and the argument of [onTotalPagesChange] when it is called. *)
Definition loadPDF (file : Detect.File) (st : ViewerState)
  : ViewerState * option Z :=
  match getDocument (Detect.data file) with
  | Some pdf => (mkViewer false (Some pdf), Some (numPages pdf))
  | None => (mkViewer false (pdfDoc st), None)
  end.
End Load.

(** The updater handed to [onPageChange] by the interval callback,
    lines 313-318. *)
Definition tick (pdf : PdfDoc) (prev : Z) : Z :=
  if numPages pdf <=? prev then 1 else prev + 1.

(** Line 310. *)
Definition interval (scrollSpeed : Q) : Q := (3000 / scrollSpeed)%Q.

(** *** The sepia filter, lines 286-302, on exact rationals

    The filter with every product and sum taken exactly.  This is the
    arithmetic the order properties of the filter are stated on; the
    bytes the engine stores come from the rounded arithmetic of
    [Binary64] below. *)

(** A JavaScript number that may be [NaN] ([None]); reading a typed
    array past its end gives [undefined], which arithmetic turns into
    [NaN]. *)
Definition Number : Type := option Q.

Definition of_element (x : option Z) : Number := option_map inject_Z x.

Definition times (x : Number) (k : Q) : Number :=
  option_map (fun v => v * k)%Q x.

Definition plus (x y : Number) : Number :=
  match x, y with
  | Some a, Some b => Some (a + b)%Q
  | _, _ => None
  end.

Definition Math_min (k : Q) (x : Number) : Number := option_map (Qmin k) x.

(** The conversion a [Uint8ClampedArray] applies to a stored value
    (ECMAScript [ToUint8Clamp]): [NaN] becomes 0, the value is clamped to
    [0, 255] and rounded to the nearest integer, ties to even. *)
Definition ToUint8Clamp (x : Number) : Z :=
  match x with
  | None => 0
  | Some v =>
      let clamped := Qmin (Qmax v 0) 255 in
      let f := Qfloor clamped in
      match (clamped ?= inject_Z f + 0.5)%Q with
      | Lt => f
      | Gt => f + 1
      | Eq => if Z.even f then f else f + 1
      end
  end.

(** The three right-hand sides of lines 296-298. *)
Definition sepia_red (r g b : Number) : Number :=
  Math_min 255 (plus (plus (times r 0.393) (times g 0.769)) (times b 0.189)).
Definition sepia_green (r g b : Number) : Number :=
  Math_min 255 (plus (plus (times r 0.349) (times g 0.686)) (times b 0.168)).
Definition sepia_blue (r g b : Number) : Number :=
  Math_min 255 (plus (plus (times r 0.272) (times g 0.534)) (times b 0.131)).

(** The loop over the pixel buffer, four elements at a time.  An
    [ImageData] buffer holds whole RGBA pixels; the last three cases are
    what the loop does to a buffer that ends inside a pixel (out-of-range
    reads are [undefined], out-of-range writes are dropped). *)
Fixpoint sepia (data : list Z) : list Z :=
  match data with
  | r :: g :: b :: a :: rest =>
      let R := of_element (Some r) in
      let G := of_element (Some g) in
      let B := of_element (Some b) in
      ToUint8Clamp (sepia_red R G B)
        :: ToUint8Clamp (sepia_green R G B)
        :: ToUint8Clamp (sepia_blue R G B)
        :: a :: sepia rest
  | [r; g; b] =>
      let R := of_element (Some r) in
      let G := of_element (Some g) in
      let B := of_element (Some b) in
      [ToUint8Clamp (sepia_red R G B); ToUint8Clamp (sepia_green R G B);
       ToUint8Clamp (sepia_blue R G B)]
  | [r; g] =>
      let R := of_element (Some r) in
      let G := of_element (Some g) in
      let B := of_element None in
      [ToUint8Clamp (sepia_red R G B); ToUint8Clamp (sepia_green R G B)]
  | [r] =>
      let R := of_element (Some r) in
      let G := of_element None in
      let B := of_element None in
      [ToUint8Clamp (sepia_red R G B)]
  | [] => []
  end.

(** The matrix of the specification, on exact rationals. *)
Definition matrix_red (r g b : Z) : Q :=
  (0.393 * inject_Z r + 0.769 * inject_Z g + 0.189 * inject_Z b)%Q.
Definition matrix_green (r g b : Z) : Q :=
  (0.349 * inject_Z r + 0.686 * inject_Z g + 0.168 * inject_Z b)%Q.
Definition matrix_blue (r g b : Z) : Q :=
  (0.272 * inject_Z r + 0.534 * inject_Z g + 0.131 * inject_Z b)%Q.

Definition channel (x : Z) : Prop := 0 <= x <= 255.

(** *** The same lines in double precision

    A JavaScript number is an IEEE 754 binary64 value, and lines 296-298
    round after every product and every sum.  The rows above compute on
    exact rationals, which gives the same order between outputs but not
    always the same byte: where the exact row falls on a half, the rounded
    sum may fall on either side of it.  [Binary64] evaluates the three
    lines as the engine does, on the kernel's binary64 numbers. *)

Module Binary64.

(** An element read from the buffer, a byte, as a number; [undefined]
    converts to [NaN]. *)
Definition of_element (x : option Z) : float :=
  match x with
  | Some z => PrimFloat.of_uint63 (Uint63.of_Z z)
  | None => nan
  end.

(** [Math.min] of two numbers: [NaN] if either is, and [-0] below [+0]. *)
Definition Math_min (a x : float) : float :=
  if is_nan a || is_nan x then nan
  else if (x <? a)%float then x
  else if (a <? x)%float then a
  else if get_sign a then a else x.

(** The rational a finite binary64 number [(-1)^s * m * 2^e] stands for. *)
Definition magnitude (m : positive) (e : Z) : Q :=
  (inject_Z (Zpos m) * 2 ^ e)%Q.

Definition rational (s : bool) (m : positive) (e : Z) : Q :=
  Qred (if s then - magnitude m e else magnitude m e)%Q.

Definition to_Q (x : float) : option Q :=
  match Prim2SF x with
  | S754_zero _ => Some 0%Q
  | S754_finite s m e => Some (rational s m e)
  | S754_infinity _ | S754_nan => None
  end.

(** ECMAScript [ToUint8Clamp] on a binary64 number: [NaN] becomes 0, the
    infinities clamp to the ends, and a finite number is clamped and
    rounded, ties to even, on its exact value. *)
Definition ToUint8Clamp (x : float) : Z :=
  match Prim2SF x with
  | S754_nan => 0
  | S754_zero _ => 0
  | S754_infinity s => if s then 0 else 255
  | S754_finite s m e => Canvas.ToUint8Clamp (Some (rational s m e))
  end.

(** The three right-hand sides of lines 296-298. *)
Definition sepia_red (r g b : float) : float :=
  Math_min 255 (r * 0.393 + g * 0.769 + b * 0.189)%float.
Definition sepia_green (r g b : float) : float :=
  Math_min 255 (r * 0.349 + g * 0.686 + b * 0.168)%float.
Definition sepia_blue (r g b : float) : float :=
  Math_min 255 (r * 0.272 + g * 0.534 + b * 0.131)%float.

(** The loop of lines 291-299, with the same treatment of a buffer that
    ends inside a pixel as [Canvas.sepia]. *)
Fixpoint sepia (data : list Z) : list Z :=
  match data with
  | r :: g :: b :: a :: rest =>
      let R := of_element (Some r) in
      let G := of_element (Some g) in
      let B := of_element (Some b) in
      ToUint8Clamp (sepia_red R G B)
        :: ToUint8Clamp (sepia_green R G B)
        :: ToUint8Clamp (sepia_blue R G B)
        :: a :: sepia rest
  | [r; g; b] =>
      let R := of_element (Some r) in
      let G := of_element (Some g) in
      let B := of_element (Some b) in
      [ToUint8Clamp (sepia_red R G B); ToUint8Clamp (sepia_green R G B);
       ToUint8Clamp (sepia_blue R G B)]
  | [r; g] =>
      let R := of_element (Some r) in
      let G := of_element (Some g) in
      let B := of_element None in
      [ToUint8Clamp (sepia_red R G B); ToUint8Clamp (sepia_green R G B)]
  | [r] =>
      let R := of_element (Some r) in
      let G := of_element None in
      let B := of_element None in
      [ToUint8Clamp (sepia_red R G B)]
  | [] => []
  end.

End Binary64.

(** *** A test on every pixel

    The functions of [Pixels] are not in the source: they are the test by
    which a property of the filter is checked on all 2^24 pixels.  The
    byte stored for a number is decided by comparing the number with the
    halves next to a candidate byte, and the candidate is the rounding of
    the exact matrix row, computed on machine integers in thousandths. *)

Module Pixels.

Definition is_even (k : int) : bool := (k mod 2 =? 0)%uint63.

(** A sufficient test, by comparisons alone, that [ToUint8Clamp x] is the
    byte [k]: [x] lies between [k - 0.5] and [k + 0.5], the ends included
    when [k] is even. *)
Definition rounds_to (x : float) (k : int) : bool :=
  let K := of_uint63 k in
  if (k =? 0)%uint63 then (x <=? K + 0.5)%float
  else if is_even k then
    if (K - 0.5 <=? x)%float then (x <=? K + 0.5)%float else false
  else
    if (K - 0.5 <? x)%float then (x <? K + 0.5)%float else false.

Definition cap (n : int) : int :=
  if (n <? 255000)%uint63 then n else 255000%uint63.

(** [near x n]: the byte stored for [x] is a nearest integer to
    [min (n / 1000) 255]. *)
Definition near (x : float) (n : int) : bool :=
  let n' := cap n in
  let k := ((n' + 500) / 1000)%uint63 in
  if rounds_to x k then true
  else if (n' mod 1000 =? 500)%uint63 then rounds_to x (k - 1)%uint63 else false.

Definition bytes : list int :=
  map (fun n => Uint63.of_Z (Z.of_nat n)) (seq 0 256).

(** The test on the three channels of every pixel whose red channel is in
    [rs]. *)
Definition sweep (rs : list int) : bool :=
  forallb (fun r =>
    let R := of_uint63 r in
    let r1 := (R * 0.393)%float in
    let r2 := (R * 0.349)%float in
    let r3 := (R * 0.272)%float in
    let m1 := (393 * r)%uint63 in
    let m2 := (349 * r)%uint63 in
    let m3 := (272 * r)%uint63 in
    forallb (fun g =>
      let G := of_uint63 g in
      let s1 := (r1 + G * 0.769)%float in
      let s2 := (r2 + G * 0.686)%float in
      let s3 := (r3 + G * 0.534)%float in
      let n1 := (m1 + 769 * g)%uint63 in
      let n2 := (m2 + 686 * g)%uint63 in
      let n3 := (m3 + 534 * g)%uint63 in
      forallb (fun b =>
        let B := of_uint63 b in
        if near (Binary64.Math_min 255 (s1 + B * 0.189)%float) (n1 + 189 * b)%uint63 then
          if near (Binary64.Math_min 255 (s2 + B * 0.168)%float) (n2 + 168 * b)%uint63 then
            near (Binary64.Math_min 255 (s3 + B * 0.131)%float) (n3 + 131 * b)%uint63
          else false
        else false) bytes) bytes) rs.

End Pixels.

End Canvas.

(** ** The iframe PDF strategy ([pdf-viewer-alternative.tsx]) *)

Module Iframe.

Record ViewerState : Type := mkViewer {
  pdfUrl : string;
  isLoading : bool
}.

Section Load.
(** [URL.createObjectURL]. *)
Variable createObjectURL : Detect.File -> string.

(** [loadPDF], lines 39-54: no decoding takes place; the page count
    reported to the host is the constant of line 48. *)
Definition loadPDF (file : Detect.File) (st : ViewerState)
  : ViewerState * option Z :=
  (mkViewer (createObjectURL file) false, Some 100).
End Load.

(** The updater handed to [onPageChange] by the interval callback,
    line 71. *)
Definition tick (prev : Z) : Z := prev + 1.

(** Line 68. *)
Definition interval (scrollSpeed : Q) : Q := (3000 / scrollSpeed)%Q.

End Iframe.

(** ** The text viewer ([pdf-viewer-alternative.tsx], second component) *)

Module TextViewer.

Definition newline : ascii := Ascii.ascii_of_nat 10.

(** [textContent.split("\n")], lines 246 and 347. *)
Fixpoint lines (textContent : string) : list string :=
  match textContent with
  | EmptyString => [EmptyString]
  | String c rest =>
      if Ascii.eqb c newline then EmptyString :: lines rest
      else match lines rest with
           | l :: ls => String c l :: ls
           | [] => [String c EmptyString]
           end
  end.

(** [Array.prototype.join("\n")]: not called by the viewer, which shows
    [textContent] itself beside the gutter; used to state that [lines]
    loses nothing. *)
Fixpoint join (ls : list string) : string :=
  match ls with
  | [] => EmptyString
  | [l] => l
  | l :: rest => l ++ String newline (join rest)
  end.

Fixpoint count_newlines (s : string) : nat :=
  match s with
  | EmptyString => O
  | String c rest =>
      if Ascii.eqb c newline then S (count_newlines rest) else count_newlines rest
  end.

(** [Number.prototype.toString] on a non-negative integer: its decimal
    digits, most significant first. *)
Definition digit (d : nat) : ascii := Ascii.ascii_of_nat (48 + d).

Fixpoint toString_fuel (fuel n : nat) (acc : string) : string :=
  match fuel with
  | O => acc
  | S fuel' =>
      let acc' := String (digit (n mod 10)) acc in
      if (n <? 10)%nat then acc' else toString_fuel fuel' (n / 10) acc'
  end.

Definition toString (n : nat) : string := toString_fuel (S n) n EmptyString.

(** Line 247: the digit count of the last line number. *)
Definition maxLineNumber (textContent : string) : nat :=
  String.length (toString (List.length (lines textContent))).

(** Line 260: the gutter's [minWidth] in [em]. *)
Definition gutter_minWidth (textContent : string) : Q :=
  (inject_Z (Z.of_nat (maxLineNumber textContent)) * 0.6 + 1)%Q.

(** Lines 263-265: the numbers shown in the gutter, [index + 1]. *)
Definition line_numbers (textContent : string) : list nat :=
  map (fun index => index + 1)%nat (seq 0 (List.length (lines textContent))).

(** ASCII case folding, the effect of the [i] flag on the letters of the
    pattern. *)
Definition lower (c : ascii) : ascii :=
  let n := Ascii.nat_of_ascii c in
  if ((65 <=? n) && (n <=? 90))%nat then Ascii.ascii_of_nat (n + 32) else c.

Fixpoint toLowerCase (s : string) : string :=
  match s with
  | EmptyString => EmptyString
  | String c rest => String (lower c) (toLowerCase rest)
  end.

(** The alternatives of the pattern of line 176. *)
Definition code_extensions : list string :=
  ["js"; "ts"; "jsx"; "tsx"; "py"; "java"; "cpp"; "c"; "css"; "html"; "xml";
   "json"; "md"; "sql"; "sh"; "bat"].

(** [file.name.match(/\.(js|ts|...|bat)$/i)] as a truth value: the name
    ends, up to letter case, with a dot and one of the extensions. *)
Definition isCodeFile (name : string) : bool :=
  existsb (fun ext => Detect.endsWith (toLowerCase name) ("." ++ ext))
          code_extensions.

(** The switches of the viewer, lines 161-163, and what [loadTextFile]
    (lines 166-188) leaves in them and reports once [file.text()] has
    settled; [None] is a rejected promise. *)
Record ViewerState : Type := mkViewer {
  textContent : string;
  isLoading : bool;
  error : string;
  useMonospace : bool;
  wordWrap : bool;
  lineNumbers : bool
}.

Definition mounted_state : ViewerState :=
  mkViewer "" true "" false true false.

Definition load_error : string :=
  "Failed to load text file. Please try a different file.".

Definition loadTextFile (file : Detect.File) (content : option string)
                        (st : ViewerState) : ViewerState * option Z :=
  match content with
  | Some t =>
      let code := isCodeFile (Detect.name file) in
      (mkViewer t false ""
                (if code then true else useMonospace st)
                (wordWrap st)
                (if code then true else lineNumbers st),
       Some 1)
  | None =>
      (mkViewer (textContent st) false load_error
                (useMonospace st) (wordWrap st) (lineNumbers st),
       None)
  end.

End TextViewer.

(** ** The running application: host, mounted viewer, timers

    The host renders one viewer component for the selected document; the
    viewer's effects call back into the host.  React's discipline for an
    effect [useEffect(body, deps)] is: [body] runs after the first render and
    after every render in which a dependency changed; the function [body]
    returned (its cleanup) runs before the next run of [body] and when the
    component is removed.  Every event is handled to completion (handler,
    render, effects) before the next one.

    Of a viewer's effects the model keeps the two that call back into the
    host or hold a browser timer: the load effect and the auto-scroll
    effect.  The canvas viewer has a third, which paints the current page
    (part_000, lines 248-306, dependencies [pdfDoc], [currentPage], [zoom],
    [rotation], [theme]); it writes to the canvas only, and its
    pixel filter is the one of [Canvas]. *)

Module App.
Import Detect Host.

(** Which [PDFViewer] module the host is linked with. *)
Inductive PdfStrategy : Type := UseIframe | UseCanvas.

(** The closure handed to [setInterval]. *)
Inductive Callback : Type :=
| IframeAdvance
| CanvasAdvance (doc : Canvas.PdfDoc).

Definition updater (cb : Callback) : Z -> Z :=
  match cb with
  | IframeAdvance => Iframe.tick
  | CanvasAdvance doc => Canvas.tick doc
  end.

(** An interval registered with the browser.  [armed_by] and [armed_for]
    record the viewer instance and the document the arming render
    displayed. *)
Record Timer : Type := mkTimer {
  handle : nat;
  delay : Q;
  callback : Callback;
  armed_by : nat;
  armed_for : File
}.

(** The viewer component currently rendered, with the hook state of the
    PDF viewer: the [pdfDoc] cell (each loaded document object carries the
    stamp of its creation, its identity in dependency comparisons), the
    dependencies seen by the last run of the auto-scroll effect, whether
    that run returned a cleanup, and [autoScrollRef.current]. *)
Record Mounted : Type := mkMounted {
  instance : nat;
  kind : FileType;
  file_prop : File;
  pdfDoc : option (nat * Canvas.PdfDoc);
  dep_autoScroll : bool;
  dep_scrollSpeed : Q;
  dep_pdfDoc : option (nat * Canvas.PdfDoc);
  cleanup : bool;
  autoScrollRef : option nat
}.

(** An asynchronous load in flight. *)
Record Load : Type := mkLoad {
  load_instance : nat;
  load_kind : FileType;
  load_file : File
}.

Record Sys : Type := mkSys {
  host : ViewState;
  mounted : option Mounted;
  timers : list Timer;
  loads : list Load;
  fresh : nat;
  alerts : list string
}.

(** Handles of [setInterval] are positive integers. *)
Definition boot : Sys :=
  {| host := initial; mounted := None; timers := []; loads := [];
     fresh := 1; alerts := [] |}.

Definition with_host (h : ViewState) (s : Sys) : Sys :=
  {| host := h; mounted := mounted s; timers := timers s; loads := loads s;
     fresh := fresh s; alerts := alerts s |}.

Definition with_mounted (m : option Mounted) (s : Sys) : Sys :=
  {| host := host s; mounted := m; timers := timers s; loads := loads s;
     fresh := fresh s; alerts := alerts s |}.

(** [clearInterval]. *)
Definition clearInterval (id : nat) (s : Sys) : Sys :=
  {| host := host s; mounted := mounted s;
     timers := filter (fun t => negb (Nat.eqb (handle t) id)) (timers s);
     loads := loads s; fresh := fresh s; alerts := alerts s |}.

(** [setInterval]: the new handle and the state holding the timer. *)
Definition setInterval (cb : Callback) (ms : Q) (by_ : nat) (for_ : File) (s : Sys)
  : nat * Sys :=
  (fresh s,
   {| host := host s; mounted := mounted s;
      timers := mkTimer (fresh s) ms cb by_ for_ :: timers s;
      loads := loads s; fresh := S (fresh s); alerts := alerts s |}).

Definition start_load (l : Load) (s : Sys) : Sys :=
  {| host := host s; mounted := mounted s; timers := timers s;
     loads := loads s ++ [l]; fresh := fresh s; alerts := alerts s |}.

(** [Object.is] on the [pdfDoc] dependency: the same stamped object. *)
Definition same_doc (a b : option (nat * Canvas.PdfDoc)) : bool :=
  match a, b with
  | None, None => true
  | Some (i, x), Some (j, y) =>
      Nat.eqb i j && Z.eqb (Canvas.numPages x) (Canvas.numPages y)
  | _, _ => false
  end.

Section Collaborators.
Variable strategy : PdfStrategy.
(** PDF.js, mammoth and [File.text()]; [None] is a rejected promise. *)
Variable getDocument : list Byte.byte -> option Canvas.PdfDoc.
Variable convertToHtml : list Byte.byte -> option string.
Variable readText : list Byte.byte -> option string.
Variable createObjectURL : File -> string.

(** The cleanup returned by the auto-scroll effect: lines 74-78 of the
    iframe viewer, 321-325 of the canvas viewer.  The test
    [if (autoScrollRef.current)] is false for [undefined] and for 0. *)
Definition autoScroll_cleanup (v : Mounted) (s : Sys) : Sys :=
  match autoScrollRef v with
  | Some id => if Nat.eqb id 0 then s else clearInterval id s
  | None => s
  end.

(** The body of the auto-scroll effect under the props of [h]: lines
    66-80 of the iframe viewer, 308-327 of the canvas viewer.  Returns
    the viewer with its hook state updated. *)
Definition autoScroll_effect (h : ViewState) (v : Mounted) (s : Sys)
  : Mounted * Sys :=
  let seen (c : bool) (r : option nat) :=
    {| instance := instance v; kind := kind v; file_prop := file_prop v;
       pdfDoc := pdfDoc v;
       dep_autoScroll := autoScroll h; dep_scrollSpeed := scrollSpeed h;
       dep_pdfDoc := pdfDoc v;
       cleanup := c; autoScrollRef := r |} in
  match strategy with
  | UseIframe =>
      if autoScroll h then
        let '(id, s') :=
          setInterval IframeAdvance (Iframe.interval (scrollSpeed h))
                      (instance v) (file_prop v) s in
        (seen true (Some id), s')
      else (seen false (autoScrollRef v), s)
  | UseCanvas =>
      match autoScroll h, pdfDoc v with
      | true, Some (_, doc) =>
          let '(id, s') :=
            setInterval (CanvasAdvance doc) (Canvas.interval (scrollSpeed h))
                        (instance v) (file_prop v) s in
          (seen true (Some id), s')
      | _, _ => (seen false (autoScrollRef v), s)
      end
  end.

(** The load effect of the viewer of kind [k] for [f]: the iframe
    viewer reports its page count at once (its [loadPDF] never awaits);
    the others start an asynchronous load. *)
Definition load_effect (k : FileType) (inst : nat) (f : File) (s : Sys) : Sys :=
  match k, strategy with
  | pdf, UseIframe =>
      match snd (Iframe.loadPDF createObjectURL f (Iframe.mkViewer EmptyString true)) with
      | Some n => with_host (setTotalPages n (host s)) s
      | None => s
      end
  | _, _ => start_load (mkLoad inst k f) s
  end.

(** First render of a viewer: the load effect and the auto-scroll effect
    run, in source order. *)
Definition mount (k : FileType) (f : File) (s : Sys) : Sys :=
  let inst := fresh s in
  let s0 :=
    {| host := host s; mounted := mounted s; timers := timers s;
       loads := loads s; fresh := S inst; alerts := alerts s |} in
  let v0 :=
    {| instance := inst; kind := k; file_prop := f; pdfDoc := None;
       dep_autoScroll := false; dep_scrollSpeed := 0; dep_pdfDoc := None;
       cleanup := false; autoScrollRef := None |} in
  let s1 := load_effect k inst f s0 in
  match k with
  | pdf =>
      let '(v1, s2) := autoScroll_effect (host s1) v0 s1 in
      with_mounted (Some v1) s2
  | _ => with_mounted (Some v0) s1
  end.

(** Removal of a viewer: the pending cleanups run. *)
Definition unmount (v : Mounted) (s : Sys) : Sys :=
  let s1 := if cleanup v then autoScroll_cleanup v s else s in
  with_mounted None s1.

(** Re-render of a viewer that stays in place. *)
Definition update (v : Mounted) (f : File) (s : Sys) : Sys :=
  let s1 := if File_eqb (file_prop v) f then s
            else load_effect (kind v) (instance v) f s in
  let v1 :=
    {| instance := instance v; kind := kind v; file_prop := f;
       pdfDoc := pdfDoc v;
       dep_autoScroll := dep_autoScroll v; dep_scrollSpeed := dep_scrollSpeed v;
       dep_pdfDoc := dep_pdfDoc v;
       cleanup := cleanup v; autoScrollRef := autoScrollRef v |} in
  match kind v with
  | pdf =>
      let h := host s1 in
      let same :=
        Bool.eqb (dep_autoScroll v) (autoScroll h)
        && Qeq_bool (dep_scrollSpeed v) (scrollSpeed h)
        && match strategy with
           | UseIframe => true
           | UseCanvas => same_doc (dep_pdfDoc v) (pdfDoc v)
           end in
      if same then with_mounted (Some v1) s1
      else
        let s2 := if cleanup v then autoScroll_cleanup v s1 else s1 in
        let '(v2, s3) := autoScroll_effect h v1 s2 in
        with_mounted (Some v2) s3
  | _ => with_mounted (Some v1) s1
  end.

(** The viewer element of the render output, lines 511-575. *)
Definition wanted (h : ViewState) : option (FileType * File) :=
  match documentFile h, fileType h with
  | Some f, Some k => Some (k, f)
  | _, _ => None
  end.

(** Render and commit. *)
Definition commit (s : Sys) : Sys :=
  match mounted s, wanted (host s) with
  | None, None => s
  | Some v, None => unmount v s
  | None, Some (k, f) => mount k f s
  | Some v, Some (k, f) =>
      if FileType_eqb (kind v) k then update v f s
      else mount k f (unmount v s)
  end.

(** What can happen to the application. *)
Inductive Event : Type :=
| FileSelected (files : list File)
| Dropped (files : list File)
| GoHome
| NewFile
| ZoomIn | ZoomOut | ResetZoom
| Rotate
| NextPage | PrevPage
| ToggleFullscreen (browser_fullscreen : bool)
| ThemeChosen (t : Theme)
| ZoomSlider (value : Q)
| ContrastSlider (value : Q)
| BrightnessSlider (value : Q)
| ResetVisual
| AutoScrollSwitch (checked : bool)
| ScrollSpeedSlider (value : Q)
| IntervalFires (id : nat)
| LoadSettles (n : nat).

Definition in_range (lo hi v : Q) : bool := Qle_bool lo v && Qle_bool v hi.

Definition is_open (h : ViewState) : bool :=
  match documentFile h with Some _ => true | None => false end.

Definition is_pdf (h : ViewState) : bool :=
  match fileType h with Some pdf => true | _ => false end.

Definition on_host (f : ViewState -> ViewState) (s : Sys) : Sys :=
  with_host (f (host s)) s.

Definition picked (r : ViewState * option string) (s : Sys) : Sys :=
  {| host := fst r; mounted := mounted s; timers := timers s; loads := loads s;
     fresh := fresh s;
     alerts := match snd r with Some m => alerts s ++ [m] | None => alerts s end |}.

(** A load settles: the continuation of the viewer's [await]. *)
Definition settle (l : Load) (s : Sys) : Sys :=
  match load_kind l with
  | pdf =>
      match fst (Canvas.loadPDF getDocument (load_file l) (Canvas.mkViewer true None)),
            snd (Canvas.loadPDF getDocument (load_file l) (Canvas.mkViewer true None)) with
      | {| Canvas.pdfDoc := Some doc |}, Some n =>
          let stamped :=
            match mounted s with
            | Some v =>
                if Nat.eqb (instance v) (load_instance l) then
                  Some {| instance := instance v; kind := kind v;
                          file_prop := file_prop v;
                          pdfDoc := Some (fresh s, doc);
                          dep_autoScroll := dep_autoScroll v;
                          dep_scrollSpeed := dep_scrollSpeed v;
                          dep_pdfDoc := dep_pdfDoc v;
                          cleanup := cleanup v; autoScrollRef := autoScrollRef v |}
                else Some v
            | None => None
            end in
          {| host := setTotalPages n (host s); mounted := stamped;
             timers := timers s; loads := loads s; fresh := S (fresh s);
             alerts := alerts s |}
      | _, _ => s
      end
  | word =>
      match convertToHtml (data (load_file l)) with
      | Some _ => on_host (setTotalPages 1) s
      | None => s
      end
  | text =>
      match readText (data (load_file l)) with
      | Some _ => on_host (setTotalPages 1) s
      | None => s
      end
  end.

Fixpoint remove_nth {A : Type} (n : nat) (l : list A) : list A :=
  match n, l with
  | _, [] => []
  | O, _ :: l' => l'
  | S n', x :: l' => x :: remove_nth n' l'
  end.

(** The handler of an event.  An event whose control is not rendered, or
    is disabled, in the current state changes nothing: the file input and
    the drop zone exist only while no document is open (lines 511-538),
    the document controls only while one is (lines 248-325), the PDF
    controls only for a PDF (lines 285-297, 315-319, 464-490). *)
Definition dispatch (e : Event) (s : Sys) : Sys :=
  let h := host s in
  match e with
  | FileSelected files =>
      if is_open h then s else picked (handleFileSelect files h) s
  | Dropped files =>
      if is_open h then s else picked (handleDrop files h) s
  | GoHome => if is_open h then on_host handleGoHome s else s
  | NewFile => s
  | ZoomIn => on_host zoomIn s
  | ZoomOut => on_host zoomOut s
  | ResetZoom => on_host resetZoom s
  | Rotate => if is_open h && is_pdf h then on_host rotate s else s
  | NextPage =>
      if is_open h && is_pdf h && negb (nextPage_disabled h)
      then on_host nextPage s else s
  | PrevPage =>
      if is_open h && is_pdf h && negb (prevPage_disabled h)
      then on_host prevPage s else s
  | ToggleFullscreen browser_fullscreen =>
      if is_open h then on_host (setIsFullscreen (negb browser_fullscreen)) s else s
  | ThemeChosen t => on_host (setTheme t) s
  | ZoomSlider value =>
      if in_range 0.5 2.0 value then on_host (setZoom (fun _ => value)) s else s
  | ContrastSlider value =>
      if in_range 0.5 2.0 value then on_host (setContrast value) s else s
  | BrightnessSlider value =>
      if in_range 0.5 1.5 value then on_host (setBrightness value) s else s
  | ResetVisual => on_host resetVisualSettings s
  | AutoScrollSwitch checked =>
      if is_pdf h then on_host (setAutoScroll checked) s else s
  | ScrollSpeedSlider value =>
      if is_pdf h && autoScroll h && in_range 0.5 3.0 value
      then on_host (setScrollSpeed value) s else s
  | IntervalFires id =>
      match find (fun t => Nat.eqb (handle t) id) (timers s) with
      | Some t => on_host (setCurrentPage (updater (callback t))) s
      | None => s
      end
  | LoadSettles n =>
      match nth_error (loads s) n with
      | Some l =>
          settle l
            {| host := host s; mounted := mounted s; timers := timers s;
               loads := remove_nth n (loads s); fresh := fresh s;
               alerts := alerts s |}
      | None => s
      end
  end.

Definition step (e : Event) (s : Sys) : Sys := commit (dispatch e s).

Definition run (es : list Event) (s : Sys) : Sys :=
  fold_left (fun acc e => step e acc) es s.

End Collaborators.

End App.

(** ** Invariants of the running application *)

Module Invariant.
Import Detect Host App.

Section Strategy.
Variable strategy : PdfStrategy.

(** [t] is the interval the last run of the auto-scroll effect of [v]
    left behind. *)
Definition armed (v : Mounted) (t : Timer) : Prop :=
  autoScrollRef v = Some (handle t)
  /\ handle t <> 0%nat
  /\ armed_by t = instance v
  /\ armed_for t = file_prop v
  /\ dep_autoScroll v = true
  /\ (delay t == 3000 / dep_scrollSpeed v)%Q
  /\ match callback t with
     | IframeAdvance => strategy = UseIframe
     | CanvasAdvance doc =>
         strategy = UseCanvas /\ exists stamp, dep_pdfDoc v = Some (stamp, doc)
     end.

(** The browser's intervals are exactly what the hook state of the
    mounted viewer accounts for. *)
Definition accounted (s : Sys) : Prop :=
  fresh s <> 0%nat
  /\ match mounted s with
     | Some v =>
         if cleanup v
         then kind v = pdf /\ exists t, timers s = [t] /\ armed v t
         else timers s = []
     | None => timers s = []
     end.

(** The mounted viewer is the one the host state asks for, and its
    effect has seen the current props. *)
Definition current (s : Sys) : Prop :=
  match mounted s with
  | Some v =>
      wanted (host s) = Some (kind v, file_prop v)
      /\ (kind v = pdf ->
          dep_autoScroll v = autoScroll (host s)
          /\ (dep_scrollSpeed v == scrollSpeed (host s))%Q
          /\ (strategy = UseCanvas -> dep_pdfDoc v = pdfDoc v))
  | None => wanted (host s) = None
  end.

(** Between a handler and the commit that follows it: the viewer, if
    any, still shows the file the host holds, or the host holds none. *)
Definition pending_commit (s : Sys) : Prop :=
  accounted s
  /\ match mounted s with
     | Some v =>
         wanted (host s) = None \/ wanted (host s) = Some (kind v, file_prop v)
     | None => True
     end.

Definition stable (s : Sys) : Prop := accounted s /\ current s.

(** What the hook state of [v] says about the intervals of [s]. *)
Definition books (v : Mounted) (s : Sys) : Prop :=
  if cleanup v
  then kind v = pdf /\ exists t, timers s = [t] /\ armed v t
  else timers s = [].
End Strategy.

(** A handler leaves the intervals and the hook state alone; at most it
    replaces the [pdfDoc] cell of the mounted viewer. *)
Definition with_pdfDoc (d : option (nat * Canvas.PdfDoc)) (v : Mounted) : Mounted :=
  {| instance := instance v; kind := kind v; file_prop := file_prop v;
     pdfDoc := d;
     dep_autoScroll := dep_autoScroll v; dep_scrollSpeed := dep_scrollSpeed v;
     dep_pdfDoc := dep_pdfDoc v;
     cleanup := cleanup v; autoScrollRef := autoScrollRef v |}.

Definition handled (s s' : Sys) : Prop :=
  fresh s' <> 0%nat
  /\ timers s' = timers s
  /\ (mounted s' = mounted s
      \/ exists v d, mounted s = Some v /\ mounted s' = Some (with_pdfDoc d v))
  /\ (wanted (host s') = wanted (host s)
      \/ wanted (host s') = None
      \/ mounted s = None).

(** Committing touches no host cell but [totalPages]. *)
Definition same_selection (h h' : ViewState) : Prop :=
  autoScroll h' = autoScroll h /\ fileType h' = fileType h
  /\ documentFile h' = documentFile h.

(** *** Host state and hook state in reachable states *)

Definition selection_ok (h : ViewState) : Prop :=
  match documentFile h, fileType h with
  | None, None => True
  | Some f, Some k => getFileType f = Some k
  | _, _ => False
  end.

Definition settings_ok (h : ViewState) : Prop :=
  (0.5 <= zoom h <= 3.0)%Q
  /\ (0.5 <= contrast h <= 2.0)%Q
  /\ (0.5 <= brightness h <= 1.5)%Q
  /\ (0.5 <= scrollSpeed h <= 3.0)%Q
  /\ quarter_turn (rotation h)
  /\ 1 <= currentPage h
  /\ selection_ok h.

Definition same_but_totalPages (h h' : ViewState) : Prop :=
  exists n, h' = setTotalPages n h.

(** Events whose handler changes no dependency of the load effect or of the
    auto-scroll effect. *)
Definition quiet (e : Event) : bool :=
  match e with
  | NewFile | ZoomIn | ZoomOut | ResetZoom | Rotate | NextPage | PrevPage
  | ToggleFullscreen _ | ThemeChosen _ | ZoomSlider _ | ContrastSlider _
  | BrightnessSlider _ | ResetVisual | IntervalFires _ => true
  | _ => false
  end.

(** The condition under which the auto-scroll effect arms its interval. *)
Definition should_arm (strategy : PdfStrategy) (on : bool)
                      (doc : option (nat * Canvas.PdfDoc)) : bool :=
  on && match strategy with
        | UseIframe => true
        | UseCanvas => match doc with Some _ => true | None => false end
        end.

Definition tidy (strategy : PdfStrategy) (s : Sys) : Prop :=
  match mounted s with
  | Some v =>
      kind v = pdf ->
      cleanup v = should_arm strategy (dep_autoScroll v) (dep_pdfDoc v)
  | None => True
  end.

(** The props the load effect and the auto-scroll effect depend on. *)
Definition same_props (h h' : ViewState) : Prop :=
  documentFile h' = documentFile h /\ fileType h' = fileType h
  /\ autoScroll h' = autoScroll h /\ scrollSpeed h' = scrollSpeed h.

End Invariant.

(** ** Sample documents and collaborators *)

Module Scenario.
Import Detect.

Definition pdf_header : list Byte.byte := [Byte.x25; Byte.x50; Byte.x44; Byte.x46].

(** A stand-in for PDF.js: a payload starting with [%PDF] decodes to a
    three-page document, anything else is rejected. *)
Definition three_pages (bytes : list Byte.byte) : option Canvas.PdfDoc :=
  match bytes with
  | Byte.x25 :: Byte.x50 :: Byte.x44 :: Byte.x46 :: _ => Some (Canvas.mkPdfDoc 3)
  | _ => None
  end.

Definition any_html (bytes : list Byte.byte) : option string := Some "<p></p>".
Definition any_text (bytes : list Byte.byte) : option string := Some "".
Definition blob_url (f : File) : string := "blob:" ++ name f.

Definition paper : File := mkFile "paper.pdf" "application/pdf" pdf_header.
Definition broken : File := mkFile "broken.pdf" "application/pdf" [Byte.x00].
Definition picture : File := mkFile "photo.png" "image/png" [].
Definition notes_docx_as_text : File := mkFile "notes.docx" "text/plain" [].
Definition untyped_pdf : File := mkFile "scan.pdf" "" pdf_header.


(** Open the three-page PDF, switch auto-scroll on, let the interval fire
    [n] times.  Handle 1 goes to the viewer instance, handle 2 to the
    interval armed when the switch is turned on. *)
Definition reading (n : nat) : list App.Event :=
  App.FileSelected [paper] :: App.AutoScrollSwitch true
    :: repeat (App.IntervalFires 2) n.

(** The same with the canvas viewer: its load has to settle before the
    interval is armed, with handle 3. *)
Definition reading_canvas (n : nat) : list App.Event :=
  App.FileSelected [paper] :: App.AutoScrollSwitch true :: App.LoadSettles 0
    :: repeat (App.IntervalFires 3) n.

Definition play (strategy : App.PdfStrategy) (es : list App.Event) : App.Sys :=
  App.run strategy three_pages any_html any_text blob_url es App.boot.

End Scenario.

(* ================================================================== *)
(** * Properties *)

Import Detect Host.

(** ** Format detection *)

Lemma endsWith_examples :
  endsWith "report.docx" ".docx" = true /\ endsWith "report.docx" ".doc" = false
  /\ endsWith "a.doc" ".docx" = false /\ endsWith ".txt" ".txt" = true
  /\ endsWith "REPORT.DOCX" ".docx" = false.
Proof. repeat split; reflexivity. Qed.

Lemma mime_pdf_not_word :
  String.eqb mime_pdf mime_docx = false /\ String.eqb mime_pdf mime_doc = false
  /\ String.eqb mime_pdf mime_txt = false.
Proof. repeat split; reflexivity. Qed.

(** A PDF media type decides, whatever the name. *)
Lemma getFileType_pdf_media (f : File) :
  type f = mime_pdf -> getFileType f = Some pdf.
Proof.
  intros H. unfold getFileType. rewrite H. reflexivity.
Qed.

(** A Word extension decides as soon as the media type is not PDF. *)
Lemma getFileType_word_extension (f : File) :
  type f <> mime_pdf ->
  endsWith (name f) ".docx" = true \/ endsWith (name f) ".doc" = true ->
  getFileType f = Some word.
Proof.
  intros Hn He. unfold getFileType.
  apply String.eqb_neq in Hn. rewrite Hn.
  destruct He as [He | He]; rewrite He; rewrite ?orb_true_r; reflexivity.
Qed.

(** C1, as stated, fails.  A file named [notes.docx] whose declared media
    type is [text/plain] matches a media-type signature (Text), yet is
    classified Word: the Word extensions are tested before the text media
    type.  A file named [scan.pdf] without media type is not classified at
    all: no [.pdf] extension test exists. *)
Lemma C1_media_type_not_first :
  by_media_type Scenario.notes_docx_as_text = Some text
  /\ detect_spec Scenario.notes_docx_as_text = Some text
  /\ getFileType Scenario.notes_docx_as_text = Some word
  /\ detect_spec Scenario.untyped_pdf = Some pdf
  /\ getFileType Scenario.untyped_pdf = None.
Proof. repeat split; reflexivity. Qed.

(** C1, amended.  [getFileType] follows the media-type-first decision order
    on every file, except that a Word extension wins over the [text/plain]
    media type; files whose name ends in [.pdf] and whose media type matches
    no signature are left aside.  A PDF media type always wins; a Word
    extension wins over everything but the PDF media type; [report.docx]
    with a media type that matches no signature is Word; a [.txt] name with
    the PDF media type is PDF. *)
Theorem C1_getFileType_decision_order (f : File) :
  ((by_media_type f = Some text ->
      endsWith (name f) ".docx" = false /\ endsWith (name f) ".doc" = false) ->
   (by_media_type f = None -> endsWith (name f) ".pdf" = false) ->
   getFileType f = detect_spec f)
  /\ (type f = mime_pdf -> getFileType f = Some pdf)
  /\ (type f <> mime_pdf ->
      endsWith (name f) ".docx" = true \/ endsWith (name f) ".doc" = true ->
      getFileType f = Some word)
  /\ (forall t d, by_media_type (mkFile "report.docx" t d) = None ->
               getFileType (mkFile "report.docx" t d) = Some word)
  /\ (forall n d, getFileType (mkFile n mime_pdf d) = Some pdf).
Proof.
  split; [| split; [| split; [| split]]].
  - unfold getFileType, detect_spec, by_media_type, by_extension.
    destruct (String.eqb (type f) mime_pdf); [reflexivity |].
    destruct (String.eqb (type f) mime_docx); [reflexivity |].
    destruct (String.eqb (type f) mime_doc); [reflexivity |].
    destruct (String.eqb (type f) mime_txt);
      destruct (endsWith (name f) ".docx") eqn:E1;
      destruct (endsWith (name f) ".doc") eqn:E2;
      destruct (endsWith (name f) ".txt") eqn:E3;
      destruct (endsWith (name f) ".pdf") eqn:E4;
      cbn; intros H1 H2;
      try reflexivity;
      try (destruct (H1 eq_refl); discriminate);
      try (specialize (H2 eq_refl); discriminate).
  - apply getFileType_pdf_media.
  - apply getFileType_word_extension.
  - intros t d H. apply getFileType_word_extension.
    + cbn. intros E. rewrite E in H. discriminate H.
    + left. reflexivity.
  - intros n d. apply getFileType_pdf_media. reflexivity.
Qed.

Lemma C1_getFileType_decision_order_witness :
  getFileType (mkFile "report.docx" "" []) = detect_spec (mkFile "report.docx" "" [])
  /\ getFileType (mkFile "report.docx" "application/octet-stream" []) = Some word
  /\ getFileType (mkFile "slides.txt" mime_pdf []) = Some pdf.
Proof.
  split; [| split].
  - apply (proj1 (C1_getFileType_decision_order (mkFile "report.docx" "" []))).
    + intros H. discriminate H.
    + intros _. reflexivity.
  - apply (proj1 (proj2 (proj2 (proj2
             (C1_getFileType_decision_order (mkFile "report.docx" "" [])))))).
    reflexivity.
  - apply (proj2 (proj2 (proj2 (proj2
             (C1_getFileType_decision_order (mkFile "report.docx" "" [])))))).
Defined.

(** ** Rejection of unsupported files *)

(** C9.  When detection fails for the selected or dropped file, the
    handler shows the message and returns the state it was given: every
    field keeps its value. *)
Theorem C9_unsupported_rejected_atomically
  (file : File) (others : list File) (st : ViewState) :
  getFileType file = None ->
  handleFileSelect (file :: others) st = (st, Some unsupported_message)
  /\ handleDrop (file :: others) st = (st, Some unsupported_message).
Proof.
  intros H. unfold handleFileSelect, handleDrop, accept_file.
  rewrite H. split; reflexivity.
Qed.

Lemma C9_unsupported_rejected_atomically_witness :
  getFileType Scenario.picture = None
  /\ handleFileSelect [Scenario.picture] initial = (initial, Some unsupported_message)
  /\ handleDrop [Scenario.picture] initial = (initial, Some unsupported_message).
Proof.
  split; [reflexivity |].
  apply (C9_unsupported_rejected_atomically Scenario.picture [] initial).
  reflexivity.
Defined.

(** ** Zoom commands *)

Local Open Scope Q_scope.

Lemma zoomIn_zoom (st : ViewState) :
  zoom (zoomIn st) = Qmin (zoom st + 0.25) 3.0.
Proof. reflexivity. Qed.

Lemma zoomOut_zoom (st : ViewState) :
  zoom (zoomOut st) = Qmax (zoom st - 0.25) 0.5.
Proof. reflexivity. Qed.

Lemma zoomIn_iter_initial (n : nat) :
  zoom (Nat.iter n zoomIn initial) == Qmin (1 + inject_Z (Z.of_nat n) * 0.25) 3.
Proof.
  induction n as [| n IH].
  - reflexivity.
  - rewrite Nat2Z.inj_succ, Nat.iter_succ, zoomIn_zoom.
    rewrite IH. unfold Z.succ. rewrite inject_Z_plus.
    set (k := inject_Z (Z.of_nat n)).
    assert (Hk : 0 <= k).
    { unfold k. change 0 with (inject_Z 0). rewrite <- Zle_Qle. lia. }
    change (inject_Z 1) with 1.
    destruct (Q.min_spec (1 + k * 0.25) 3) as [[H1 H2] | [H1 H2]];
      destruct (Q.min_spec (1 + (k + 1) * 0.25) 3) as [[H3 H4] | [H3 H4]];
      rewrite H2, H4;
      match goal with
      | |- Qmin ?a ?b == _ => destruct (Q.min_spec a b) as [[H5 H6] | [H5 H6]]
      end; rewrite H6; lra.
Qed.

(** C8.  From the initial zoom 1.0, [n] zoom-in commands give
    [min(1 + n/4, 3)]: 2.75 after seven, 3.0 after eight and after every
    later one; zoom-in at 3.0 changes nothing, zoom-in never exceeds 3.0,
    zoom-out never goes below 0.5, and both keep a zoom that lies in
    [0.5, 3.0] inside it. *)
Theorem C8_zoom_clamped :
  (forall n : nat,
      zoom (Nat.iter n zoomIn initial) == Qmin (1 + inject_Z (Z.of_nat n) * 0.25) 3)
  /\ zoom (Nat.iter 7 zoomIn initial) == 2.75
  /\ (forall n : nat, (8 <= n)%nat -> zoom (Nat.iter n zoomIn initial) == 3.0)
  /\ (forall st, zoom st == 3.0 -> zoom (zoomIn st) == 3.0)
  /\ (forall st, zoom (zoomIn st) <= 3.0)
  /\ (forall st, 0.5 <= zoom (zoomOut st))
  /\ (forall st, 0.5 <= zoom st <= 3.0 ->
                 0.5 <= zoom (zoomIn st) <= 3.0 /\ 0.5 <= zoom (zoomOut st) <= 3.0).
Proof.
  split; [exact zoomIn_iter_initial |].
  split; [reflexivity |].
  split.
  { intros n Hn. rewrite zoomIn_iter_initial. rewrite Q.min_r; [reflexivity |].
    assert (H : inject_Z 8 <= inject_Z (Z.of_nat n)) by (rewrite <- Zle_Qle; lia).
    change (inject_Z 8) with 8 in H. lra. }
  split.
  { intros st H. rewrite zoomIn_zoom. apply Q.min_r. lra. }
  split.
  { intros st. rewrite zoomIn_zoom. apply Q.le_min_r. }
  split.
  { intros st. rewrite zoomOut_zoom. apply Q.le_max_r. }
  intros st [Hlo Hhi]. rewrite zoomIn_zoom, zoomOut_zoom.
  repeat split.
  - apply Q.min_glb; lra.
  - apply Q.le_min_r.
  - apply Q.le_max_r.
  - apply Q.max_lub; lra.
Qed.

Lemma C8_zoom_clamped_witness :
  zoom (Nat.iter 9 zoomIn initial) == 3.0
  /\ zoom (zoomIn (Nat.iter 8 zoomIn initial)) == 3.0
  /\ 0.5 <= zoom (zoomOut (Nat.iter 2 zoomOut initial)) <= 3.0.
Proof.
  split; [| split].
  - apply (proj1 (proj2 (proj2 C8_zoom_clamped)) 9%nat). lia.
  - apply (proj1 (proj2 (proj2 (proj2 C8_zoom_clamped)))). reflexivity.
  - apply (proj2 (proj2 (proj2 (proj2 (proj2 (proj2 C8_zoom_clamped)))))
             (Nat.iter 2 zoomOut initial)).
    split; vm_compute; discriminate.
Defined.

(** ** Text opacity *)

Import Styles.

Lemma clamped_affine_range (base slope c : Q) :
  0 <= slope -> slope * 0.5 <= base -> 0.5 <= c ->
  0 <= clamped_affine base slope c <= 1.
Proof.
  intros Hs Hb Hc. unfold clamped_affine. split.
  - apply Q.min_glb; [lra |].
    assert (H : (c - 1) * slope >= - (0.5 * slope)).
    { setoid_replace (- (0.5 * slope)) with ((- 0.5) * slope) by ring.
      apply Qmult_le_compat_r; lra. }
    lra.
  - apply Q.le_min_l.
Qed.

Lemma clamped_affine_monotone (base slope c1 c2 : Q) :
  0 <= slope -> c1 <= c2 ->
  clamped_affine base slope c1 <= clamped_affine base slope c2.
Proof.
  intros Hs Hc. unfold clamped_affine. apply Q.min_le_compat_l.
  assert (H : (c1 - 1) * slope <= (c2 - 1) * slope)
    by (apply Qmult_le_compat_r; lra).
  lra.
Qed.

Lemma opacities_are_clamped_affine (c : Q) :
  textOpacity c = clamped_affine 0.7 0.3 c
  /\ headingOpacity c = clamped_affine 0.9 0.1 c
  /\ (forall theme, alpha (getTextColor theme c) = clamped_affine 0.8 0.2 c).
Proof.
  repeat split. intros []; reflexivity.
Qed.

Lemma resolved_colors_curves (theme : Theme) (c : Q) :
  Forall (fun col => exists base slope,
              In (base, slope) opacity_curves
              /\ alpha col = clamped_affine base slope c)
         (resolved_colors theme c).
Proof.
  assert (B : exists base slope, In (base, slope) opacity_curves
                /\ textOpacity c = clamped_affine base slope c)
    by (exists 0.7, 0.3; split; [left; reflexivity | reflexivity]).
  assert (H : exists base slope, In (base, slope) opacity_curves
                /\ headingOpacity c = clamped_affine base slope c)
    by (exists 0.9, 0.1; split; [right; left; reflexivity | reflexivity]).
  assert (T : exists base slope, In (base, slope) opacity_curves
                /\ Qmin 1 (0.8 + (c - 1) * 0.2) = clamped_affine base slope c)
    by (exists 0.8, 0.2; split; [right; right; left; reflexivity | reflexivity]).
  destruct theme; cbn; repeat constructor; assumption.
Qed.

(** C6.  For each theme, every text colour resolved at a contrast in
    [0.5, 2.0] has an opacity [min(1, base + (contrast-1)*slope)] for one of
    the pairs (0.7, 0.3) (body text), (0.9, 0.1) (headings) and (0.8, 0.2)
    (plain text); it lies in [0, 1], and raising the contrast lowers none
    of them. *)
Theorem C6_text_opacity_bounded_monotone (theme : Theme) (c1 c2 : Q) :
  contrast_in_range c1 -> contrast_in_range c2 -> c1 <= c2 ->
  Forall (fun col => (exists base slope,
                         In (base, slope) opacity_curves
                         /\ alpha col = clamped_affine base slope c1)
                     /\ 0 <= alpha col <= 1)
         (resolved_colors theme c1)
  /\ Forall2 (fun low high => alpha low <= alpha high)
             (resolved_colors theme c1) (resolved_colors theme c2).
Proof.
  intros [L1 U1] [L2 U2] Hle. split.
  - pose proof (resolved_colors_curves theme c1) as H.
    rewrite Forall_forall in *. intros col Hin. split; [apply H, Hin |].
    destruct (H col Hin) as (base & slope & Hcurve & ->).
    apply clamped_affine_range; [| | exact L1];
      cbn in Hcurve;
      destruct Hcurve as [E | [E | [E | []]]]; injection E as <- <-; lra.
  - assert (B : textOpacity c1 <= textOpacity c2)
      by (apply (clamped_affine_monotone 0.7 0.3); lra).
    assert (H : headingOpacity c1 <= headingOpacity c2)
      by (apply (clamped_affine_monotone 0.9 0.1); lra).
    assert (T : Qmin 1 (0.8 + (c1 - 1) * 0.2) <= Qmin 1 (0.8 + (c2 - 1) * 0.2))
      by (apply (clamped_affine_monotone 0.8 0.2); lra).
    destruct theme; cbn; repeat constructor; assumption.
Qed.

Lemma C6_text_opacity_bounded_monotone_witness :
  Forall (fun col => 0 <= alpha col <= 1) (resolved_colors sepia 0.5)
  /\ Forall2 (fun low high => alpha low <= alpha high)
             (resolved_colors sepia 0.5) (resolved_colors sepia 2.0).
Proof.
  assert (R1 : contrast_in_range 0.5) by (split; vm_compute; discriminate).
  assert (R2 : contrast_in_range 2.0) by (split; vm_compute; discriminate).
  assert (L : 0.5 <= 2.0) by (vm_compute; discriminate).
  destruct (C6_text_opacity_bounded_monotone sepia 0.5 2.0 R1 R2 L) as [A B].
  split; [| exact B].
  eapply Forall_impl; [| exact A]. intros col [_ H]. exact H.
Defined.

(** C10.  In the Word style sheet the heading opacity is at least the
    body-text opacity at every contrast in [0.5, 2.0], whatever the theme:
    any rule coloured with the heading opacity is at least as opaque as
    any rule coloured with the body-text opacity. *)
Theorem C10_headings_not_lighter_than_body (c : Q) :
  contrast_in_range c ->
  Qmin 1 (0.7 + (c - 1) * 0.3) <= Qmin 1 (0.9 + (c - 1) * 0.1)
  /\ textOpacity c <= headingOpacity c
  /\ forall theme h b,
       In h (getContentStyles theme c) -> In b (getContentStyles theme c) ->
       (selector h = headings \/ selector h = strong_text) ->
       (selector b = body_text \/ selector b = list_text) ->
       alpha (color b) <= alpha (color h).
Proof.
  intros [L U].
  assert (K : textOpacity c <= headingOpacity c).
  { unfold textOpacity, headingOpacity. apply Q.min_le_compat_l. lra. }
  split; [exact K | split; [exact K |]].
  intros theme h b Hh Hb Sh Sb.
  destruct theme; cbn in Hh, Hb;
    repeat (destruct Hh as [<- | Hh]; [| try contradiction]);
    repeat (destruct Hb as [<- | Hb]; [| try contradiction]);
    cbn in *;
    try exact K;
    try (destruct Sh as [Sh | Sh]; discriminate Sh);
    try (destruct Sb as [Sb | Sb]; discriminate Sb);
    try contradiction.
Qed.

Lemma C10_headings_not_lighter_than_body_witness :
  contrast_in_range 2.0 /\ textOpacity 2.0 <= headingOpacity 2.0.
Proof.
  assert (R : contrast_in_range 2.0) by (split; vm_compute; discriminate).
  split; [exact R |].
  exact (proj1 (proj2 (C10_headings_not_lighter_than_body 2.0 R))).
Defined.

(** ** The sepia filter *)

Import Canvas.

Lemma ToUint8Clamp_channel (x : Number) : channel (ToUint8Clamp x).
Proof.
  unfold channel, ToUint8Clamp. destruct x as [v |]; [| lia].
  set (clamped := Qmin (Qmax v 0) 255).
  assert (Lo : 0 <= clamped) by (apply Q.min_glb; [apply Q.le_max_r | lra]).
  assert (Hi : clamped <= 255) by apply Q.le_min_r.
  assert (F0 : (0 <= Qfloor clamped)%Z).
  { change 0%Z with (Qfloor (inject_Z 0)). apply Qfloor_resp_le. exact Lo. }
  assert (F1 : inject_Z (Qfloor clamped) <= clamped) by apply Qfloor_le.
  assert (F2 : (Qfloor clamped <= 255)%Z).
  { rewrite Zle_Qle. change (inject_Z 255) with 255. lra. }
  assert (Up : inject_Z (Qfloor clamped) + 0.5 <= clamped ->
               (Qfloor clamped + 1 <= 255)%Z).
  { intros H. assert (G : inject_Z (Qfloor clamped) < inject_Z 255)
      by (change (inject_Z 255) with 255; lra).
    rewrite <- Zlt_Qlt in G. lia. }
  destruct (clamped ?= inject_Z (Qfloor clamped) + 0.5) eqn:C.
  - apply Qeq_alt in C. destruct (Z.even (Qfloor clamped)); [lia |].
    split; [lia | apply Up; lra].
  - lia.
  - apply Qgt_alt in C. split; [lia | apply Up; lra].
Qed.

(** The stored channel is the nearest integer to the clamped value. *)
Lemma ToUint8Clamp_nearest (v : Q) :
  0 <= v <= 255 ->
  inject_Z (ToUint8Clamp (Some v)) - 0.5 <= v <= inject_Z (ToUint8Clamp (Some v)) + 0.5.
Proof.
  intros [Lo Hi]. unfold ToUint8Clamp.
  assert (E : Qmin (Qmax v 0) 255 == v).
  { rewrite Q.max_l by exact Lo. apply Q.min_l. exact Hi. }
  set (clamped := Qmin (Qmax v 0) 255) in *.
  pose proof (Qfloor_le clamped) as F1.
  pose proof (Qlt_floor clamped) as F2.
  rewrite inject_Z_plus in F2. change (inject_Z 1) with 1 in F2.
  destruct (clamped ?= inject_Z (Qfloor clamped) + 0.5) eqn:C.
  - apply Qeq_alt in C. destruct (Z.even (Qfloor clamped));
      rewrite ?inject_Z_plus; change (inject_Z 1) with 1; lra.
  - apply Qlt_alt in C. lra.
  - apply Qgt_alt in C. rewrite inject_Z_plus. change (inject_Z 1) with 1. lra.
Qed.


(** Induction along the stride of the loop. *)
Lemma stride4_ind (P : list Z -> Prop) :
  P [] -> (forall r, P [r]) -> (forall r g, P [r; g]) -> (forall r g b, P [r; g; b]) ->
  (forall r g b a rest, P rest -> P (r :: g :: b :: a :: rest)) ->
  forall data, P data.
Proof.
  intros H0 H1 H2 H3 H4 data.
  remember (length data) as n eqn:E. revert data E.
  induction n as [n IH] using lt_wf_ind. intros data E.
  destruct data as [| r [| g [| b [| a rest]]]]; auto.
  apply H4. apply (IH (length rest)); [subst n; cbn; lia | reflexivity].
Qed.

Lemma sepia_length (data : list Z) : length (sepia data) = length data.
Proof.
  induction data as [| r | r g | r g b | r g b a rest IH] using stride4_ind;
    try reflexivity.
  cbn [sepia length]. rewrite IH. reflexivity.
Qed.

Lemma sepia_channels (data : list Z) :
  Forall channel data -> Forall channel (sepia data).
Proof.
  induction data as [| r | r g | r g b | r g b a rest IH] using stride4_ind;
    intros H; cbn [sepia];
    repeat (apply Forall_cons; [apply ToUint8Clamp_channel |]);
    try apply Forall_nil.
  inversion H as [| ? ? _ T1]; inversion T1 as [| ? ? _ T2];
    inversion T2 as [| ? ? _ T3]; inversion T3 as [| ? ? Ha T4]; subst.
  apply Forall_cons; [exact Ha |].
  apply IH. exact T4.
Qed.

Lemma matrix_rows_bounded (r g b : Z) :
  channel r -> channel g -> channel b ->
  0 <= Qmin 255 (matrix_red r g b) <= 255
  /\ 0 <= Qmin 255 (matrix_green r g b) <= 255
  /\ 0 <= Qmin 255 (matrix_blue r g b) <= 255.
Proof.
  unfold channel. intros [R0 R1] [G0 G1] [B0 B1].
  rewrite Zle_Qle in R0, G0, B0. change (inject_Z 0) with 0 in *.
  unfold matrix_red, matrix_green, matrix_blue.
  repeat split; try apply Q.le_min_l; apply Q.min_glb; lra.
Qed.

(** *** In double precision *)

Lemma binary64_ToUint8Clamp_channel (x : float) : channel (Binary64.ToUint8Clamp x).
Proof.
  unfold Binary64.ToUint8Clamp.
  destruct (Prim2SF x) as [s | s | | s m e].
  - unfold channel; lia.
  - destruct s; unfold channel; lia.
  - unfold channel; lia.
  - apply ToUint8Clamp_channel.
Qed.

(** A byte read from the buffer is that integer, exactly. *)
Lemma binary64_of_element_exact (z : Z) :
  channel z -> Binary64.to_Q (Binary64.of_element (Some z)) = Some (inject_Z z).
Proof.
  intros [Lo Hi].
  assert (A : forallb (fun n => match Binary64.to_Q (Binary64.of_element (Some (Z.of_nat n))) with
                                | Some q => Z.eqb (Qnum q) (Z.of_nat n) && Pos.eqb (Qden q) 1
                                | None => false
                                end) (seq 0 256) = true)
    by (vm_compute; reflexivity).
  rewrite forallb_forall in A.
  specialize (A (Z.to_nat z)).
  rewrite Z2Nat.id in A by exact Lo.
  assert (I : In (Z.to_nat z) (seq 0 256)) by (apply in_seq; lia).
  specialize (A I).
  destruct (Binary64.to_Q (Binary64.of_element (Some z))) as [[n d] |];
    [| discriminate A].
  apply andb_true_iff in A. destruct A as [A1 A2].
  apply Z.eqb_eq in A1. apply Pos.eqb_eq in A2. cbn in A1, A2. subst.
  reflexivity.
Qed.

Lemma binary64_sepia_length (data : list Z) :
  length (Binary64.sepia data) = length data.
Proof.
  induction data as [| r | r g | r g b | r g b a rest IH] using stride4_ind;
    try reflexivity.
  cbn [Binary64.sepia length]. rewrite IH. reflexivity.
Qed.

Lemma binary64_sepia_channels (data : list Z) :
  Forall channel data -> Forall channel (Binary64.sepia data).
Proof.
  induction data as [| r | r g | r g b | r g b a rest IH] using stride4_ind;
    intros H; cbn [Binary64.sepia];
    repeat (apply Forall_cons; [apply binary64_ToUint8Clamp_channel |]);
    try apply Forall_nil.
  inversion H as [| ? ? _ T1]; inversion T1 as [| ? ? _ T2];
    inversion T2 as [| ? ? _ T3]; inversion T3 as [| ? ? Ha T4]; subst.
  apply Forall_cons; [exact Ha |].
  apply IH. exact T4.
Qed.

Local Open Scope Z_scope.

(** *** Order of binary64 numbers *)

Lemma digits2_pos_bounds (m : positive) :
  2 ^ (Zpos (digits2_pos m) - 1) <= Zpos m < 2 ^ Zpos (digits2_pos m).
Proof.
  induction m as [p IH | p IH |]; cbn [digits2_pos].
  - pose proof (Pos2Z.is_pos (digits2_pos p)) as D.
    rewrite Pos2Z.inj_succ, (Pos2Z.inj_xI p).
    replace (Z.succ (Zpos (digits2_pos p)) - 1) with (Z.succ (Zpos (digits2_pos p) - 1)) by lia.
    rewrite !Z.pow_succ_r by lia.
    set (a := 2 ^ (Zpos (digits2_pos p) - 1)) in *.
    set (b := 2 ^ Zpos (digits2_pos p)) in *. lia.
  - pose proof (Pos2Z.is_pos (digits2_pos p)) as D.
    rewrite Pos2Z.inj_succ, (Pos2Z.inj_xO p).
    replace (Z.succ (Zpos (digits2_pos p)) - 1) with (Z.succ (Zpos (digits2_pos p) - 1)) by lia.
    rewrite !Z.pow_succ_r by lia.
    set (a := 2 ^ (Zpos (digits2_pos p) - 1)) in *.
    set (b := 2 ^ Zpos (digits2_pos p)) in *. lia.
  - cbn. lia.
Qed.

(** What [valid_binary] says of a finite number: the mantissa has at most
    53 bits, the exponent is at least -1074, and above that exponent the
    mantissa has exactly 53 bits. *)
Lemma valid_finite (s : bool) (m : positive) (e : Z) :
  valid_binary (S754_finite s m e) = true ->
  Zpos m < 2 ^ 53 /\ -1074 <= e /\ (-1074 < e -> 2 ^ 52 <= Zpos m).
Proof.
  unfold SpecFloat.valid_binary, bounded, canonical_mantissa, fexp, SpecFloat.emin, prec, emax.
  intros H. apply andb_true_iff in H. destruct H as [H _].
  apply Z.eqb_eq in H.
  pose proof (digits2_pos_bounds m) as [Lo Hi].
  set (d := Zpos (digits2_pos m)) in *.
  assert (D : d <= 53) by lia.
  assert (P : 2 ^ d <= 2 ^ 53) by (apply Z.pow_le_mono_r; lia).
  split; [lia | split; [lia |]].
  intros E. assert (d = 53) by lia. replace (d - 1) with 52 in Lo by lia. exact Lo.
Qed.

Local Open Scope Q_scope.

Lemma magnitude_pos (m : positive) (e : Z) : 0 < Binary64.magnitude m e.
Proof.
  unfold Binary64.magnitude.
  apply Qmult_lt_0_compat; [reflexivity | apply Qpower_0_lt; reflexivity].
Qed.

Lemma magnitude_exponent (m1 m2 : positive) (e1 e2 : Z) :
  (e1 < e2)%Z -> (Zpos m1 < 2 ^ 53)%Z -> (2 ^ 52 <= Zpos m2)%Z ->
  Binary64.magnitude m1 e1 < Binary64.magnitude m2 e2.
Proof.
  intros E M1 M2. unfold Binary64.magnitude.
  replace e2 with (e1 + (e2 - e1))%Z by lia.
  rewrite Qpower_plus by discriminate.
  assert (P : 0 < 2 ^ e1) by (apply Qpower_0_lt; reflexivity).
  assert (D : inject_Z 2 <= 2 ^ (e2 - e1)).
  { change (inject_Z 2) with (2 ^ 1). apply Qpower_le_compat_l; [lia | discriminate]. }
  change (inject_Z 2) with 2 in D.
  assert (A : inject_Z (Zpos m1) < inject_Z (2 ^ 53)) by (rewrite <- Zlt_Qlt; exact M1).
  assert (B : inject_Z (2 ^ 52) <= inject_Z (Zpos m2)) by (rewrite <- Zle_Qle; exact M2).
  set (a := inject_Z (Zpos m1)) in *. set (b := inject_Z (Zpos m2)) in *.
  set (p := 2 ^ e1) in *. set (q := 2 ^ (e2 - e1)) in *.
  assert (A' : a < 9007199254740992) by exact A.
  assert (B' : 4503599627370496 <= b) by exact B.
  assert (K : a < b * q) by nra.
  nra.
Qed.

Lemma magnitude_mantissa (m1 m2 : positive) (e : Z) :
  match (m1 ?= m2)%positive with
  | Lt => Binary64.magnitude m1 e < Binary64.magnitude m2 e
  | Eq => m1 = m2
  | Gt => Binary64.magnitude m2 e < Binary64.magnitude m1 e
  end.
Proof.
  assert (P : 0 < 2 ^ e) by (apply Qpower_0_lt; reflexivity).
  unfold Binary64.magnitude.
  destruct (m1 ?= m2)%positive eqn:C.
  - apply Pos.compare_eq in C. exact C.
  - apply Pos.compare_lt_iff in C.
    apply Qmult_lt_compat_r; [exact P |]. rewrite <- Zlt_Qlt.
    apply Pos2Z.pos_lt_pos. exact C.
  - apply Pos.compare_gt_iff in C.
    apply Qmult_lt_compat_r; [exact P |]. rewrite <- Zlt_Qlt.
    apply Pos2Z.pos_lt_pos. exact C.
Qed.

(** The comparison of the specification agrees with the order of the
    rationals on valid positive finite numbers. *)
Lemma SFcompare_magnitude (m1 m2 : positive) (e1 e2 : Z) :
  valid_binary (S754_finite false m1 e1) = true ->
  valid_binary (S754_finite false m2 e2) = true ->
  match SFcompare (S754_finite false m1 e1) (S754_finite false m2 e2) with
  | Some Lt => Binary64.magnitude m1 e1 < Binary64.magnitude m2 e2
  | Some Eq => m1 = m2 /\ e1 = e2
  | Some Gt => Binary64.magnitude m2 e2 < Binary64.magnitude m1 e1
  | None => False
  end.
Proof.
  intros V1 V2.
  destruct (valid_finite _ _ _ V1) as (A1 & B1 & C1).
  destruct (valid_finite _ _ _ V2) as (A2 & B2 & C2).
  cbn [SFcompare].
  destruct (Z.compare_spec e1 e2) as [E | E | E].
  - subst e2.
    pose proof (magnitude_mantissa m1 m2 e1) as M.
    change (Pos.compare_cont Eq m1 m2) with (m1 ?= m2)%positive.
    destruct (m1 ?= m2)%positive; [split; [exact M | reflexivity] | exact M | exact M].
  - apply magnitude_exponent; [exact E | exact A1 | apply C2; lia].
  - apply magnitude_exponent; [exact E | exact A2 | apply C1; lia].
Qed.

Lemma rational_false (m : positive) (e : Z) :
  Binary64.rational false m e == Binary64.magnitude m e.
Proof. unfold Binary64.rational. apply Qred_correct. Qed.

Lemma rational_true (m : positive) (e : Z) :
  Binary64.rational true m e < 0.
Proof.
  unfold Binary64.rational. rewrite Qred_correct.
  pose proof (magnitude_pos m e). lra.
Qed.

(** What a comparison with a positive finite number [c] says of [x]. *)
Lemma leb_upper (x c : float) (mc : positive) (ec : Z) :
  Prim2SF c = S754_finite false mc ec -> (x <=? c)%float = true ->
  match Prim2SF x with
  | S754_nan => False
  | S754_infinity s => s = true
  | S754_zero _ => True
  | S754_finite s m e => Binary64.rational s m e <= Binary64.magnitude mc ec
  end.
Proof.
  intros C H. rewrite FloatAxioms.leb_spec, C in H.
  pose proof (Prim2SF_valid x) as Vx. pose proof (Prim2SF_valid c) as Vc.
  rewrite C in Vc.
  destruct (Prim2SF x) as [s | s | | s m e]; try exact I.
  - destruct s; [reflexivity | discriminate H].
  - discriminate H.
  - destruct s.
    + pose proof (rational_true m e). pose proof (magnitude_pos mc ec). lra.
    + rewrite rational_false.
      pose proof (SFcompare_magnitude m mc e ec Vx Vc) as M.
      unfold SFleb in H.
      destruct (SFcompare (S754_finite false m e) (S754_finite false mc ec)) as [[| |] |];
        try discriminate H.
      * destruct M as [-> ->]. apply Qle_refl.
      * apply Qlt_le_weak, M.
Qed.

Lemma ltb_upper (x c : float) (mc : positive) (ec : Z) :
  Prim2SF c = S754_finite false mc ec -> (x <? c)%float = true ->
  match Prim2SF x with
  | S754_nan => False
  | S754_infinity s => s = true
  | S754_zero _ => True
  | S754_finite s m e => Binary64.rational s m e < Binary64.magnitude mc ec
  end.
Proof.
  intros C H. rewrite FloatAxioms.ltb_spec, C in H.
  pose proof (Prim2SF_valid x) as Vx. pose proof (Prim2SF_valid c) as Vc.
  rewrite C in Vc.
  destruct (Prim2SF x) as [s | s | | s m e]; try exact I.
  - destruct s; [reflexivity | discriminate H].
  - discriminate H.
  - destruct s.
    + pose proof (rational_true m e). pose proof (magnitude_pos mc ec). lra.
    + rewrite rational_false.
      pose proof (SFcompare_magnitude m mc e ec Vx Vc) as M.
      unfold SFltb in H.
      destruct (SFcompare (S754_finite false m e) (S754_finite false mc ec)) as [[| |] |];
        try discriminate H.
      exact M.
Qed.

Lemma leb_lower (x c : float) (mc : positive) (ec : Z) :
  Prim2SF c = S754_finite false mc ec -> (c <=? x)%float = true ->
  match Prim2SF x with
  | S754_infinity s => s = false
  | S754_finite s m e => Binary64.magnitude mc ec <= Binary64.rational s m e
  | S754_nan | S754_zero _ => False
  end.
Proof.
  intros C H. rewrite FloatAxioms.leb_spec, C in H.
  pose proof (Prim2SF_valid x) as Vx. pose proof (Prim2SF_valid c) as Vc.
  rewrite C in Vc.
  destruct (Prim2SF x) as [s | s | | s m e].
  - destruct s; discriminate H.
  - destruct s; [discriminate H | reflexivity].
  - discriminate H.
  - destruct s; [discriminate H |].
    rewrite rational_false.
    pose proof (SFcompare_magnitude mc m ec e Vc Vx) as M.
    unfold SFleb in H.
    destruct (SFcompare (S754_finite false mc ec) (S754_finite false m e)) as [[| |] |];
      try discriminate H.
    + destruct M as [-> ->]. apply Qle_refl.
    + apply Qlt_le_weak, M.
Qed.

Lemma ltb_lower (x c : float) (mc : positive) (ec : Z) :
  Prim2SF c = S754_finite false mc ec -> (c <? x)%float = true ->
  match Prim2SF x with
  | S754_infinity s => s = false
  | S754_finite s m e => Binary64.magnitude mc ec < Binary64.rational s m e
  | S754_nan | S754_zero _ => False
  end.
Proof.
  intros C H. rewrite FloatAxioms.ltb_spec, C in H.
  pose proof (Prim2SF_valid x) as Vx. pose proof (Prim2SF_valid c) as Vc.
  rewrite C in Vc.
  destruct (Prim2SF x) as [s | s | | s m e].
  - destruct s; discriminate H.
  - destruct s; [discriminate H | reflexivity].
  - discriminate H.
  - destruct s; [discriminate H |].
    rewrite rational_false.
    pose proof (SFcompare_magnitude mc m ec e Vc Vx) as M.
    unfold SFltb in H.
    destruct (SFcompare (S754_finite false mc ec) (S754_finite false m e)) as [[| |] |];
      try discriminate H.
    exact M.
Qed.

(** *** Rounding on the rationals *)

Lemma round_to_zero (v : Q) : v <= 0.5 -> ToUint8Clamp (Some v) = 0%Z.
Proof.
  intros H. unfold ToUint8Clamp.
  set (c := Qmin (Qmax v 0) 255).
  assert (C0 : 0 <= c) by (apply Q.min_glb; [apply Q.le_max_r | lra]).
  assert (C1 : c <= 0.5).
  { unfold c. apply Qle_trans with (Qmax v 0); [apply Q.le_min_l |].
    apply Q.max_lub; lra. }
  assert (F : Qfloor c = 0%Z).
  { pose proof (Qfloor_le c) as F1. pose proof (Qlt_floor c) as F2.
    rewrite inject_Z_plus in F2. change (inject_Z 1) with 1 in F2.
    assert (A : inject_Z (Qfloor c) < inject_Z 1) by (change (inject_Z 1) with 1; lra).
    assert (B : inject_Z (-1) < inject_Z (Qfloor c)) by (change (inject_Z (-1)) with (-1); lra).
    rewrite <- Zlt_Qlt in A, B. lia. }
  rewrite F. change (inject_Z 0 + 0.5) with 0.5.
  destruct (Qcompare_spec c 0.5) as [E | L | G]; [reflexivity | reflexivity | lra].
Qed.

Lemma round_to_byte (v : Q) (z : Z) :
  (0 <= z <= 255)%Z ->
  inject_Z z - 0.5 < v < inject_Z z + 0.5
  \/ (Z.even z = true /\ inject_Z z - 0.5 <= v <= inject_Z z + 0.5) ->
  ToUint8Clamp (Some v) = z.
Proof.
  intros [Z0 Z1] H. unfold ToUint8Clamp.
  set (c := Qmin (Qmax v 0) 255).
  rewrite Zle_Qle in Z0, Z1. change (inject_Z 0) with 0 in Z0.
  change (inject_Z 255) with 255 in Z1.
  assert (Hc : inject_Z z - 0.5 < c < inject_Z z + 0.5
               \/ (Z.even z = true /\ inject_Z z - 0.5 <= c <= inject_Z z + 0.5)).
  { destruct (Q.max_spec v 0) as [[A Em] | [A Em]];
      destruct (Q.min_spec (Qmax v 0) 255) as [[B Ec] | [B Ec]];
      fold c in Ec; set (m := Qmax v 0) in *; clearbody m c;
      (destruct H as [H | [Ev H]]; [left | right; split; [exact Ev |]]); lra. }
  clearbody c. clear H.
  pose proof (Qfloor_le c) as F1. pose proof (Qlt_floor c) as F2.
  rewrite inject_Z_plus in F2. change (inject_Z 1) with 1 in F2.
  assert (Fz : (Qfloor c = z \/ Qfloor c = z - 1)%Z).
  { assert (A : inject_Z (Qfloor c) < inject_Z (z + 1)).
    { rewrite inject_Z_plus. change (inject_Z 1) with 1. destruct Hc as [Hc | [_ Hc]]; lra. }
    assert (B : inject_Z (z - 2) < inject_Z (Qfloor c)).
    { unfold Z.sub. rewrite inject_Z_plus. change (inject_Z (- (2))) with (-2).
      destruct Hc as [Hc | [_ Hc]]; lra. }
    rewrite <- Zlt_Qlt in A, B. lia. }
  destruct Fz as [F | F]; rewrite F.
  - rewrite F in F1, F2. clear F.
    destruct (Qcompare_spec c (inject_Z z + 0.5)) as [E | L | G].
    + destruct Hc as [Hc | [Ev _]]; [exfalso; lra | rewrite Ev; reflexivity].
    + reflexivity.
    + exfalso. destruct Hc as [Hc | [_ Hc]]; lra.
  - rewrite F in F1, F2. clear F.
    assert (I1 : inject_Z (z - 1) == inject_Z z - 1).
    { unfold Z.sub. rewrite inject_Z_plus. reflexivity. }
    set (y := inject_Z (z - 1)) in *.
    destruct (Qcompare_spec c (y + 0.5)) as [E | L | G].
    + destruct Hc as [Hc | [Ev _]]; [exfalso; lra |].
      rewrite Z.even_sub, Ev. cbn. lia.
    + exfalso. destruct Hc as [Hc | [_ Hc]]; lra.
    + lia.
Qed.

Local Open Scope Z_scope.

(** *** The comparisons decide the byte *)

Lemma byte_range (P : Z -> Prop) :
  (forall n, In n (seq 0 256) -> P (Z.of_nat n)) ->
  forall z, 0 <= z <= 255 -> P z.
Proof.
  intros H z Hz. rewrite <- (Z2Nat.id z) by lia. apply H. apply in_seq. lia.
Qed.

(** The numbers [k + 0.5] and [k - 0.5] for a byte [k]. *)
Lemma thresholds (z : Z) :
  0 <= z <= 255 ->
  let K := of_uint63 (of_Z z) in
  (exists m e, Prim2SF (K + 0.5) = S754_finite false m e
               /\ (Binary64.magnitude m e == inject_Z z + 0.5)%Q)
  /\ (1 <= z ->
      exists m e, Prim2SF (K - 0.5) = S754_finite false m e
                  /\ (Binary64.magnitude m e == inject_Z z - 0.5)%Q).
Proof.
  revert z. apply byte_range.
  assert (A : forallb (fun n =>
                let z := Z.of_nat n in
                let K := of_uint63 (of_Z z) in
                match Prim2SF (K + 0.5) with
                | S754_finite false m e =>
                    Qeq_bool (Binary64.magnitude m e) (inject_Z z + 0.5)
                | _ => false
                end
                && ((z =? 0)
                    || match Prim2SF (K - 0.5) with
                       | S754_finite false m e =>
                           Qeq_bool (Binary64.magnitude m e) (inject_Z z - 0.5)
                       | _ => false
                       end)) (seq 0 256) = true)
    by (vm_compute; reflexivity).
  rewrite forallb_forall in A.
  intros n Hn. specialize (A n Hn). cbv zeta in A |- *.
  apply andb_true_iff in A. destruct A as [A1 A2].
  split.
  - destruct (Prim2SF (of_uint63 (of_Z (Z.of_nat n)) + 0.5)) as [| | | [|] m e];
      try discriminate A1.
    exists m, e. split; [reflexivity | apply Qeq_bool_iff, A1].
  - intros Hz. apply orb_true_iff in A2. destruct A2 as [A2 | A2].
    + apply Z.eqb_eq in A2. lia.
    + destruct (Prim2SF (of_uint63 (of_Z (Z.of_nat n)) - 0.5)) as [| | | [|] m e];
        try discriminate A2.
      exists m, e. split; [reflexivity | apply Qeq_bool_iff, A2].
Qed.

Lemma is_even_spec (k : int) : Pixels.is_even k = true -> Z.even (to_Z k) = true.
Proof.
  unfold Pixels.is_even. intros H. apply Uint63.eqb_correct in H.
  apply (f_equal to_Z) in H. rewrite Uint63.mod_spec in H.
  change (to_Z 2) with 2 in H. change (to_Z 0) with 0 in H.
  rewrite Zeven_mod. rewrite H. reflexivity.
Qed.

Lemma rounds_to_sound (x : float) (k : int) :
  0 <= to_Z k <= 255 -> Pixels.rounds_to x k = true ->
  Binary64.ToUint8Clamp x = to_Z k.
Proof.
  intros Hk H. unfold Pixels.rounds_to in H. cbv zeta in H.
  destruct (thresholds (to_Z k) Hk) as [(ma & ea & Pa & Va) Lo].
  rewrite Uint63.of_to_Z in Pa.
  unfold Binary64.ToUint8Clamp.
  destruct (k =? 0)%uint63 eqn:K0.
  - apply Uint63.eqb_correct in K0. subst k. change (to_Z 0) with 0 in *.
    pose proof (leb_upper x _ ma ea Pa H) as U.
    destruct (Prim2SF x) as [s | s | | s m e]; try reflexivity.
    + subst s. reflexivity.
    + apply round_to_zero. change (inject_Z 0 + 0.5)%Q with 0.5%Q in Va.
      rewrite Va in U. exact U.
  - assert (K1 : 1 <= to_Z k).
    { destruct (Z.eq_dec (to_Z k) 0) as [E | E]; [| lia].
      exfalso. apply Uint63.eqb_false_correct in K0. apply K0.
      rewrite <- (Uint63.of_to_Z k), E. reflexivity. }
    destruct (Lo K1) as (mb & eb & Pb & Vb). rewrite Uint63.of_to_Z in Pb.
    destruct (Pixels.is_even k) eqn:Ev.
    + apply is_even_spec in Ev.
      destruct (of_uint63 k - 0.5 <=? x)%float eqn:L; [| discriminate H].
      pose proof (leb_lower x _ mb eb Pb L) as D.
      pose proof (leb_upper x _ ma ea Pa H) as U.
      destruct (Prim2SF x) as [s | s | | s m e]; try contradiction.
      * congruence.
      * apply round_to_byte; [exact Hk |]. right. split; [exact Ev |].
        rewrite Va in U. rewrite Vb in D. split; assumption.
    + destruct (of_uint63 k - 0.5 <? x)%float eqn:L; [| discriminate H].
      pose proof (ltb_lower x _ mb eb Pb L) as D.
      pose proof (ltb_upper x _ ma ea Pa H) as U.
      destruct (Prim2SF x) as [s | s | | s m e]; try contradiction.
      * congruence.
      * apply round_to_byte; [exact Hk |]. left.
        rewrite Va in U. rewrite Vb in D. split; assumption.
Qed.

(** *** The integers of the test *)

Lemma to_Z_small (z : Z) : 0 <= z < 2 ^ 62 -> to_Z (of_Z z) = z.
Proof.
  intros H. rewrite Uint63.of_Z_spec. apply Z.mod_small.
  change wB with (2 ^ 63). change (2 ^ 62) with 4611686018427387904 in H.
  change (2 ^ 63) with 9223372036854775808. lia.
Qed.

Lemma cap_spec (n : int) : to_Z (Pixels.cap n) = Z.min (to_Z n) 255000.
Proof.
  unfold Pixels.cap. destruct (n <? 255000)%uint63 eqn:L.
  - apply Uint63.ltb_spec in L. change (to_Z 255000) with 255000 in L. lia.
  - assert (~ to_Z n < 255000).
    { intros C. change 255000 with (to_Z 255000) in C. apply Uint63.ltb_spec in C. congruence. }
    change (to_Z 255000) with 255000. lia.
Qed.

Lemma near_sound (x : float) (n : int) :
  Pixels.near x n = true ->
  -500 <= 1000 * Binary64.ToUint8Clamp x - Z.min (to_Z n) 255000 <= 500.
Proof.
  intros H. unfold Pixels.near in H. cbv zeta in H.
  pose proof (Uint63.to_Z_bounded n) as Hn.
  pose proof (cap_spec n) as C.
  set (n' := Pixels.cap n) in *. set (N := Z.min (to_Z n) 255000) in *.
  assert (HN : 0 <= N <= 255000) by (unfold N; lia).
  assert (S : to_Z (n' + 500) = N + 500).
  { rewrite Uint63.add_spec, C. change (to_Z 500) with 500. apply Z.mod_small.
    change wB with 9223372036854775808. lia. }
  assert (K : to_Z ((n' + 500) / 1000) = (N + 500) / 1000).
  { rewrite Uint63.div_spec, S. reflexivity. }
  pose proof (Z.div_mod (N + 500) 1000 ltac:(lia)) as DM.
  pose proof (Z.mod_pos_bound (N + 500) 1000 ltac:(lia)) as MB.
  set (k := ((n' + 500) / 1000)%uint63) in *.
  set (q := (N + 500) / 1000) in *. set (r := (N + 500) mod 1000) in *.
  assert (Hq : 0 <= q <= 255) by lia.
  destruct (Pixels.rounds_to x k) eqn:R1.
  - rewrite (rounds_to_sound x k) by (rewrite ?K; assumption). rewrite K. lia.
  - destruct (n' mod 1000 =? 500)%uint63 eqn:T; [| discriminate H].
    apply Uint63.eqb_correct in T. apply (f_equal to_Z) in T.
    rewrite Uint63.mod_spec, C in T. change (to_Z 1000) with 1000 in T.
    change (to_Z 500) with 500 in T.
    pose proof (Z.div_mod N 1000 ltac:(lia)) as DN. rewrite T in DN.
    assert (R0 : r = 0).
    { unfold r. replace (N + 500) with ((N / 1000 + 1) * 1000) by lia.
      apply Z.mod_mul. lia. }
    assert (K' : to_Z (k - 1) = q - 1).
    { rewrite Uint63.sub_spec, K. change (to_Z 1) with 1. apply Z.mod_small.
      change wB with 9223372036854775808. lia. }
    rewrite (rounds_to_sound x (k - 1)) by (rewrite ?K'; try assumption; lia).
    rewrite K'. lia.
Qed.

(** *** Every pixel *)

Lemma sweep_all : Pixels.sweep Pixels.bytes = true.
Proof. vm_compute. reflexivity. Qed.


Lemma in_bytes (z : Z) : channel z -> In (of_Z z) Pixels.bytes.
Proof.
  intros [Lo Hi]. unfold Pixels.bytes. apply in_map_iff.
  exists (Z.to_nat z). split; [rewrite Z2Nat.id by lia; reflexivity | apply in_seq; lia].
Qed.

Lemma mul_small (c : int) (z : Z) :
  0 <= to_Z c <= 1000 -> channel z -> to_Z (c * of_Z z) = to_Z c * z.
Proof.
  intros Hc [Lo Hi]. rewrite Uint63.mul_spec, to_Z_small; [| change (2 ^ 62) with 4611686018427387904; lia].
  apply Z.mod_small. change wB with 9223372036854775808. nia.
Qed.

Lemma add_small (a b : int) :
  to_Z a + to_Z b < 2 ^ 62 -> to_Z (a + b) = to_Z a + to_Z b.
Proof.
  intros H. rewrite Uint63.add_spec. apply Z.mod_small.
  pose proof (Uint63.to_Z_bounded a). pose proof (Uint63.to_Z_bounded b).
  change (2 ^ 62) with 4611686018427387904 in H.
  change wB with 9223372036854775808 in *. lia.
Qed.

Lemma row_small (c1 c2 c3 : int) (r g b : Z) :
  0 <= to_Z c1 <= 1000 -> 0 <= to_Z c2 <= 1000 -> 0 <= to_Z c3 <= 1000 ->
  channel r -> channel g -> channel b ->
  to_Z (c1 * of_Z r + c2 * of_Z g + c3 * of_Z b)
  = to_Z c1 * r + to_Z c2 * g + to_Z c3 * b.
Proof.
  intros H1 H2 H3 Hr Hg Hb.
  pose proof (mul_small c1 r H1 Hr) as M1.
  pose proof (mul_small c2 g H2 Hg) as M2.
  pose proof (mul_small c3 b H3 Hb) as M3.
  destruct Hr, Hg, Hb.
  assert (A : to_Z (c1 * of_Z r + c2 * of_Z g) = to_Z c1 * r + to_Z c2 * g).
  { rewrite add_small; rewrite M1, M2; [reflexivity |].
    change (2 ^ 62) with 4611686018427387904. nia. }
  rewrite add_small; rewrite A, M3; [reflexivity |].
  change (2 ^ 62) with 4611686018427387904. nia.
Qed.

Lemma sweep_sound (rs : list int) :
  Pixels.sweep rs = true ->
  forall r g b, In r rs -> In g Pixels.bytes -> In b Pixels.bytes ->
  Pixels.near (Binary64.sepia_red (of_uint63 r) (of_uint63 g) (of_uint63 b))
              (393 * r + 769 * g + 189 * b)%uint63 = true
  /\ Pixels.near (Binary64.sepia_green (of_uint63 r) (of_uint63 g) (of_uint63 b))
                 (349 * r + 686 * g + 168 * b)%uint63 = true
  /\ Pixels.near (Binary64.sepia_blue (of_uint63 r) (of_uint63 g) (of_uint63 b))
                 (272 * r + 534 * g + 131 * b)%uint63 = true.
Proof.
  intros S r g b Hr Hg Hb. unfold Pixels.sweep in S.
  rewrite forallb_forall in S. specialize (S r Hr). cbv beta zeta in S.
  rewrite forallb_forall in S. specialize (S g Hg). cbv beta zeta in S.
  rewrite forallb_forall in S. specialize (S b Hb). cbv beta zeta in S.
  unfold Binary64.sepia_red, Binary64.sepia_green, Binary64.sepia_blue.
  destruct (Pixels.near _ (393 * r + 769 * g + 189 * b)%uint63);
    [| discriminate S].
  destruct (Pixels.near _ (349 * r + 686 * g + 168 * b)%uint63);
    [| discriminate S].
  split; [reflexivity | split; [reflexivity | exact S]].
Qed.

(** The comparison test holds of the three channels of every pixel. *)
Lemma every_pixel (r g b : Z) :
  channel r -> channel g -> channel b ->
  let R := Binary64.of_element (Some r) in
  let G := Binary64.of_element (Some g) in
  let B := Binary64.of_element (Some b) in
  Pixels.near (Binary64.sepia_red R G B)
              (393 * of_Z r + 769 * of_Z g + 189 * of_Z b)%uint63 = true
  /\ Pixels.near (Binary64.sepia_green R G B)
                 (349 * of_Z r + 686 * of_Z g + 168 * of_Z b)%uint63 = true
  /\ Pixels.near (Binary64.sepia_blue R G B)
                 (272 * of_Z r + 534 * of_Z g + 131 * of_Z b)%uint63 = true.
Proof.
  intros Hr Hg Hb.
  exact (sweep_sound Pixels.bytes sweep_all (of_Z r) (of_Z g) (of_Z b)
           (in_bytes r Hr) (in_bytes g Hg) (in_bytes b Hb)).
Qed.

Local Open Scope Q_scope.

Lemma nearest_of_scaled (byte N : Z) (row : Q) :
  row * 1000 == inject_Z N ->
  (-500 <= 1000 * byte - Z.min N 255000 <= 500)%Z ->
  inject_Z byte - 0.5 <= Qmin 255 row <= inject_Z byte + 0.5.
Proof.
  intros E [H1 H2].
  assert (A1 : (Z.min N 255000 <= 1000 * byte + 500)%Z) by lia.
  assert (A2 : (1000 * byte <= Z.min N 255000 + 500)%Z) by lia.
  clear H1 H2.
  rewrite Zle_Qle in A1, A2.
  rewrite inject_Z_plus, inject_Z_mult in A1, A2.
  change (inject_Z 1000) with 1000 in *. change (inject_Z 500) with 500 in *.
  destruct (Z.min_spec N 255000) as [[L M] | [L M]]; rewrite M in A1, A2; clear M;
    [rewrite Zlt_Qlt in L | rewrite Zle_Qle in L];
    change (inject_Z 255000) with 255000 in *;
    set (y := inject_Z byte) in *; set (n := inject_Z N) in *; clearbody y n;
    destruct (Q.min_spec 255 row) as [[B M] | [B M]];
    set (m := Qmin 255 row) in *; clearbody m; split; lra.
Qed.

Lemma matrix_scaled (r g b : Z) :
  matrix_red r g b * 1000 == inject_Z (393 * r + 769 * g + 189 * b)
  /\ matrix_green r g b * 1000 == inject_Z (349 * r + 686 * g + 168 * b)
  /\ matrix_blue r g b * 1000 == inject_Z (272 * r + 534 * g + 131 * b).
Proof.
  unfold matrix_red, matrix_green, matrix_blue.
  rewrite !inject_Z_plus, !inject_Z_mult.
  repeat split; ring.
Qed.

Lemma channel_nearest (x : float) (c1 c2 c3 : int) (r g b : Z) (row : Q) :
  (0 <= to_Z c1 <= 1000)%Z -> (0 <= to_Z c2 <= 1000)%Z -> (0 <= to_Z c3 <= 1000)%Z ->
  channel r -> channel g -> channel b ->
  row * 1000 == inject_Z (to_Z c1 * r + to_Z c2 * g + to_Z c3 * b) ->
  Pixels.near x (c1 * of_Z r + c2 * of_Z g + c3 * of_Z b)%uint63 = true ->
  inject_Z (Binary64.ToUint8Clamp x) - 0.5 <= Qmin 255 row
  <= inject_Z (Binary64.ToUint8Clamp x) + 0.5.
Proof.
  intros H1 H2 H3 Hr Hg Hb E N.
  pose proof (row_small c1 c2 c3 r g b H1 H2 H3 Hr Hg Hb) as T.
  apply near_sound in N. rewrite T in N.
  apply (nearest_of_scaled _ _ _ E N).
Qed.

(** C7.  On a pixel (r, g, b, a) with channels in [0, 255] the filter
    reads the three channels exactly and assigns to each colour channel
    the row of the fixed matrix on them, evaluated in double precision as
    lines 296-298 write it and capped at 255 by [Math.min]; the byte the
    buffer keeps is a nearest integer to the exact matrix row capped at
    255 (where that row falls on a half, the rounded sum decides between
    the two neighbours) and is in [0, 255]; the alpha channel is
    untouched; and on a whole buffer with channels in [0, 255] every
    output channel is in [0, 255] and the buffer keeps its length. *)
Theorem C7_sepia_matrix_clamped (r g b a : Z) (rest : list Z) :
  channel r -> channel g -> channel b ->
  let R := Binary64.of_element (Some r) in
  let G := Binary64.of_element (Some g) in
  let B := Binary64.of_element (Some b) in
  let red := Binary64.Math_min 255 (R * 0.393 + G * 0.769 + B * 0.189)%float in
  let green := Binary64.Math_min 255 (R * 0.349 + G * 0.686 + B * 0.168)%float in
  let blue := Binary64.Math_min 255 (R * 0.272 + G * 0.534 + B * 0.131)%float in
  (Binary64.to_Q R = Some (inject_Z r) /\ Binary64.to_Q G = Some (inject_Z g)
   /\ Binary64.to_Q B = Some (inject_Z b))
  /\ (exists r' g' b',
         Binary64.sepia (r :: g :: b :: a :: rest)
         = r' :: g' :: b' :: a :: Binary64.sepia rest
         /\ r' = Binary64.ToUint8Clamp red
         /\ g' = Binary64.ToUint8Clamp green
         /\ b' = Binary64.ToUint8Clamp blue
         /\ inject_Z r' - 0.5 <= Qmin 255 (matrix_red r g b) <= inject_Z r' + 0.5
         /\ inject_Z g' - 0.5 <= Qmin 255 (matrix_green r g b) <= inject_Z g' + 0.5
         /\ inject_Z b' - 0.5 <= Qmin 255 (matrix_blue r g b) <= inject_Z b' + 0.5
         /\ channel r' /\ channel g' /\ channel b')
  /\ (forall data, Forall channel data ->
                   Forall channel (Binary64.sepia data)
                   /\ length (Binary64.sepia data) = length data).
Proof.
  intros Hr Hg Hb R G B red green blue.
  split; [| split].
  - repeat split; apply binary64_of_element_exact; assumption.
  - destruct (every_pixel r g b Hr Hg Hb) as (N1 & N2 & N3).
    destruct (matrix_scaled r g b) as (E1 & E2 & E3).
    exists (Binary64.ToUint8Clamp red), (Binary64.ToUint8Clamp green),
      (Binary64.ToUint8Clamp blue).
    split; [reflexivity |].
    do 3 (split; [reflexivity |]).
    split; [| split; [| split]].
    + apply (channel_nearest red 393 769 189 r g b); try assumption; now vm_compute.
    + apply (channel_nearest green 349 686 168 r g b); try assumption; now vm_compute.
    + apply (channel_nearest blue 272 534 131 r g b); try assumption; now vm_compute.
    + repeat split; apply binary64_ToUint8Clamp_channel.
  - intros data H. split; [apply binary64_sepia_channels, H | apply binary64_sepia_length].
Qed.

Lemma C7_sepia_matrix_clamped_witness :
  Binary64.sepia [0; 50; 25; 255; 100; 150; 201; 7]%Z
  = [43; 39; 30; 255; 193; 172; 134; 7]%Z
  /\ Forall channel (Binary64.sepia [0; 50; 25; 255; 100; 150; 201; 7]%Z).
Proof.
  assert (W : forall x, (0 <= x <= 255)%Z -> channel x) by (intros x H; exact H).
  destruct (C7_sepia_matrix_clamped 0 50 25 255 [100; 150; 201; 7]%Z
              (W 0%Z ltac:(lia)) (W 50%Z ltac:(lia)) (W 25%Z ltac:(lia)))
    as (_ & _ & H).
  split; [vm_compute; reflexivity |].
  apply H. repeat constructor; unfold channel; lia.
Defined.

(** Where the exact row is a half, rounding the sum decides the byte: on
    the pixel (0, 50, 25) the green row is 38.5 exactly and
    38.500000000000007 in double precision. *)
Remark sepia_tie :
  sepia [0; 50; 25; 255]%Z = [43; 38; 30; 255]%Z
  /\ Binary64.sepia [0; 50; 25; 255]%Z = [43; 39; 30; 255]%Z.
Proof. split; vm_compute; reflexivity. Qed.

(** ** Loading a PDF *)

Lemma canvas_loadPDF_reports
  (getDocument : list Byte.byte -> option PdfDoc) (f : File) (st : Canvas.ViewerState) :
  snd (Canvas.loadPDF getDocument f st) = option_map numPages (getDocument (data f)).
Proof.
  unfold Canvas.loadPDF. destruct (getDocument (data f)); reflexivity.
Qed.

(** C5 (defect of the iframe viewer).  The canvas viewer reports the page
    count of the decoded document and nothing when decoding fails; the
    iframe viewer, the one the host is linked with, decodes nothing and
    reports 100 for every file: for the three-page sample and for the
    sample whose payload is not a PDF alike. *)
Theorem C5_iframe_reports_placeholder_count :
  (forall createObjectURL f st, snd (Iframe.loadPDF createObjectURL f st) = Some 100%Z)
  /\ Scenario.three_pages (data Scenario.paper) = Some (mkPdfDoc 3)
  /\ snd (Canvas.loadPDF Scenario.three_pages Scenario.paper (Canvas.mkViewer true None))
     = Some 3%Z
  /\ snd (Iframe.loadPDF Scenario.blob_url Scenario.paper (Iframe.mkViewer "" true))
     = Some 100%Z
  /\ Scenario.three_pages (data Scenario.broken) = None
  /\ snd (Canvas.loadPDF Scenario.three_pages Scenario.broken (Canvas.mkViewer true None))
     = None
  /\ snd (Iframe.loadPDF Scenario.blob_url Scenario.broken (Iframe.mkViewer "" true))
     = Some 100%Z.
Proof. repeat split. Qed.

(** ** Auto-advance *)

Lemma canvas_tick_spec (doc : PdfDoc) (k : Z) :
  ((k < numPages doc)%Z -> Canvas.tick doc k = (k + 1)%Z)
  /\ ((numPages doc <= k)%Z -> Canvas.tick doc k = 1%Z).
Proof.
  unfold Canvas.tick. destruct (Z.leb_spec (numPages doc) k); split; intros; lia.
Qed.

Lemma intervals (speed : Q) :
  Canvas.interval speed == 3000 / speed /\ Iframe.interval speed == 3000 / speed.
Proof. split; reflexivity. Qed.

(** C3 (defect of the iframe viewer).  Both viewers arm the interval with
    3000/scrollSpeed milliseconds.  A tick of the canvas viewer maps the
    last page to 1 and any earlier page k to k+1.  A tick of the iframe
    viewer maps every page k to k+1: with the 100 pages that viewer
    reports, page 100 goes to page 101, not to page 1. *)
Theorem C3_iframe_tick_does_not_wrap :
  (forall doc, Canvas.tick doc (numPages doc) = 1%Z)
  /\ (forall k, Iframe.tick k = (k + 1)%Z)
  /\ snd (Iframe.loadPDF Scenario.blob_url Scenario.paper (Iframe.mkViewer "" true))
     = Some 100%Z
  /\ Iframe.tick 100 = 101%Z
  /\ Iframe.interval 1 == 3000 /\ Canvas.interval 1 == 3000
  /\ map (fun n => currentPage (App.host (Scenario.play App.UseCanvas
                                            (Scenario.reading_canvas n))))
         [0; 1; 2; 3; 4]%nat = [1; 2; 3; 1; 2]%Z
  /\ map (fun n => currentPage (App.host (Scenario.play App.UseIframe
                                            (Scenario.reading n))))
         [98; 99; 100; 101]%nat = [99; 100; 101; 102]%Z.
Proof.
  split; [intros doc; apply canvas_tick_spec; lia |].
  repeat split.
Qed.

(** ** Page navigation *)

Local Open Scope Z_scope.

Lemma nextPage_clamps (st : ViewState) :
  1 <= totalPages st -> 1 <= currentPage st ->
  currentPage (nextPage st) = Z.max 1 (Z.min (currentPage st + 1) (totalPages st)).
Proof. cbn. lia. Qed.

Lemma prevPage_clamps (st : ViewState) :
  currentPage st <= totalPages st ->
  currentPage (prevPage st) = Z.max 1 (Z.min (currentPage st - 1) (totalPages st)).
Proof. cbn. lia. Qed.

Lemma navigation_keeps_page_in_range (st : ViewState) :
  1 <= currentPage st <= totalPages st ->
  1 <= currentPage (nextPage st) <= totalPages (nextPage st)
  /\ 1 <= currentPage (prevPage st) <= totalPages (prevPage st).
Proof. cbn. lia. Qed.

Lemma document_change_resets_page (files : list File) (st : ViewState) :
  documentFile (fst (handleFileSelect files st)) <> documentFile st ->
  currentPage (fst (handleFileSelect files st)) = 1
  /\ totalPages (fst (handleFileSelect files st)) = 0.
Proof.
  unfold handleFileSelect, accept_file.
  destruct files as [| f rest]; [intros H; now contradiction H |].
  destruct (getFileType f); cbn; [auto | intros H; now contradiction H].
Qed.

Lemma go_home_resets_page (st : ViewState) :
  currentPage (handleGoHome st) = 1 /\ totalPages (handleGoHome st) = 0
  /\ documentFile (handleGoHome st) = None.
Proof. repeat split. Qed.

(** C2 (defect of the iframe viewer).  In the application as linked, the
    run "open the sample PDF, switch auto-scroll on, let the interval fire
    100 times" ends with totalPages = 100 and currentPage = 101: the page
    cursor has left [1, totalPages], although totalPages > 0.  The host's
    own commands stay inside it; the iframe viewer's tick does not. *)
Theorem C2_iframe_autoscroll_leaves_range :
  let s := Scenario.play App.UseIframe (Scenario.reading 100) in
  totalPages (App.host s) = 100
  /\ currentPage (App.host s) = 101
  /\ 0 < totalPages (App.host s) < currentPage (App.host s).
Proof. vm_compute. repeat split. Qed.

(** ** The auto-advance interval through the life of the application *)

Import App Invariant.

Lemma bytes_eqb_refl (l : list Byte.byte) : bytes_eqb l l = true.
Proof.
  induction l as [| x l IH]; [reflexivity |].
  cbn. rewrite IH. assert (E : Byte.eqb x x = true) by (apply Byte.byte_dec_lb; reflexivity).
  rewrite E. reflexivity.
Qed.

Lemma File_eqb_refl (f : File) : File_eqb f f = true.
Proof.
  unfold File_eqb. rewrite !String.eqb_refl, bytes_eqb_refl. reflexivity.
Qed.

Lemma FileType_eqb_refl (k : FileType) : FileType_eqb k k = true.
Proof. destruct k; reflexivity. Qed.

Lemma same_doc_eq (a b : option (nat * Canvas.PdfDoc)) :
  same_doc a b = true -> a = b.
Proof.
  destruct a as [[i [x]] |], b as [[j [y]] |]; cbn; try discriminate; [| reflexivity].
  intros H. apply andb_true_iff in H. destruct H as [H1 H2].
  apply Nat.eqb_eq in H1. apply Z.eqb_eq in H2. subst. reflexivity.
Qed.

Section Lifecycle.
Variable strategy : PdfStrategy.
Variable getDocument : list Byte.byte -> option Canvas.PdfDoc.
Variable convertToHtml : list Byte.byte -> option string.
Variable readText : list Byte.byte -> option string.
Variable createObjectURL : File -> string.


Lemma cleanup_clears (v : Mounted) (s : Sys) :
  books strategy v s ->
  let s' := if cleanup v then autoScroll_cleanup v s else s in
  timers s' = [] /\ host s' = host s /\ fresh s' = fresh s /\ mounted s' = mounted s.
Proof.
  unfold books, autoScroll_cleanup. destruct (cleanup v); [| auto].
  intros (_ & t & Ht & Href & Hnz & _). rewrite Href.
  apply Nat.eqb_neq in Hnz. rewrite Hnz. cbn. rewrite Ht. cbn.
  rewrite Nat.eqb_refl. auto.
Qed.
Lemma effect_accounts (h : ViewState) (v : Mounted) (s : Sys) :
  timers s = [] -> fresh s <> 0%nat -> kind v = pdf ->
  let v' := fst (autoScroll_effect strategy h v s) in
  let s' := snd (autoScroll_effect strategy h v s) in
  books strategy v' s' /\ fresh s' <> 0%nat /\ host s' = host s /\ mounted s' = mounted s
  /\ kind v' = kind v /\ file_prop v' = file_prop v /\ instance v' = instance v
  /\ pdfDoc v' = pdfDoc v
  /\ dep_autoScroll v' = autoScroll h /\ dep_scrollSpeed v' = scrollSpeed h
  /\ dep_pdfDoc v' = pdfDoc v'.
Proof.
  intros Ht Hf Hk. unfold autoScroll_effect, books.
  destruct strategy eqn:St.
  - destruct (autoScroll h) eqn:A; cbn; rewrite ?Ht.
    all: repeat split; auto.
    eexists; split; [reflexivity |].
    unfold armed; cbn. repeat split; auto; reflexivity.
  - destruct (autoScroll h) eqn:A; [destruct (pdfDoc v) as [[stamp doc] |] eqn:D |];
      cbn; rewrite ?Ht, ?D.
    all: repeat split; auto.
    eexists; split; [reflexivity |].
    unfold armed; cbn. repeat split; auto; try reflexivity.
    all: try (exists stamp; reflexivity).
Qed.

Lemma load_effect_frame (k : FileType) (inst : nat) (f : File) (s : Sys) :
  let s' := load_effect strategy createObjectURL k inst f s in
  timers s' = timers s /\ fresh s' = fresh s /\ mounted s' = mounted s
  /\ wanted (host s') = wanted (host s)
  /\ autoScroll (host s') = autoScroll (host s)
  /\ scrollSpeed (host s') = scrollSpeed (host s).
Proof.
  unfold load_effect. destruct k, strategy; cbn; auto 10.
Qed.

Lemma mount_stable (k : FileType) (f : File) (s : Sys) :
  timers s = [] -> fresh s <> 0%nat -> wanted (host s) = Some (k, f) ->
  stable strategy (mount strategy createObjectURL k f s).
Proof.
  intros Ht Hf Hw. unfold mount.
  set (s0 := {| host := host s; mounted := mounted s; timers := timers s;
                loads := loads s; fresh := S (fresh s); alerts := alerts s |}).
  set (v0 := {| instance := fresh s; kind := k; file_prop := f; pdfDoc := None;
                dep_autoScroll := false; dep_scrollSpeed := 0; dep_pdfDoc := None;
                cleanup := false; autoScrollRef := None |}).
  pose proof (load_effect_frame k (fresh s) f s0) as (L1 & L2 & L3 & L4 & L5 & L6).
  set (s1 := load_effect strategy createObjectURL k (fresh s) f s0) in *.
  assert (Ht1 : timers s1 = []) by (rewrite L1; exact Ht).
  assert (Hf1 : fresh s1 <> 0%nat) by (rewrite L2; cbn; lia).
  assert (Hw1 : wanted (host s1) = Some (k, f)) by (rewrite L4; exact Hw).
  destruct k.
  - pose proof (effect_accounts (host s1) v0 s1 Ht1 Hf1 eq_refl)
      as (B & F & H & M & K & FP & I & D & A1 & A2 & A3).
    destruct (autoScroll_effect strategy (host s1) v0 s1) as [v1 s2].
    cbn [fst snd] in *.
    unfold stable, accounted, current, with_mounted; cbn [mounted fresh timers host].
    unfold books in B. rewrite H. repeat split; auto.
    + rewrite K, FP. exact Hw1.
    + rewrite A2. reflexivity.
  - unfold stable, accounted, current, with_mounted;
      cbn [mounted fresh timers host cleanup kind file_prop v0].
    split; [split; [lia | exact Ht1] | split; [exact Hw1 | intros E; discriminate E]].
  - unfold stable, accounted, current, with_mounted;
      cbn [mounted fresh timers host cleanup kind file_prop v0].
    split; [split; [lia | exact Ht1] | split; [exact Hw1 | intros E; discriminate E]].
Qed.
Lemma unmount_stable (v : Mounted) (s : Sys) :
  fresh s <> 0%nat -> books strategy v s -> wanted (host s) = None ->
  stable strategy (unmount v s).
Proof.
  intros Hf B Hw. unfold unmount.
  destruct (cleanup_clears v s B) as (T & H & F & M).
  set (s1 := if cleanup v then autoScroll_cleanup v s else s) in *.
  unfold stable, accounted, current, with_mounted; cbn [mounted fresh timers host].
  rewrite H, F. auto.
Qed.

Lemma update_stable (v : Mounted) (s : Sys) :
  fresh s <> 0%nat -> books strategy v s ->
  wanted (host s) = Some (kind v, file_prop v) ->
  stable strategy (update strategy createObjectURL v (file_prop v) s).
Proof.
  intros Hf B Hw. unfold update. rewrite File_eqb_refl.
  set (v1 := {| instance := instance v; kind := kind v; file_prop := file_prop v;
                pdfDoc := pdfDoc v; dep_autoScroll := dep_autoScroll v;
                dep_scrollSpeed := dep_scrollSpeed v; dep_pdfDoc := dep_pdfDoc v;
                cleanup := cleanup v; autoScrollRef := autoScrollRef v |}).
  assert (B1 : books strategy v1 s) by exact B.
  destruct (kind v) eqn:K.
  - match goal with |- context [if ?c then _ else _] => destruct c eqn:Same end.
    + apply andb_true_iff in Same. destruct Same as [Same S3].
      apply andb_true_iff in Same. destruct Same as [S1 S2].
      apply Bool.eqb_prop in S1. apply Qeq_bool_iff in S2.
      unfold stable, accounted, current, with_mounted;
        cbn [mounted fresh timers host].
      repeat split; auto.
      all: try (intros E; rewrite E in S3; apply same_doc_eq in S3; exact S3).
      all: try exact B1.
    + destruct (cleanup_clears v s B) as (T & H & F & M).
      set (s2 := if cleanup v then autoScroll_cleanup v s else s) in *.
      assert (Hf2 : fresh s2 <> 0%nat) by (rewrite F; exact Hf).
      pose proof (effect_accounts (host s) v1 s2 T Hf2 eq_refl)
        as (B2 & F3 & H3 & M3 & K3 & FP3 & I3 & D3 & A1 & A2 & A3).
      destruct (autoScroll_effect strategy (host s) v1 s2) as [v2 s3].
      cbn [fst snd] in *.
      unfold stable, accounted, current, with_mounted;
        cbn [mounted fresh timers host].
      unfold books in B2. rewrite H3, H. repeat split; auto.
      * rewrite K3, FP3. exact Hw.
      * rewrite A2. reflexivity.
  - unfold books in B. unfold stable, accounted, current, with_mounted;
      cbn [mounted fresh timers host].
    destruct (cleanup v) eqn:C.
    + destruct B as [B _]. congruence.
    + cbn [cleanup kind file_prop v1].
      split; [split; [exact Hf | exact B] | split; [exact Hw | intros E; discriminate E]].
  - unfold books in B. unfold stable, accounted, current, with_mounted;
      cbn [mounted fresh timers host].
    destruct (cleanup v) eqn:C.
    + destruct B as [B _]. congruence.
    + cbn [cleanup kind file_prop v1].
      split; [split; [exact Hf | exact B] | split; [exact Hw | intros E; discriminate E]].
Qed.

Lemma commit_stable (s : Sys) :
  pending_commit strategy s -> stable strategy (commit strategy createObjectURL s).
Proof.
  intros [[Hf B] G]. unfold commit.
  destruct (mounted s) as [v |] eqn:M.
  - destruct G as [G | G]; rewrite G.
    + apply unmount_stable; assumption.
    + rewrite FileType_eqb_refl. apply update_stable; assumption.
  - destruct (wanted (host s)) as [[k f] |] eqn:W.
    + apply mount_stable; assumption.
    + unfold stable, accounted, current. rewrite M, W. auto.
Qed.
Lemma handled_refl (s : Sys) : fresh s <> 0%nat -> handled s s.
Proof. unfold handled. auto. Qed.

Lemma handled_on_host (f : ViewState -> ViewState) (s : Sys) :
  fresh s <> 0%nat ->
  wanted (f (host s)) = wanted (host s) \/ wanted (f (host s)) = None ->
  handled s (on_host f s).
Proof.
  intros Hf Hw. unfold handled, on_host, with_host; cbn [fresh timers mounted host].
  repeat split; auto. destruct Hw; auto.
Qed.

Lemma handled_pending (s s' : Sys) :
  stable strategy s -> handled s s' -> pending_commit strategy s'.
Proof.
  intros [[Hf B] C] (Hf' & T & M & W).
  unfold pending_commit, accounted, current in *.
  destruct M as [M | (v & d & M & M')].
  - rewrite M, T. split; [auto |].
    destruct (mounted s) as [v |]; [| exact I].
    destruct C as [C _]. destruct W as [W | [W | W]];
      [right; rewrite W; exact C | left; exact W | discriminate W].
  - rewrite M', T. rewrite M in B, C. cbn [cleanup kind file_prop with_pdfDoc].
    split; [split; [exact Hf' | exact B] |].
    destruct C as [C _]. destruct W as [W | [W | W]];
      [right; rewrite W; exact C | left; exact W | congruence].
Qed.

Lemma closed_not_mounted (s : Sys) :
  stable strategy s -> is_open (host s) = false -> mounted s = None.
Proof.
  intros [_ C] O. unfold current in C. destruct (mounted s) as [v |]; [| reflexivity].
  destruct C as [C _]. unfold wanted, is_open in *.
  destruct (documentFile (host s)); discriminate.
Qed.

Lemma handled_settle (l : Load) (s : Sys) :
  fresh s <> 0%nat ->
  handled s (settle getDocument convertToHtml readText l s).
Proof.
  intros Hf. unfold settle.
  destruct (load_kind l).
  - unfold Canvas.loadPDF. destruct (getDocument (data (load_file l))) as [doc |];
      cbn [fst snd Canvas.pdfDoc]; [| apply handled_refl, Hf].
    unfold handled; cbn [fresh timers mounted host].
    repeat split; auto.
    destruct (mounted s) as [v |]; [| left; reflexivity].
    destruct (Nat.eqb (instance v) (load_instance l)); [| left; reflexivity].
    right. exists v, (Some (fresh s, doc)). split; reflexivity.
  - destruct (convertToHtml (data (load_file l)));
      [apply handled_on_host; auto | apply handled_refl, Hf].
  - destruct (readText (data (load_file l)));
      [apply handled_on_host; auto | apply handled_refl, Hf].
Qed.

Lemma dispatch_handled (e : Event) (s : Sys) :
  stable strategy s ->
  handled s (dispatch getDocument convertToHtml readText e s).
Proof.
  intros St. pose proof St as [[Hf _] _].
  destruct e; unfold dispatch;
    repeat match goal with
           | |- handled s (if ?c then _ else _) => destruct c eqn:?
           | |- handled s s => apply handled_refl, Hf
           | |- handled s (on_host _ s) => apply handled_on_host; [exact Hf | auto]
           end.
  - unfold handled, picked; cbn [fresh timers mounted host].
    repeat split; auto. right; right. apply closed_not_mounted; assumption.
  - unfold handled, picked; cbn [fresh timers mounted host].
    repeat split; auto. right; right. apply closed_not_mounted; assumption.
  - destruct (find _ (timers s));
      [apply handled_on_host; auto | apply handled_refl, Hf].
  - destruct (nth_error (loads s) n) as [l |]; [| apply handled_refl, Hf].
    match goal with
    | |- handled s (settle _ _ _ l ?s0) =>
        assert (K : handled s0 (settle getDocument convertToHtml readText l s0))
          by (apply handled_settle; exact Hf);
        exact K
    end.
Qed.

Lemma step_stable (e : Event) (s : Sys) :
  stable strategy s ->
  stable strategy
    (step strategy getDocument convertToHtml readText createObjectURL e s).
Proof.
  intros St. unfold step. apply commit_stable.
  apply (handled_pending s); [exact St | apply dispatch_handled, St].
Qed.

Lemma boot_stable : stable strategy boot.
Proof.
  unfold stable, accounted, current; cbn. auto.
Qed.

Lemma run_stable (es : list Event) (s : Sys) :
  stable strategy s ->
  stable strategy
    (run strategy getDocument convertToHtml readText createObjectURL es s).
Proof.
  revert s. induction es as [| e es IH]; intros s St; cbn; [exact St |].
  apply IH, step_stable, St.
Qed.
Lemma cleanup_host (v : Mounted) (s : Sys) :
  host (if cleanup v then autoScroll_cleanup v s else s) = host s.
Proof.
  unfold autoScroll_cleanup. destruct (cleanup v); [| reflexivity].
  destruct (autoScrollRef v) as [id |]; [| reflexivity].
  destruct (Nat.eqb id 0); reflexivity.
Qed.

Lemma effect_host (h : ViewState) (v : Mounted) (s : Sys) :
  host (snd (autoScroll_effect strategy h v s)) = host s.
Proof.
  unfold autoScroll_effect.
  destruct strategy, (autoScroll h), (pdfDoc v) as [[? ?] |]; reflexivity.
Qed.

Lemma load_effect_selection (k : FileType) (inst : nat) (f : File) (s : Sys) :
  same_selection (host s) (host (load_effect strategy createObjectURL k inst f s)).
Proof.
  unfold load_effect, same_selection. destruct k, strategy; cbn; auto.
Qed.

Lemma mount_selection (k : FileType) (f : File) (s : Sys) :
  same_selection (host s) (host (mount strategy createObjectURL k f s)).
Proof.
  unfold mount.
  match goal with
  | |- context [load_effect _ _ k ?i f ?s0] =>
      pose proof (load_effect_selection k i f s0) as L;
      set (s1 := load_effect strategy createObjectURL k i f s0) in *
  end.
  cbn [host] in L.
  destruct k; [| exact L | exact L].
  match goal with
  | |- context [autoScroll_effect _ ?h ?v ?s] =>
      pose proof (effect_host h v s) as E;
      destruct (autoScroll_effect strategy h v s) as [v1 s2]
  end.
  cbn [snd] in E. unfold with_mounted; cbn [host]. rewrite E. exact L.
Qed.

Lemma unmount_host (v : Mounted) (s : Sys) : host (unmount v s) = host s.
Proof. unfold unmount, with_mounted; cbn [host]. apply cleanup_host. Qed.

Lemma update_selection (v : Mounted) (f : File) (s : Sys) :
  same_selection (host s) (host (update strategy createObjectURL v f s)).
Proof.
  unfold update.
  match goal with
  | |- context [if File_eqb ?a ?b then s else ?x] =>
      assert (L : same_selection (host s) (host (if File_eqb a b then s else x)))
        by (destruct (File_eqb a b);
            [repeat split | apply load_effect_selection]);
      set (s1 := if File_eqb a b then s else x) in *
  end.
  destruct (kind v); unfold with_mounted; cbn [host]; try exact L.
  match goal with |- context [if ?c then _ else _] => destruct c end;
    cbn [host]; [exact L |].
  match goal with
  | |- context [autoScroll_effect _ ?h ?w ?s2] =>
      pose proof (effect_host h w s2) as E;
      destruct (autoScroll_effect strategy h w s2) as [v2 s3]
  end.
  cbn [snd host] in *. rewrite E, cleanup_host. exact L.
Qed.

Lemma commit_selection (s : Sys) :
  same_selection (host s) (host (commit strategy createObjectURL s)).
Proof.
  unfold commit.
  destruct (mounted s) as [v |], (wanted (host s)) as [[k f] |].
  - destruct (FileType_eqb (kind v) k); [apply update_selection |].
    pose proof (mount_selection k f (unmount v s)) as M.
    rewrite unmount_host in M. exact M.
  - rewrite unmount_host. repeat split.
  - apply mount_selection.
  - repeat split.
Qed.
(** In a stable state every interval is the one of the mounted PDF
    viewer, armed for the document and under the props the host holds. *)
Lemma intervals_of_stable (s : Sys) (t : Timer) :
  stable strategy s -> In t (timers s) ->
  timers s = [t]
  /\ autoScroll (host s) = true
  /\ fileType (host s) = Some pdf
  /\ documentFile (host s) = Some (armed_for t)
  /\ (delay t == 3000 / scrollSpeed (host s))%Q
  /\ exists v, mounted s = Some v
               /\ armed_by t = instance v
               /\ autoScrollRef v = Some (handle t)
               /\ match callback t with
                  | IframeAdvance => strategy = UseIframe
                  | CanvasAdvance doc =>
                      strategy = UseCanvas
                      /\ exists stamp, pdfDoc v = Some (stamp, doc)
                  end.
Proof.
  intros [[_ B] C] Hin. unfold current in C.
  destruct (mounted s) as [v |]; [| rewrite B in Hin; contradiction].
  destruct (cleanup v); [| rewrite B in Hin; contradiction].
  destruct B as (K & t' & T & Href & Hnz & Hby & Hfor & Hauto & Hdelay & Hcb).
  rewrite T in Hin. destruct Hin as [-> | []].
  destruct C as (W & D). destruct (D K) as (D1 & D2 & D3).
  unfold wanted in W.
  destruct (documentFile (host s)) as [f |]; [| discriminate W].
  destruct (fileType (host s)) as [k |]; [| discriminate W].
  injection W as -> ->.
  repeat split; auto.
  - congruence.
  - congruence.
  - congruence.
  - rewrite Hdelay, D2. reflexivity.
  - exists v. repeat split; auto.
    destruct (callback t) as [| doc]; [exact Hcb |].
    destruct Hcb as (E & stamp & Hs). split; [exact E |].
    exists stamp. rewrite <- (D3 E). exact Hs.
Qed.

Lemma run_snoc (es : list Event) (e : Event) (s : Sys) :
  run strategy getDocument convertToHtml readText createObjectURL (es ++ [e])%list s
  = step strategy getDocument convertToHtml readText createObjectURL e
      (run strategy getDocument convertToHtml readText createObjectURL es s).
Proof. unfold run. rewrite fold_left_app. reflexivity. Qed.

Lemma switch_off_clears (s : Sys) :
  stable strategy s ->
  timers (step strategy getDocument convertToHtml readText createObjectURL
            (AutoScrollSwitch false) s) = [].
Proof.
  intros St.
  pose proof (step_stable (AutoScrollSwitch false) s St) as St'.
  destruct (timers (step strategy getDocument convertToHtml readText
                      createObjectURL (AutoScrollSwitch false) s))
    as [| t rest] eqn:T; [reflexivity | exfalso].
  destruct (intervals_of_stable _ t St') as (_ & A & F & _);
    [rewrite T; left; reflexivity |].
  unfold step in A, F.
  destruct (commit_selection
              (dispatch getDocument convertToHtml readText (AutoScrollSwitch false) s))
    as (CA & CF & _).
  rewrite CA in A. rewrite CF in F. unfold dispatch in A, F.
  destruct (is_pdf (host s)) eqn:P.
  - cbn in A. discriminate A.
  - unfold is_pdf in P. rewrite F in P. discriminate P.
Qed.

Lemma go_home_clears (s : Sys) :
  stable strategy s ->
  timers (step strategy getDocument convertToHtml readText createObjectURL
            GoHome s) = [].
Proof.
  intros St.
  pose proof (step_stable GoHome s St) as St'.
  destruct (timers (step strategy getDocument convertToHtml readText
                      createObjectURL GoHome s))
    as [| t rest] eqn:T; [reflexivity | exfalso].
  destruct (intervals_of_stable _ t St') as (_ & _ & _ & D & _);
    [rewrite T; left; reflexivity |].
  unfold step in D.
  destruct (commit_selection
              (dispatch getDocument convertToHtml readText GoHome s))
    as (_ & _ & CD).
  rewrite CD in D. unfold dispatch in D.
  destruct (is_open (host s)) eqn:O.
  - cbn in D. discriminate D.
  - unfold is_open in O. rewrite D in O. discriminate O.
Qed.
End Lifecycle.

(** C4.  In every state the application can reach, with either PDF
    viewer, an interval registered with the browser is the only one, was
    armed by the viewer now mounted, for the document the host now holds,
    with auto-scroll on and with the delay 3000/scrollSpeed of the current
    speed.  Hence the step that switches auto-scroll off and the step that
    closes the document (removing the viewer) leave no interval behind, a
    speed change leaves only an interval with the new delay, and after a
    file selection any interval belongs to the document then shown: no
    interval outlives the view it was armed for. *)
Theorem C4_intervals_follow_the_view
  (strategy : PdfStrategy)
  (getDocument : list Byte.byte -> option Canvas.PdfDoc)
  (convertToHtml readText : list Byte.byte -> option string)
  (createObjectURL : File -> string) (es : list Event) :
  let go := fun es => run strategy getDocument convertToHtml readText createObjectURL es boot in
  (forall t, In t (timers (go es)) ->
     timers (go es) = [t]
     /\ autoScroll (host (go es)) = true
     /\ fileType (host (go es)) = Some pdf
     /\ documentFile (host (go es)) = Some (armed_for t)
     /\ (delay t == 3000 / scrollSpeed (host (go es)))%Q
     /\ exists v, mounted (go es) = Some v
                  /\ armed_by t = instance v
                  /\ autoScrollRef v = Some (handle t)
                  /\ match callback t with
                     | IframeAdvance => strategy = UseIframe
                     | CanvasAdvance doc =>
                         strategy = UseCanvas
                         /\ exists stamp, pdfDoc v = Some (stamp, doc)
                     end)
  /\ timers (go (es ++ [AutoScrollSwitch false])%list) = []
  /\ timers (go (es ++ [GoHome])%list) = []
  /\ (forall value t,
        In t (timers (go (es ++ [ScrollSpeedSlider value])%list)) ->
        (delay t == 3000 / scrollSpeed (host (go (es ++ [ScrollSpeedSlider value])%list)))%Q)
  /\ (forall files t,
        In t (timers (go (es ++ [FileSelected files])%list)) ->
        documentFile (host (go (es ++ [FileSelected files])%list)) = Some (armed_for t)).
Proof.
  intros go.
  assert (St : forall l, stable strategy (go l))
    by (intros l; apply run_stable, boot_stable).
  split; [| split; [| split; [| split]]].
  - intros t Hin. apply (intervals_of_stable strategy); [apply St | exact Hin].
  - unfold go. rewrite run_snoc. apply switch_off_clears, St.
  - unfold go. rewrite run_snoc. apply go_home_clears, St.
  - intros value t Hin.
    apply (intervals_of_stable strategy _ t (St _) Hin).
  - intros files t Hin.
    apply (intervals_of_stable strategy _ t (St _) Hin).
Qed.

Lemma C4_intervals_follow_the_view_witness :
  let s := run UseIframe Scenario.three_pages Scenario.any_html Scenario.any_text
               Scenario.blob_url (Scenario.reading 5) boot in
  let t := mkTimer 2 (Iframe.interval 1) IframeAdvance 1 Scenario.paper in
  In t (timers s)
  /\ timers s = [t]
  /\ autoScroll (host s) = true
  /\ documentFile (host s) = Some Scenario.paper.
Proof.
  intros s t.
  assert (Hin : In t (timers s)) by (vm_compute; left; reflexivity).
  split; [exact Hin |].
  destruct (proj1 (C4_intervals_follow_the_view UseIframe Scenario.three_pages
                     Scenario.any_html Scenario.any_text Scenario.blob_url
                     (Scenario.reading 5)) t Hin) as (T & A & _ & D & _).
  split; [exact T | split; [exact A | exact D]].
Defined.


(* ================================================================== *)
(** * Further properties of the code *)

Local Open Scope Q_scope.
Import TextViewer.

(** ** Host commands: round trips and frames *)

Lemma setZoom_same (st : ViewState) : setZoom (fun _ => zoom st) st = st.
Proof. destruct st; reflexivity. Qed.

Lemma zoomIn_in_range (st : ViewState) :
  0.5 <= zoom st <= 3.0 -> 0.5 <= zoom (zoomIn st) <= 3.0.
Proof.
  intros [L U]. change (zoom (zoomIn st)) with (Qmin (zoom st + 0.25) 3.0).
  split; [apply Q.min_glb; lra | apply Q.le_min_r].
Qed.

Lemma zoomOut_in_range (st : ViewState) :
  0.5 <= zoom st <= 3.0 -> 0.5 <= zoom (zoomOut st) <= 3.0.
Proof.
  intros [L U]. change (zoom (zoomOut st)) with (Qmax (zoom st - 0.25) 0.5).
  split; [apply Q.le_max_r | apply Q.max_lub; lra].
Qed.

(** X1.  Keyboard shortcuts act only with Ctrl or Cmd held; whatever the
    key, no cell other than zoom changes, a zoom inside [0.5, 3.0] stays
    inside, and the default action is suppressed exactly for the keys
    [=], [+], [-] and [0] pressed with a modifier. *)
Theorem X1_shortcuts_only_zoom (event : KeyboardEvent) (st : ViewState) :
  (exists z, fst (handleKeyDown event st) = setZoom (fun _ => z) st
             /\ (0.5 <= zoom st <= 3.0 -> 0.5 <= z <= 3.0))
  /\ (ctrlKey event = false -> metaKey event = false ->
      handleKeyDown event st = (st, false))
  /\ (snd (handleKeyDown event st) = true <->
      (ctrlKey event = true \/ metaKey event = true)
      /\ In (key event) ["="; "+"; "-"; "0"]%string).
Proof.
  split; [| split].
  - unfold handleKeyDown.
    destruct (ctrlKey event || metaKey event);
      [| exists (zoom st); rewrite setZoom_same; auto].
    destruct (String.eqb (key event) "=" || String.eqb (key event) "+").
    { exists (zoom (zoomIn st)). split; [reflexivity | apply zoomIn_in_range]. }
    destruct (String.eqb (key event) "-").
    { exists (zoom (zoomOut st)). split; [reflexivity | apply zoomOut_in_range]. }
    destruct (String.eqb (key event) "0").
    { exists 1.0. split; [reflexivity | intros _; split; lra]. }
    exists (zoom st). rewrite setZoom_same. auto.
  - intros C M. unfold handleKeyDown. rewrite C, M. reflexivity.
  - unfold handleKeyDown.
    destruct (ctrlKey event), (metaKey event); cbn [orb];
      destruct (String.eqb_spec (key event) "=") as [E1 | E1];
      destruct (String.eqb_spec (key event) "+") as [E2 | E2];
      destruct (String.eqb_spec (key event) "-") as [E3 | E3];
      destruct (String.eqb_spec (key event) "0") as [E4 | E4];
      cbn [orb snd In]; split;
      try (intros _; split; [auto | auto 6]; fail);
      try (intros H; discriminate H);
      try reflexivity;
      try (intros [[H | H] _]; discriminate H);
      try (intros [_ [H | [H | [H | [H | []]]]]]; congruence).
Qed.

Lemma X1_shortcuts_only_zoom_witness :
  handleKeyDown (mkKey false false "+") initial = (initial, false)
  /\ snd (handleKeyDown (mkKey true false "+") initial) = true.
Proof.
  destruct (X1_shortcuts_only_zoom (mkKey false false "+") initial) as (_ & H & _).
  destruct (X1_shortcuts_only_zoom (mkKey true false "+") initial) as (_ & _ & K).
  split; [apply H; reflexivity |].
  apply K. split; [left; reflexivity | right; left; reflexivity].
Defined.

(** X2.  The rotation is always one of 0, 90, 180, 270 once it is, each
    [rotate] advances it by a quarter turn, and four of them bring the
    state back. *)
Theorem X2_rotate_cycles (st : ViewState) :
  quarter_turn (rotation st) ->
  quarter_turn (rotation (rotate st))
  /\ rotation (rotate st) <> rotation st
  /\ Nat.iter 4 rotate st = st.
Proof.
  intros H. destruct st as [d ft cp tp z r fs th a sp c b]. cbn in H.
  unfold quarter_turn in *. cbn.
  destruct H as [-> | [-> | [-> | ->]]]; cbn; repeat split; auto; discriminate.
Qed.

Lemma X2_rotate_cycles_witness :
  rotation (Nat.iter 3 rotate initial) = 270%Z
  /\ Nat.iter 4 rotate (Nat.iter 3 rotate initial) = Nat.iter 3 rotate initial.
Proof.
  split; [reflexivity |].
  apply (X2_rotate_cycles (Nat.iter 3 rotate initial)).
  right; right; right. reflexivity.
Defined.

(** X3.  Zoom-in followed by zoom-out restores the zoom when it started in
    [0.5, 2.75]; zoom-out followed by zoom-in restores it when it started
    in [0.75, 3.0]; at the caps the pair loses a quarter: from 3.0, in then
    out gives 2.75, and from 0.5, out then in gives 0.75. *)
Theorem X3_zoom_round_trip (st : ViewState) :
  (0.5 <= zoom st <= 2.75 -> zoom (zoomOut (zoomIn st)) == zoom st)
  /\ (0.75 <= zoom st <= 3.0 -> zoom (zoomIn (zoomOut st)) == zoom st)
  /\ (zoom st == 3.0 -> zoom (zoomOut (zoomIn st)) == 2.75)
  /\ (zoom st == 0.5 -> zoom (zoomIn (zoomOut st)) == 0.75).
Proof.
  change (zoom (zoomOut (zoomIn st)))
    with (Qmax (Qmin (zoom st + 0.25) 3.0 - 0.25) 0.5).
  change (zoom (zoomIn (zoomOut st)))
    with (Qmin (Qmax (zoom st - 0.25) 0.5 + 0.25) 3.0).
  repeat split; intros H.
  - destruct H as [L U]. rewrite (Q.min_l (zoom st + 0.25) 3.0) by lra.
    rewrite Q.max_l by lra. lra.
  - destruct H as [L U]. rewrite (Q.max_l (zoom st - 0.25) 0.5) by lra.
    rewrite Q.min_l by lra. lra.
  - rewrite (Q.min_r (zoom st + 0.25) 3.0) by lra. rewrite Q.max_l by lra. lra.
  - rewrite (Q.max_r (zoom st - 0.25) 0.5) by lra. rewrite Q.min_l by lra. lra.
Qed.

Lemma X3_zoom_round_trip_witness :
  zoom (zoomOut (zoomIn initial)) == zoom initial
  /\ zoom (zoomOut (zoomIn (Nat.iter 8 zoomIn initial))) == 2.75.
Proof.
  split.
  - apply (proj1 (X3_zoom_round_trip initial)). split; vm_compute; discriminate.
  - apply (proj1 (proj2 (proj2 (X3_zoom_round_trip (Nat.iter 8 zoomIn initial))))).
    reflexivity.
Defined.

Local Open Scope Z_scope.

(** X4.  While the page cursor is inside [1, totalPages], a page button
    is disabled exactly when its command would not move the cursor; next
    then previous returns to the page it left unless that was the last
    one, and previous then next unless it was the first. *)
Theorem X4_navigation_buttons (st : ViewState) :
  1 <= currentPage st <= totalPages st ->
  (nextPage_disabled st = true <-> currentPage (nextPage st) = currentPage st)
  /\ (prevPage_disabled st = true <-> currentPage (prevPage st) = currentPage st)
  /\ (currentPage st < totalPages st ->
      currentPage (nextPage st) = currentPage st + 1
      /\ currentPage (prevPage (nextPage st)) = currentPage st)
  /\ (1 < currentPage st ->
      currentPage (prevPage st) = currentPage st - 1
      /\ currentPage (nextPage (prevPage st)) = currentPage st).
Proof.
  intros [L U]. unfold nextPage_disabled, prevPage_disabled. cbn.
  rewrite !Z.leb_le. repeat split; intros; lia.
Qed.

Lemma X4_navigation_buttons_witness :
  let st := setTotalPages 3 initial in
  nextPage_disabled st = false
  /\ currentPage (prevPage (nextPage st)) = currentPage st.
Proof.
  intros st.
  assert (R : 1 <= currentPage st <= totalPages st) by (cbn; lia).
  destruct (X4_navigation_buttons st R) as (_ & _ & N & _).
  split; [reflexivity |].
  apply N. cbn. lia.
Defined.

(** X5.  Selecting a supported file gives the same host state whether or
    not the previous document was closed first, closing twice is closing
    once, and neither selecting nor closing touches zoom, rotation,
    fullscreen, theme, auto-scroll, speed, contrast or brightness: they
    carry over to the next document. *)
Theorem X5_selection_keeps_settings (file : File) (others : list File) (st : ViewState) :
  (getFileType file <> None ->
   fst (handleFileSelect (file :: others) (handleGoHome st))
   = fst (handleFileSelect (file :: others) st))
  /\ handleGoHome (handleGoHome st) = handleGoHome st
  /\ (forall st',
        st' = fst (handleFileSelect (file :: others) st)
        \/ st' = fst (handleDrop (file :: others) st)
        \/ st' = handleGoHome st ->
        zoom st' = zoom st /\ rotation st' = rotation st
        /\ isFullscreen st' = isFullscreen st /\ theme st' = theme st
        /\ autoScroll st' = autoScroll st /\ scrollSpeed st' = scrollSpeed st
        /\ contrast st' = contrast st /\ brightness st' = brightness st).
Proof.
  split; [| split].
  - unfold handleFileSelect, accept_file. intros H.
    destruct (getFileType file); [reflexivity | contradiction H; reflexivity].
  - reflexivity.
  - intros st' H. unfold handleFileSelect, handleDrop, accept_file in H.
    destruct (getFileType file); destruct H as [-> | [-> | ->]];
      repeat split.
Qed.

Lemma X5_selection_keeps_settings_witness :
  fst (handleFileSelect [Scenario.paper] (handleGoHome (rotate (zoomIn initial))))
  = fst (handleFileSelect [Scenario.paper] (rotate (zoomIn initial)))
  /\ rotation (fst (handleFileSelect [Scenario.paper] (rotate (zoomIn initial)))) = 90.
Proof.
  split.
  - apply (proj1 (X5_selection_keeps_settings Scenario.paper []
                    (rotate (zoomIn initial)))).
    vm_compute. discriminate.
  - reflexivity.
Defined.

Local Open Scope Q_scope.

(** ** More on the sepia filter *)









Local Open Scope Z_scope.

(** ** The text viewer: lines, gutter, code heuristic *)

Lemma lines_not_nil (t : string) : lines t <> [].
Proof.
  destruct t as [| c rest]; cbn [lines]; [intros H; discriminate H |].
  destruct (Ascii.eqb c newline); [intros H; discriminate H |].
  destruct (lines rest); intros H; discriminate H.
Qed.

Lemma lines_length (t : string) :
  List.length (lines t) = S (count_newlines t).
Proof.
  induction t as [| c rest IH]; cbn [lines count_newlines]; [reflexivity |].
  destruct (Ascii.eqb c newline); cbn [List.length]; [rewrite IH; reflexivity |].
  destruct (lines rest) as [| l ls] eqn:E; cbn [List.length] in *;
    [discriminate IH | exact IH].
Qed.

Lemma join_lines (t : string) : join (lines t) = t.
Proof.
  induction t as [| c rest IH]; cbn [lines]; [reflexivity |].
  destruct (lines rest) as [| l ls] eqn:E; [now destruct (lines_not_nil rest) |].
  destruct (Ascii.eqb_spec c newline) as [-> | N].
  - change (join ("" :: l :: ls)) with (String newline (join (l :: ls))).
    rewrite IH. reflexivity.
  - destruct ls as [| l' ls'].
    + cbn [join] in *. rewrite IH. reflexivity.
    + change (join (String c l :: l' :: ls'))
        with (String c (join (l :: l' :: ls'))).
      rewrite IH. reflexivity.
Qed.

Lemma lines_no_newline (t : string) :
  Forall (fun l => count_newlines l = O) (lines t).
Proof.
  induction t as [| c rest IH]; cbn [lines]; [repeat constructor |].
  destruct (Ascii.eqb c newline) eqn:E; [constructor; [reflexivity | exact IH] |].
  destruct (lines rest) as [| l ls];
    [repeat constructor; cbn [count_newlines]; rewrite E; reflexivity |].
  inversion IH as [| ? ? H1 H2]; subst.
  constructor; [cbn [count_newlines]; rewrite E; exact H1 | exact H2].
Qed.

Lemma lines_single (l : string) : count_newlines l = O -> lines l = [l].
Proof.
  induction l as [| c rest IH]; cbn [lines count_newlines]; [reflexivity |].
  destruct (Ascii.eqb c newline); [intros H; discriminate H |].
  intros H. rewrite (IH H). reflexivity.
Qed.

Lemma lines_append_newline (l rest : string) :
  count_newlines l = O ->
  lines (l ++ String newline rest) = l :: lines rest.
Proof.
  induction l as [| c l' IH]; cbn [lines count_newlines append].
  - intros _. rewrite Ascii.eqb_refl. reflexivity.
  - destruct (Ascii.eqb c newline); [intros H; discriminate H |].
    intros H. rewrite (IH H). reflexivity.
Qed.

Lemma lines_join (ls : list string) :
  ls <> [] -> Forall (fun l => count_newlines l = O) ls -> lines (join ls) = ls.
Proof.
  induction ls as [| l rest IH]; [intros H; now contradiction H |].
  intros _ F. inversion F as [| ? ? H1 H2]; subst.
  destruct rest as [| l' rest'].
  - cbn [join]. apply lines_single, H1.
  - change (join (l :: l' :: rest')) with (l ++ String newline (join (l' :: rest'))).
    rewrite lines_append_newline by exact H1.
    rewrite IH; [reflexivity | discriminate | exact H2].
Qed.

(** X8.  Splitting a text into lines loses nothing and invents nothing:
    joining the lines with newlines gives the text back, no line holds a
    newline, there is one line more than there are newlines (so the empty
    text has one, empty, line), and any non-empty list of newline-free
    lines is what its joined text splits into. *)
Theorem X8_lines_round_trip (t : string) (ls : list string) :
  join (lines t) = t
  /\ List.length (lines t) = S (count_newlines t)
  /\ Forall (fun l => count_newlines l = O) (lines t)
  /\ lines "" = [""]
  /\ (ls <> [] -> Forall (fun l => count_newlines l = O) ls ->
      lines (join ls) = ls).
Proof.
  split; [apply join_lines |].
  split; [apply lines_length |].
  split; [apply lines_no_newline |].
  split; [reflexivity | apply lines_join].
Qed.

Lemma X8_lines_round_trip_witness :
  lines (join ["a"; ""; "b c"]) = ["a"; ""; "b c"]
  /\ List.length (lines (join ["a"; ""; "b c"])) = 3%nat.
Proof.
  assert (N : ["a"; ""; "b c"] <> []) by discriminate.
  assert (F : Forall (fun l => count_newlines l = O) ["a"; ""; "b c"])
    by (repeat constructor).
  pose proof (proj2 (proj2 (proj2 (proj2
                (X8_lines_round_trip "" ["a"; ""; "b c"])))) N F) as H.
  split; [exact H | rewrite H; reflexivity].
Defined.

(** *** The gutter *)

Lemma toString_fuel_digits (fuel n : nat) (acc : string) :
  (n < fuel)%nat ->
  exists d, (1 <= d)%nat
            /\ String.length (toString_fuel fuel n acc) = (String.length acc + d)%nat
            /\ (n < 10 ^ d)%nat
            /\ (1 <= n -> 10 ^ (d - 1) <= n)%nat.
Proof.
  revert n acc. induction fuel as [| fuel IH]; intros n acc Hn; [lia |].
  cbn [toString_fuel]. destruct (Nat.ltb_spec n 10) as [Small | Big].
  - exists 1%nat. cbn [String.length Nat.sub Nat.pow]. repeat split; lia.
  - assert (Hq : (n / 10 < fuel)%nat).
    { assert (n / 10 < n)%nat by (apply Nat.div_lt; lia). lia. }
    destruct (IH (n / 10)%nat (String (digit (n mod 10)) acc) Hq)
      as (d & D1 & D2 & D3 & D4).
    assert (Q1 : (1 <= n / 10)%nat)
      by (apply Nat.div_le_lower_bound; lia).
    specialize (D4 Q1).
    pose proof (Nat.div_mod_eq n 10) as DM.
    pose proof (Nat.mod_upper_bound n 10 ltac:(lia)) as MU.
    exists (S d). rewrite D2. cbn [String.length].
    replace (S d - 1)%nat with d by lia.
    assert (P : (10 ^ d = 10 * 10 ^ (d - 1))%nat).
    { destruct d as [| d']; [lia |]. cbn [Nat.sub]. rewrite Nat.sub_0_r.
      apply Nat.pow_succ_r'. }
    rewrite Nat.pow_succ_r'. repeat split; lia.
Qed.

Lemma toString_digits (n : nat) :
  exists d, String.length (toString n) = d /\ (1 <= d)%nat
            /\ (n < 10 ^ d)%nat /\ (1 <= n -> 10 ^ (d - 1) <= n)%nat.
Proof.
  unfold toString.
  destruct (toString_fuel_digits (S n) n "" ltac:(lia)) as (d & D1 & D2 & D3 & D4).
  exists d. cbn [String.length Nat.add] in D2. auto.
Qed.

Lemma toString_length_monotone (k n : nat) :
  (k <= n)%nat -> (String.length (toString k) <= String.length (toString n))%nat.
Proof.
  intros H.
  destruct (toString_digits n) as (dn & -> & N1 & N2 & N3).
  destruct k as [| k']; [exact N1 |].
  destruct (toString_digits (S k')) as (dk & -> & K1 & K2 & K3).
  specialize (K3 ltac:(lia)).
  assert (L : (10 ^ (dk - 1) < 10 ^ dn)%nat) by lia.
  apply Nat.pow_lt_mono_r_iff in L; lia.
Qed.

Lemma line_numbers_seq (t : string) :
  line_numbers t = seq 1 (List.length (lines t)).
Proof.
  unfold line_numbers. generalize (List.length (lines t)) as n. intros n.
  rewrite <- seq_shift. apply map_ext. intros a. lia.
Qed.

(** X9.  The gutter is sized for its widest number: with n lines,
    [maxLineNumber] is the d with 10^(d-1) <= n < 10^d, the gutter shows
    the numbers 1..n, and none of them has more than d digits. *)
Theorem X9_gutter_fits_line_numbers (t : string) :
  let n := List.length (lines t) in
  let d := maxLineNumber t in
  (1 <= n)%nat
  /\ (10 ^ (d - 1) <= n < 10 ^ d)%nat
  /\ line_numbers t = seq 1 n
  /\ Forall (fun k => (String.length (toString k) <= d)%nat) (line_numbers t).
Proof.
  intros n d. unfold d, maxLineNumber. fold n.
  assert (N : (1 <= n)%nat) by (unfold n; rewrite lines_length; lia).
  destruct (toString_digits n) as (dn & E & D1 & D2 & D3).
  rewrite E. repeat split; auto.
  - apply line_numbers_seq.
  - rewrite line_numbers_seq. fold n. rewrite Forall_forall. intros k Hk.
    apply in_seq in Hk. rewrite <- E. apply toString_length_monotone. lia.
Qed.

Lemma toString_examples :
  toString 0 = "0" /\ toString 7 = "7" /\ toString 1204 = "1204".
Proof. repeat split; reflexivity. Qed.

(** *** The code-file heuristic *)

Lemma length_append (a b : string) :
  String.length (a ++ b) = (String.length a + String.length b)%nat.
Proof. induction a as [| c a IH]; cbn; [reflexivity | rewrite IH; reflexivity]. Qed.

Lemma substring_all (s : string) : substring 0 (String.length s) s = s.
Proof. induction s as [| c s IH]; cbn; [reflexivity | rewrite IH; reflexivity]. Qed.

Lemma substring_skip (p t : string) (k : nat) :
  substring (String.length p) k (p ++ t) = substring 0 k t.
Proof. induction p as [| c p IH]; cbn; [reflexivity | exact IH]. Qed.

Lemma split_at (s : string) (k : nat) :
  (k <= String.length s)%nat ->
  s = substring 0 k s ++ substring k (String.length s - k) s.
Proof.
  revert k. induction s as [| c s IH]; intros k H.
  - destruct k; reflexivity.
  - destruct k as [| k].
    + cbn [substring append Nat.sub String.length].
      rewrite substring_all. reflexivity.
    + cbn [substring append Nat.sub String.length]. cbn in H.
      rewrite <- (IH k) by lia. reflexivity.
Qed.

Lemma endsWith_append (p suffix : string) : endsWith (p ++ suffix) suffix = true.
Proof.
  unfold endsWith. rewrite length_append.
  replace (String.length p + String.length suffix - String.length suffix)%nat
    with (String.length p) by lia.
  rewrite substring_skip, substring_all, String.eqb_refl.
  rewrite andb_true_r. apply Nat.leb_le. lia.
Qed.

Lemma endsWith_inv (s suffix : string) :
  endsWith s suffix = true -> exists p, s = p ++ suffix.
Proof.
  unfold endsWith. intros H. apply andb_true_iff in H. destruct H as [L E].
  apply Nat.leb_le in L. apply String.eqb_eq in E.
  exists (substring 0 (String.length s - String.length suffix) s).
  rewrite (split_at s (String.length s - String.length suffix)) at 1 by lia.
  replace (String.length s - (String.length s - String.length suffix))%nat
    with (String.length suffix) by lia.
  rewrite E. reflexivity.
Qed.

Lemma append_inj_l (p a b : string) : p ++ a = p ++ b -> a = b.
Proof.
  induction p as [| c p IH]; cbn; [auto |]. intros H. injection H as H. auto.
Qed.

Lemma common_prefix (p q a b : string) :
  p ++ a = q ++ b -> (String.length b <= String.length a)%nat ->
  exists r, a = r ++ b.
Proof.
  revert q. induction p as [| c p IH]; intros q H L.
  - cbn in H. exists q. exact H.
  - destruct q as [| d q].
    + cbn in H. exfalso.
      assert (E : String.length (String c (p ++ a)) = String.length b) by (rewrite H; reflexivity).
      cbn in E. rewrite length_append in E. lia.
    + cbn in H. injection H as _ H. apply (IH q H L).
Qed.

(** A suffix of a suffix. *)
Lemma endsWith_chain (s a b : string) :
  endsWith s a = true -> endsWith s b = true ->
  (String.length b <= String.length a)%nat -> endsWith a b = true.
Proof.
  intros Ha Hb L.
  destruct (endsWith_inv s a Ha) as [p Ep].
  destruct (endsWith_inv s b Hb) as [q Eq].
  rewrite Ep in Eq. destruct (common_prefix p q a b Eq L) as [r ->].
  apply endsWith_append.
Qed.

Lemma toLowerCase_append (a b : string) :
  toLowerCase (a ++ b) = toLowerCase a ++ toLowerCase b.
Proof. induction a as [| c a IH]; cbn; [reflexivity | rewrite IH; reflexivity]. Qed.

Lemma lower_idempotent (c : ascii) : lower (lower c) = lower c.
Proof.
  destruct c as [[] [] [] [] [] [] [] []]; reflexivity.
Qed.

Lemma toLowerCase_idempotent (s : string) :
  toLowerCase (toLowerCase s) = toLowerCase s.
Proof.
  induction s as [| c s IH]; cbn; [reflexivity |].
  rewrite lower_idempotent, IH. reflexivity.
Qed.

Lemma txt_is_not_code (name : string) :
  endsWith name ".txt" = true -> isCodeFile name = false.
Proof.
  intros H. destruct (endsWith_inv _ _ H) as [p ->].
  unfold isCodeFile. rewrite toLowerCase_append.
  change (toLowerCase ".txt") with ".txt".
  set (q := toLowerCase p).
  pose proof (endsWith_append q ".txt") as T.
  apply not_true_is_false. intros C. apply existsb_exists in C.
  destruct C as (ext & Hin & E).
  assert (K : forall b, endsWith (q ++ ".txt") b = true ->
                        (if (String.length b <=? 4)%nat
                         then endsWith ".txt" b else endsWith b ".txt") = true).
  { intros b Hb. destruct (Nat.leb_spec (String.length b) 4) as [L | L].
    - apply (endsWith_chain (q ++ ".txt")); [exact T | exact Hb | exact L].
    - apply (endsWith_chain (q ++ ".txt")); [exact Hb | exact T |].
      change (String.length ".txt") with 4%nat. lia. }
  specialize (K _ E). cbn [code_extensions In] in Hin.
  repeat (destruct Hin as [<- | Hin]; [vm_compute in K; discriminate K |]).
  contradiction Hin.
Qed.

Lemma code_extension_detected (base ext : string) :
  In ext code_extensions -> isCodeFile (base ++ "." ++ ext) = true.
Proof.
  intros H. unfold isCodeFile. apply existsb_exists. exists ext.
  split; [exact H |].
  rewrite toLowerCase_append.
  assert (E : toLowerCase ("." ++ ext) = "." ++ ext).
  { cbn [code_extensions In] in H.
    repeat (destruct H as [<- | H]; [reflexivity |]). contradiction H. }
  rewrite E. apply endsWith_append.
Qed.

(** X10.  The code defaults of the text viewer can only fire for a file
    declared [text/plain]: a file that reached the text viewer through its
    [.txt] name alone is never taken for code, so loading it leaves the
    monospace and line-number switches as they were.  The test ignores
    letter case, and it holds for every name made of a base, a dot and one
    of the listed extensions. *)
Theorem X10_code_heuristic (f : File) (content : option string)
                           (st : TextViewer.ViewerState) :
  (getFileType f = Some text -> isCodeFile (name f) = true -> type f = mime_txt)
  /\ (getFileType f = Some text -> type f <> mime_txt ->
      useMonospace (fst (loadTextFile f content st)) = useMonospace st
      /\ lineNumbers (fst (loadTextFile f content st)) = lineNumbers st)
  /\ isCodeFile (toLowerCase (name f)) = isCodeFile (name f)
  /\ (forall base ext, In ext code_extensions ->
                       isCodeFile (base ++ "." ++ ext) = true).
Proof.
  assert (A : getFileType f = Some text -> type f <> mime_txt ->
              isCodeFile (name f) = false).
  { unfold getFileType. intros G N. apply String.eqb_neq in N.
    destruct (String.eqb (type f) mime_pdf); [discriminate G |].
    destruct (_ || _ || _ || _)%bool; [discriminate G |].
    rewrite N in G. cbn [orb] in G.
    destruct (endsWith (name f) ".txt") eqn:E; [| discriminate G].
    apply txt_is_not_code, E. }
  split; [| split; [| split]].
  - intros G C. destruct (String.eqb_spec (type f) mime_txt) as [E | N]; [exact E |].
    rewrite (A G N) in C. discriminate C.
  - intros G N. unfold loadTextFile. rewrite (A G N).
    destruct content; split; reflexivity.
  - unfold isCodeFile. rewrite toLowerCase_idempotent. reflexivity.
  - apply code_extension_detected.
Qed.

Lemma X10_code_heuristic_witness :
  let f := mkFile "Main.JAVA.txt" "" [] in
  getFileType f = Some text
  /\ useMonospace (fst (loadTextFile f (Some "class Main {}") mounted_state)) = false
  /\ isCodeFile "Main.JAVA" = true.
Proof.
  intros f.
  assert (G : getFileType f = Some text) by reflexivity.
  assert (N : type f <> mime_txt) by discriminate.
  destruct (X10_code_heuristic f (Some "class Main {}") mounted_state)
    as (_ & H & _ & _).
  split; [exact G |]. split; [apply (H G N) | reflexivity].
Defined.

(** ** Reachable states of the host *)

Lemma setTotalPages_same (h : ViewState) : setTotalPages (totalPages h) h = h.
Proof. destruct h; reflexivity. Qed.

Lemma same_but_totalPages_refl (h : ViewState) : same_but_totalPages h h.
Proof. exists (totalPages h). symmetry. apply setTotalPages_same. Qed.

Lemma same_but_totalPages_trans (a b c : ViewState) :
  same_but_totalPages a b -> same_but_totalPages b c -> same_but_totalPages a c.
Proof. intros [n ->] [m ->]. exists m. reflexivity. Qed.

Lemma settings_ok_totalPages (h : ViewState) (n : Z) :
  settings_ok h -> settings_ok (setTotalPages n h).
Proof. intros H. exact H. Qed.

Section HostFrame.
Variable strategy : PdfStrategy.
Variable getDocument : list Byte.byte -> option Canvas.PdfDoc.
Variable convertToHtml : list Byte.byte -> option string.
Variable readText : list Byte.byte -> option string.
Variable createObjectURL : File -> string.

Lemma load_effect_host (k : FileType) (inst : nat) (f : File) (s : Sys) :
  same_but_totalPages (host s) (host (load_effect strategy createObjectURL k inst f s)).
Proof.
  unfold load_effect.
  destruct k, strategy; cbn; try apply same_but_totalPages_refl.
  exists 100. reflexivity.
Qed.

Lemma mount_host (k : FileType) (f : File) (s : Sys) :
  same_but_totalPages (host s) (host (mount strategy createObjectURL k f s)).
Proof.
  unfold mount.
  match goal with
  | |- context [load_effect _ _ k ?i f ?s0] =>
      pose proof (load_effect_host k i f s0) as L;
      set (s1 := load_effect strategy createObjectURL k i f s0) in *
  end.
  cbn [host] in L.
  destruct k; [| exact L | exact L].
  match goal with
  | |- context [autoScroll_effect _ ?h ?v ?s] =>
      pose proof (effect_host strategy h v s) as E;
      destruct (autoScroll_effect strategy h v s) as [v1 s2]
  end.
  cbn [snd] in E. unfold with_mounted; cbn [host]. rewrite E. exact L.
Qed.

Lemma update_host (v : Mounted) (f : File) (s : Sys) :
  same_but_totalPages (host s) (host (update strategy createObjectURL v f s)).
Proof.
  unfold update.
  match goal with
  | |- context [if File_eqb ?a ?b then s else ?x] =>
      assert (L : same_but_totalPages (host s) (host (if File_eqb a b then s else x)))
        by (destruct (File_eqb a b);
            [apply same_but_totalPages_refl | apply load_effect_host]);
      set (s1 := if File_eqb a b then s else x) in *
  end.
  destruct (kind v); unfold with_mounted; cbn [host]; try exact L.
  match goal with |- context [if ?c then _ else _] => destruct c end;
    cbn [host]; [exact L |].
  match goal with
  | |- context [autoScroll_effect _ ?h ?w ?s2] =>
      pose proof (effect_host strategy h w s2) as E;
      destruct (autoScroll_effect strategy h w s2) as [v2 s3]
  end.
  cbn [snd host] in *. rewrite E, cleanup_host. exact L.
Qed.

Lemma commit_host (s : Sys) :
  same_but_totalPages (host s) (host (commit strategy createObjectURL s)).
Proof.
  unfold commit.
  destruct (mounted s) as [v |], (wanted (host s)) as [[k f] |].
  - destruct (FileType_eqb (kind v) k); [apply update_host |].
    pose proof (mount_host k f (unmount v s)) as M.
    rewrite unmount_host in M. exact M.
  - rewrite unmount_host. apply same_but_totalPages_refl.
  - apply mount_host.
  - apply same_but_totalPages_refl.
Qed.

Lemma in_range_spec (lo hi v : Q) :
  in_range lo hi v = true -> (lo <= v <= hi)%Q.
Proof.
  unfold in_range. intros H. apply andb_true_iff in H.
  destruct H as [A B]. apply Qle_bool_iff in A, B. auto.
Qed.

Lemma accept_file_settings (files : list File) (h : ViewState) :
  settings_ok h -> settings_ok (fst (accept_file files h)).
Proof.
  intros H. unfold accept_file. destruct files as [| f rest]; [exact H |].
  destruct (getFileType f) as [k |] eqn:G; [| exact H].
  destruct H as (Z & C & B & S & R & P & _).
  unfold settings_ok, selection_ok; cbn. repeat split; try tauto; try lia.
Qed.

Lemma settle_host (l : Load) (s : Sys) :
  same_but_totalPages (host s)
    (host (settle getDocument convertToHtml readText l s)).
Proof.
  unfold settle. destruct (load_kind l).
  - unfold Canvas.loadPDF. destruct (getDocument (data (load_file l)));
      cbn; [eexists; reflexivity | apply same_but_totalPages_refl].
  - destruct (convertToHtml (data (load_file l))); cbn;
      [eexists; reflexivity | apply same_but_totalPages_refl].
  - destruct (readText (data (load_file l))); cbn;
      [eexists; reflexivity | apply same_but_totalPages_refl].
Qed.

Lemma updater_positive (cb : Callback) (p : Z) : 1 <= p -> 1 <= updater cb p.
Proof.
  intros H. destruct cb as [| doc]; cbn; unfold Iframe.tick, Canvas.tick; [lia |].
  destruct (Canvas.numPages doc <=? p); lia.
Qed.

Ltac host_step :=
  unfold on_host, with_host, zoomIn, zoomOut, resetZoom, rotate, nextPage, prevPage,
    resetVisualSettings, handleGoHome, setZoom, setRotation, setCurrentPage,
    setTotalPages, setContrast, setBrightness, setScrollSpeed, setAutoScroll,
    setTheme, setIsFullscreen, setDocumentFile, setFileType,
    settings_ok, selection_ok;
  cbn [host documentFile fileType currentPage totalPages zoom rotation
       isFullscreen theme autoScroll scrollSpeed contrast brightness].

Lemma rotate_quarter_turn (r : Z) :
  quarter_turn r -> quarter_turn (Z.rem (r + 90) 360).
Proof.
  unfold quarter_turn. intros [-> | [-> | [-> | ->]]]; cbn; auto.
Qed.

Lemma dispatch_settings (e : Event) (s : Sys) :
  settings_ok (host s) ->
  settings_ok (host (dispatch getDocument convertToHtml readText e s)).
Proof.
  intros H. pose proof H as (Z & C & B & S & R & P & D).
  destruct e; unfold dispatch.
  - destruct (is_open (host s)); [exact H |].
    unfold picked; cbn [host]. apply accept_file_settings, H.
  - destruct (is_open (host s)); [exact H |].
    unfold picked; cbn [host]. apply accept_file_settings, H.
  - destruct (is_open (host s)); [| exact H]. host_step. repeat split; try tauto; try lia.
  - exact H.
  - host_step. repeat split; try tauto. apply Q.min_glb; lra. apply Q.le_min_r.
  - host_step. repeat split; try tauto. apply Q.le_max_r. apply Q.max_lub; lra.
  - host_step. repeat split; try tauto; lra.
  - destruct (_ && _)%bool; [| exact H]. host_step.
    repeat split; try tauto. apply rotate_quarter_turn, R.
  - destruct (_ && _ && _)%bool eqn:G; [| exact H].
    apply andb_true_iff in G. destruct G as [_ G].
    unfold nextPage_disabled in G. apply negb_true_iff, Z.leb_gt in G.
    host_step. repeat split; try tauto. lia.
  - destruct (_ && _ && _)%bool; [| exact H]. host_step.
    repeat split; try tauto. lia.
  - destruct (is_open (host s)); [| exact H]. host_step. repeat split; try tauto; try lia.
  - host_step. repeat split; try tauto; try lia.
  - destruct (in_range 0.5 2.0 value) eqn:G; [| exact H].
    apply in_range_spec in G. host_step. repeat split; try tauto; lra.
  - destruct (in_range 0.5 2.0 value) eqn:G; [| exact H].
    apply in_range_spec in G. host_step. repeat split; try tauto; lra.
  - destruct (in_range 0.5 1.5 value) eqn:G; [| exact H].
    apply in_range_spec in G. host_step. repeat split; try tauto; lra.
  - host_step. repeat split; try tauto; lra.
  - destruct (is_pdf (host s)); [| exact H]. host_step. repeat split; try tauto; try lia.
  - destruct (_ && _ && _)%bool eqn:G; [| exact H].
    apply andb_true_iff in G. destruct G as [_ G]. apply in_range_spec in G.
    host_step. repeat split; try tauto; lra.
  - destruct (find _ (timers s)) as [t |]; [| exact H]. host_step.
    repeat split; try tauto. apply updater_positive, P.
  - destruct (nth_error (loads s) n) as [l |]; [| exact H].
    match goal with
    | |- settings_ok (host (settle _ _ _ l ?s0)) =>
        destruct (settle_host l s0) as [m ->]
    end.
    exact H.
Qed.

Lemma step_settings (e : Event) (s : Sys) :
  settings_ok (host s) ->
  settings_ok
    (host (step strategy getDocument convertToHtml readText createObjectURL e s)).
Proof.
  intros H. unfold step.
  destruct (commit_host (dispatch getDocument convertToHtml readText e s)) as [n ->].
  apply settings_ok_totalPages, dispatch_settings, H.
Qed.

Lemma run_settings (es : list Event) (s : Sys) :
  settings_ok (host s) ->
  settings_ok
    (host (run strategy getDocument convertToHtml readText createObjectURL es s)).
Proof.
  revert s. induction es as [| e es IH]; intros s H; cbn; [exact H |].
  apply IH, step_settings, H.
Qed.

End HostFrame.

Lemma initial_settings : settings_ok (host boot).
Proof.
  unfold settings_ok, selection_ok, quarter_turn; cbn.
  repeat split; try lia; try (vm_compute; discriminate).
Qed.

(** X11.  In every state the application can reach, zoom lies in
    [0.5, 3.0], contrast in [0.5, 2.0], brightness in [0.5, 1.5], scroll
    speed in [0.5, 3.0], the rotation is 0, 90, 180 or 270, the page cursor
    is at least 1, and either no document is held and no type, or the type
    held is the one detection gives for the document held. *)
Theorem X11_reachable_settings
  (strategy : PdfStrategy)
  (getDocument : list Byte.byte -> option Canvas.PdfDoc)
  (convertToHtml readText : list Byte.byte -> option string)
  (createObjectURL : File -> string) (es : list Event) :
  let h := host (run strategy getDocument convertToHtml readText createObjectURL
                     es boot) in
  (0.5 <= zoom h <= 3.0)%Q
  /\ (0.5 <= contrast h <= 2.0)%Q
  /\ (0.5 <= brightness h <= 1.5)%Q
  /\ (0.5 <= scrollSpeed h <= 3.0)%Q
  /\ (rotation h = 0 \/ rotation h = 90 \/ rotation h = 180 \/ rotation h = 270)
  /\ 1 <= currentPage h
  /\ match documentFile h, fileType h with
     | None, None => True
     | Some f, Some k => getFileType f = Some k
     | _, _ => False
     end.
Proof.
  apply (run_settings strategy getDocument convertToHtml readText createObjectURL
           es boot initial_settings).
Qed.


(** ** Effects at rest, and arming *)

Lemma with_host_same (s : Sys) : with_host (host s) s = s.
Proof. destruct s; reflexivity. Qed.

Lemma same_doc_refl (d : option (nat * Canvas.PdfDoc)) : same_doc d d = true.
Proof.
  destruct d as [[i [n]] |]; cbn; [| reflexivity].
  rewrite Nat.eqb_refl, Z.eqb_refl. reflexivity.
Qed.

Section AtRest.
Variable strategy : PdfStrategy.
Variable getDocument : list Byte.byte -> option Canvas.PdfDoc.
Variable convertToHtml : list Byte.byte -> option string.
Variable readText : list Byte.byte -> option string.
Variable createObjectURL : File -> string.

(** A render in which no dependency of the load effect or of the
    auto-scroll effect changed runs neither. *)
Lemma commit_at_rest (s : Sys) (h' : ViewState) :
  stable strategy s -> same_props (host s) h' ->
  commit strategy createObjectURL (with_host h' s) = with_host h' s.
Proof.
  intros [_ C] (P1 & P2 & P3 & P4). unfold commit, current in *.
  cbn [with_host mounted host].
  assert (W : wanted h' = wanted (host s)) by (unfold wanted; rewrite P1, P2; reflexivity).
  rewrite W.
  destruct (mounted s) as [v |] eqn:M.
  - destruct C as [Cw Cd]. rewrite Cw, FileType_eqb_refl.
    unfold update. rewrite File_eqb_refl.
    destruct v as [inst k f d da ds dd c r]. cbn [kind file_prop] in *.
    destruct k.
    + destruct (Cd eq_refl) as (D1 & D2 & D3). cbn in D1, D2, D3.
      cbn [dep_autoScroll dep_scrollSpeed dep_pdfDoc pdfDoc with_host host].
      rewrite P3, P4, <- D1. rewrite Bool.eqb_reflx.
      assert (Q2 : Qeq_bool ds (scrollSpeed (host s)) = true)
        by (apply Qeq_bool_iff; exact D2).
      rewrite Q2.
      assert (Q3 : match strategy with
                   | UseIframe => true
                   | UseCanvas => same_doc dd d
                   end = true).
      { destruct strategy; [reflexivity |]. rewrite (D3 eq_refl). apply same_doc_refl. }
      rewrite Q3. cbn [andb]. unfold with_mounted, with_host.
      cbn [host mounted timers loads fresh alerts]. rewrite M. reflexivity.
    + unfold with_mounted, with_host.
      cbn [host mounted timers loads fresh alerts]. rewrite M. reflexivity.
    + unfold with_mounted, with_host.
      cbn [host mounted timers loads fresh alerts]. rewrite M. reflexivity.
  - rewrite C. reflexivity.
Qed.

Lemma quiet_dispatch (e : Event) (s : Sys) :
  quiet e = true ->
  exists h', dispatch getDocument convertToHtml readText e s = with_host h' s
             /\ same_props (host s) h'.
Proof.
  intros Q.
  assert (R : exists h', s = with_host h' s /\ same_props (host s) h')
    by (exists (host s); rewrite with_host_same; repeat split).
  destruct e; try discriminate Q; unfold dispatch;
    repeat match goal with
           | |- context [if ?c then _ else _] => destruct c
           | |- context [match find ?f ?l with _ => _ end] => destruct (find f l)
           end;
    try exact R;
    (eexists; split; [reflexivity | repeat split]).
Qed.

Lemma quiet_step (e : Event) (s : Sys) :
  stable strategy s -> quiet e = true ->
  step strategy getDocument convertToHtml readText createObjectURL e s
  = dispatch getDocument convertToHtml readText e s
  /\ timers (step strategy getDocument convertToHtml readText createObjectURL e s)
     = timers s
  /\ mounted (step strategy getDocument convertToHtml readText createObjectURL e s)
     = mounted s.
Proof.
  intros St Q. destruct (quiet_dispatch e s Q) as (h' & E & P).
  unfold step. rewrite E, (commit_at_rest s h' St P). repeat split.
Qed.

(** The hook state says "cleanup pending" exactly when the last run of the
    effect had reason to arm. *)
Lemma effect_tidy (h : ViewState) (v : Mounted) (s : Sys) :
  let v' := fst (autoScroll_effect strategy h v s) in
  cleanup v' = should_arm strategy (dep_autoScroll v') (dep_pdfDoc v').
Proof.
  unfold autoScroll_effect, should_arm.
  destruct strategy, (autoScroll h), (pdfDoc v) as [[? ?] |]; reflexivity.
Qed.

Lemma commit_tidy (s : Sys) :
  tidy strategy s -> tidy strategy (commit strategy createObjectURL s).
Proof.
  intros T. unfold commit.
  assert (Mount : forall k f s0, tidy strategy (mount strategy createObjectURL k f s0)).
  { intros k f s0. unfold mount, tidy. destruct k.
    - match goal with
      | |- context [autoScroll_effect _ ?h ?v ?s1] =>
          pose proof (effect_tidy h v s1) as E;
          destruct (autoScroll_effect strategy h v s1) as [v1 s2]
      end.
      cbn [fst] in E. cbn [with_mounted mounted]. intros _. exact E.
    - cbn [with_mounted mounted kind]. intros K. discriminate K.
    - cbn [with_mounted mounted kind]. intros K. discriminate K. }
  unfold tidy in T.
  destruct (mounted s) as [v |] eqn:M, (wanted (host s)) as [[k f] |];
    try apply Mount; try (unfold tidy; rewrite M; exact I).
  - destruct (FileType_eqb (kind v) k); [| apply Mount].
    unfold update, tidy.
    destruct (kind v) eqn:K; cbn [with_mounted mounted kind];
      try (intros K'; congruence).
    match goal with |- context [if ?c then _ else _] => destruct c end.
    + cbn [with_mounted mounted kind cleanup dep_autoScroll dep_pdfDoc].
      intros _. apply T. reflexivity.
    + match goal with
      | |- context [autoScroll_effect _ ?h ?w ?s1] =>
          pose proof (effect_tidy h w s1) as E;
          destruct (autoScroll_effect strategy h w s1) as [v2 s3]
      end.
      cbn [fst] in E. cbn [with_mounted mounted]. intros _. exact E.
  - unfold unmount, tidy. cbn [with_mounted mounted]. exact I.
Qed.

Lemma handled_tidy (s s' : Sys) : tidy strategy s -> handled s s' -> tidy strategy s'.
Proof.
  unfold tidy. intros T (_ & _ & [M | (v & d & M & M')] & _).
  - rewrite M. exact T.
  - rewrite M'. rewrite M in T. exact T.
Qed.

Lemma run_stable_tidy (es : list Event) (s : Sys) :
  stable strategy s -> tidy strategy s ->
  tidy strategy
    (run strategy getDocument convertToHtml readText createObjectURL es s).
Proof.
  revert s. induction es as [| e es IH]; intros s St T; cbn; [exact T |].
  apply IH.
  - apply step_stable, St.
  - unfold step. apply commit_tidy.
    apply (handled_tidy s); [exact T | apply (dispatch_handled strategy), St].
Qed.

End AtRest.

Lemma boot_tidy (strategy : PdfStrategy) : tidy strategy boot.
Proof. exact I. Qed.

(** X13.  Zooming, rotating, paging, theming, adjusting contrast or
    brightness, toggling fullscreen, and the firing of the interval itself
    re-run neither the load effect nor the auto-scroll effect of the
    viewer: the state after such an event is the one its handler left,
    the commit that follows changes nothing.  So the same viewer is
    mounted with the same [pdfDoc], the same record of the auto-scroll
    effect's last run and the same [autoScrollRef], no load has been
    started, and the browser holds the same intervals under the same
    handles (a tick does not re-arm its interval).  The canvas viewer's
    painting effect, which does re-run when the page, the rotation or the
    theme changes, is not among the effects spoken of. *)
Theorem X13_quiet_events_leave_interval
  (strategy : PdfStrategy)
  (getDocument : list Byte.byte -> option Canvas.PdfDoc)
  (convertToHtml readText : list Byte.byte -> option string)
  (createObjectURL : File -> string) (es : list Event) (e : Event) :
  quiet e = true ->
  let s := run strategy getDocument convertToHtml readText createObjectURL es boot in
  let s' := run strategy getDocument convertToHtml readText createObjectURL
                (es ++ [e])%list boot in
  s' = dispatch getDocument convertToHtml readText e s
  /\ timers s' = timers s /\ mounted s' = mounted s /\ loads s' = loads s
  /\ fresh s' = fresh s.
Proof.
  intros Q s s'.
  assert (St : stable strategy s) by (apply run_stable, boot_stable).
  unfold s'. rewrite run_snoc. fold s.
  destruct (quiet_step strategy getDocument convertToHtml readText createObjectURL
              e s St Q) as (E & T & M).
  split; [exact E |].
  split; [exact T | split; [exact M |]].
  rewrite E.
  destruct (quiet_dispatch getDocument convertToHtml readText e s Q) as (h' & -> & _).
  split; reflexivity.
Qed.

Lemma X13_quiet_events_leave_interval_witness :
  timers (Scenario.play UseIframe (Scenario.reading 3 ++ [NextPage])%list)
  = timers (Scenario.play UseIframe (Scenario.reading 3)).
Proof.
  apply (X13_quiet_events_leave_interval UseIframe Scenario.three_pages
           Scenario.any_html Scenario.any_text Scenario.blob_url
           (Scenario.reading 3) NextPage).
  reflexivity.
Defined.

(** X14.  Auto-advance is armed whenever it should be: in every reachable
    state with a PDF open and auto-scroll on there is exactly one
    interval, with delay 3000/scrollSpeed, provided (for the canvas
    viewer) the document has been loaded; and the canvas viewer holds no
    interval while its document is not loaded. *)
Theorem X14_auto_advance_is_armed
  (strategy : PdfStrategy)
  (getDocument : list Byte.byte -> option Canvas.PdfDoc)
  (convertToHtml readText : list Byte.byte -> option string)
  (createObjectURL : File -> string) (es : list Event) :
  let s := run strategy getDocument convertToHtml readText createObjectURL es boot in
  (documentFile (host s) <> None -> fileType (host s) = Some pdf ->
   autoScroll (host s) = true ->
   (strategy = UseCanvas -> exists v d, mounted s = Some v /\ pdfDoc v = Some d) ->
   exists t, timers s = [t] /\ (delay t == 3000 / scrollSpeed (host s))%Q)
  /\ (strategy = UseCanvas ->
      forall v, mounted s = Some v -> pdfDoc v = None -> timers s = []).
Proof.
  intros s.
  assert (St : stable strategy s) by (apply run_stable, boot_stable).
  assert (T : tidy strategy s)
    by (apply run_stable_tidy; [apply boot_stable | apply boot_tidy]).
  split.
  - intros D F A L.
    pose proof St as [[_ B] C]. unfold current, tidy in *.
    destruct (mounted s) as [v |] eqn:M.
    + destruct C as [W Deps]. unfold wanted in W.
      destruct (documentFile (host s)) as [f |]; [| contradiction D; reflexivity].
      rewrite F in W. injection W as K _. symmetry in K.
      destruct (Deps K) as (D1 & D2 & D3).
      assert (Arm : cleanup v = true).
      { rewrite (T K). unfold should_arm. rewrite D1, A. cbn [andb].
        destruct strategy eqn:S; [reflexivity |].
        destruct (L eq_refl) as (v' & d & Ev & Ed). injection Ev as <-.
        rewrite (D3 eq_refl), Ed. reflexivity. }
      rewrite Arm in B. destruct B as (_ & t & Ht & Harm).
      exists t. split; [exact Ht |].
      destruct Harm as (_ & _ & _ & _ & _ & Hd & _).
      rewrite Hd, D2. reflexivity.
    + unfold wanted in C.
      destruct (documentFile (host s)) as [f |]; [| contradiction D; reflexivity].
      rewrite F in C. discriminate C.
  - intros S v M N.
    destruct (timers s) as [| t rest] eqn:Ts; [reflexivity | exfalso].
    destruct (intervals_of_stable strategy s t St) as (_ & _ & _ & _ & _ & w & Mw & _ & _ & Cb);
      [rewrite Ts; left; reflexivity |].
    rewrite M in Mw. injection Mw as <-.
    destruct (callback t) as [| doc].
    + congruence.
    + destruct Cb as (_ & stamp & E). congruence.
Qed.

Lemma X14_auto_advance_is_armed_witness :
  exists t, timers (Scenario.play UseCanvas (Scenario.reading_canvas 2)) = [t].
Proof.
  destruct (X14_auto_advance_is_armed UseCanvas Scenario.three_pages
              Scenario.any_html Scenario.any_text Scenario.blob_url
              (Scenario.reading_canvas 2)) as [H _].
  destruct H as (t & Ht & _).
  - vm_compute. discriminate.
  - vm_compute. reflexivity.
  - vm_compute. reflexivity.
  - intros _. vm_compute. do 2 eexists. split; reflexivity.
  - exists t. exact Ht.
Defined.

(** ** The byte store *)

Lemma ToUint8Clamp_of_clamped (v : Q) (m : Z) :
  (Qmin (Qmax v 0) 255 == inject_Z m)%Q -> ToUint8Clamp (Some v) = m.
Proof.
  intros E. unfold ToUint8Clamp.
  set (c := Qmin (Qmax v 0) 255) in *.
  assert (F : Qfloor c = m) by (rewrite (Qfloor_comp _ _ E); apply Qfloor_Z).
  cbv zeta. rewrite F.
  destruct (Qcompare_spec c (inject_Z m + 0.5)%Q) as [C | C | C];
    [exfalso; lra | reflexivity | exfalso; lra].
Qed.

(** Storing an integer in the byte buffer keeps it when it is a byte and
    saturates it otherwise; a [NaN] is stored as 0. *)
Lemma byte_store_saturates (n : Z) :
  ToUint8Clamp (Some (inject_Z n)) = Z.max 0 (Z.min n 255)
  /\ ToUint8Clamp None = 0.
Proof.
  split; [| reflexivity].
  apply ToUint8Clamp_of_clamped.
  destruct (Z_lt_le_dec n 0) as [Neg | NonNeg];
    [| destruct (Z_le_gt_dec n 255) as [Small | Big]].
  - replace (Z.max 0 (Z.min n 255)) with 0 by lia.
    assert (H : (inject_Z n <= 0)%Q)
      by (change 0%Q with (inject_Z 0); rewrite <- Zle_Qle; lia).
    rewrite Q.max_r by exact H. apply Q.min_l. vm_compute. discriminate.
  - replace (Z.max 0 (Z.min n 255)) with n by lia.
    assert (H : (0 <= inject_Z n <= 255)%Q).
    { change 0%Q with (inject_Z 0). change 255%Q with (inject_Z 255).
      rewrite <- !Zle_Qle. lia. }
    rewrite Q.max_l by apply H. apply Q.min_l, H.
  - replace (Z.max 0 (Z.min n 255)) with 255 by lia.
    assert (H : (255 <= inject_Z n)%Q)
      by (change 255%Q with (inject_Z 255); rewrite <- Zle_Qle; lia).
    rewrite Q.max_l by lra. apply Q.min_r. exact H.
Qed.

(** ** The viewer under a changing file prop *)

(** X15.  The auto-scroll effect does not depend on the file: when a PDF
    viewer is re-rendered with another file while auto-scroll, speed and
    (canvas) loaded document are as its effect last saw them, its interval
    is neither cleared nor re-armed; the viewer shows the new file with the
    old hook state. *)
Theorem X15_file_change_keeps_interval
  (strategy : PdfStrategy) (createObjectURL : File -> string)
  (v : Mounted) (f' : File) (s : Sys) :
  kind v = pdf ->
  dep_autoScroll v = autoScroll (host s) ->
  (dep_scrollSpeed v == scrollSpeed (host s))%Q ->
  dep_pdfDoc v = App.pdfDoc v ->
  let s' := update strategy createObjectURL v f' s in
  timers s' = timers s
  /\ exists v', mounted s' = Some v'
                /\ file_prop v' = f' /\ instance v' = instance v
                /\ cleanup v' = cleanup v /\ autoScrollRef v' = autoScrollRef v.
Proof.
  intros K A S D s'. unfold s', update.
  match goal with
  | |- context [if File_eqb ?a ?b then s else ?x] =>
      assert (L : timers (if File_eqb a b then s else x) = timers s
                  /\ autoScroll (host (if File_eqb a b then s else x)) = autoScroll (host s)
                  /\ scrollSpeed (host (if File_eqb a b then s else x)) = scrollSpeed (host s));
      [ destruct (File_eqb a b); [repeat split |];
        destruct (load_effect_frame strategy createObjectURL (kind v) (instance v) f' s)
          as (L1 & _ & _ & _ & L5 & L6); auto
      | set (s1 := if File_eqb a b then s else x) in * ]
  end.
  destruct L as (L1 & L5 & L6). rewrite K.
  rewrite L5, L6, <- A, Bool.eqb_reflx.
  assert (Q2 : Qeq_bool (dep_scrollSpeed v) (scrollSpeed (host s)) = true)
    by (apply Qeq_bool_iff; exact S).
  rewrite Q2, D.
  assert (Q3 : match strategy with
               | UseIframe => true
               | UseCanvas => same_doc (App.pdfDoc v) (App.pdfDoc v)
               end = true)
    by (destruct strategy; [reflexivity | apply same_doc_refl]).
  rewrite Q3. cbn [andb with_mounted timers mounted].
  split; [exact L1 |]. eexists. split; [reflexivity |]. repeat split.
Qed.

Lemma X15_file_change_keeps_interval_witness :
  let s := Scenario.play UseIframe (Scenario.reading 0) in
  let v := mkMounted 1 pdf Scenario.paper None true 1 None true (Some 2%nat) in
  mounted s = Some v
  /\ (exists t, timers s = [t] /\ armed_for t = Scenario.paper)
  /\ timers (update UseIframe Scenario.blob_url v Scenario.untyped_pdf s) = timers s.
Proof.
  intros s v.
  split; [vm_compute; reflexivity |].
  split; [eexists; split; vm_compute; reflexivity |].
  apply (X15_file_change_keeps_interval UseIframe Scenario.blob_url v
           Scenario.untyped_pdf s).
  - reflexivity.
  - vm_compute. reflexivity.
  - vm_compute. reflexivity.
  - reflexivity.
Defined.

(** ** Dispatch to the viewer *)

(** X16.  The host always renders the viewer of the detected type for the
    document it holds: in every reachable state the mounted viewer, if any,
    shows the held document and is of the kind detection gives for it, and
    without a viewer the host holds neither a document nor a type. *)
Theorem X16_viewer_matches_document
  (strategy : PdfStrategy)
  (getDocument : list Byte.byte -> option Canvas.PdfDoc)
  (convertToHtml readText : list Byte.byte -> option string)
  (createObjectURL : File -> string) (es : list Event) :
  let s := run strategy getDocument convertToHtml readText createObjectURL es boot in
  match mounted s with
  | Some v =>
      documentFile (host s) = Some (file_prop v)
      /\ fileType (host s) = Some (kind v)
      /\ getFileType (file_prop v) = Some (kind v)
  | None => documentFile (host s) = None /\ fileType (host s) = None
  end.
Proof.
  intros s.
  assert (St : stable strategy s) by (apply run_stable, boot_stable).
  pose proof (run_settings strategy getDocument convertToHtml readText
                createObjectURL es boot initial_settings) as (_ & _ & _ & _ & _ & _ & Sel).
  fold s in Sel. destruct St as [_ C]. unfold current, wanted, selection_ok in *.
  destruct (mounted s) as [v |]; [destruct C as [C _] |];
    destruct (documentFile (host s)) as [f |], (fileType (host s)) as [k |];
    try discriminate C; try contradiction Sel.
  - injection C as <- <-. auto.
  - auto.
Qed.

(** ** Iterated paging *)

Lemma canvas_tick_mod (doc : Canvas.PdfDoc) (p : Z) :
  1 <= p <= Canvas.numPages doc ->
  Canvas.tick doc p = (p - 1 + 1) mod Canvas.numPages doc + 1.
Proof.
  intros [L U]. unfold Canvas.tick.
  destruct (Z.leb_spec (Canvas.numPages doc) p) as [Last | Before].
  - assert (E : p = Canvas.numPages doc) by lia. rewrite <- E.
    replace (p - 1 + 1) with p by lia. rewrite Z.mod_same by lia. reflexivity.
  - rewrite Z.mod_small by lia. lia.
Qed.

Lemma canvas_tick_iter (doc : Canvas.PdfDoc) (p : Z) (k : nat) :
  1 <= p <= Canvas.numPages doc ->
  Nat.iter k (Canvas.tick doc) p
  = (p - 1 + Z.of_nat k) mod Canvas.numPages doc + 1.
Proof.
  intros R. induction k as [| k IH].
  - change (Nat.iter 0 (Canvas.tick doc) p) with p. change (Z.of_nat 0) with 0.
    rewrite Z.add_0_r, Z.mod_small by lia. lia.
  - rewrite Nat.iter_succ, IH.
    set (n := Canvas.numPages doc) in *.
    pose proof (Z.mod_pos_bound (p - 1 + Z.of_nat k) n ltac:(lia)) as B.
    rewrite canvas_tick_mod by (fold n; lia). fold n.
    replace ((p - 1 + Z.of_nat k) mod n + 1 - 1 + 1)
      with ((p - 1 + Z.of_nat k) mod n + 1) by lia.
    rewrite Nat2Z.inj_succ.
    replace (p - 1 + Z.succ (Z.of_nat k)) with ((p - 1 + Z.of_nat k) + 1) by lia.
    rewrite <- (Z.add_mod_idemp_l (p - 1 + Z.of_nat k) 1 n) by lia.
    reflexivity.
Qed.

(** X17.  Auto-advance of the canvas viewer cycles through the document:
    from a page in [1, numPages] every tick stays in that range, k ticks
    lead to page ((p - 1 + k) mod numPages) + 1, and numPages ticks lead
    back to the page they started from. *)
Theorem X17_canvas_ticks_cycle (doc : Canvas.PdfDoc) (p : Z) (k : nat) :
  1 <= p <= Canvas.numPages doc ->
  1 <= Nat.iter k (Canvas.tick doc) p <= Canvas.numPages doc
  /\ Nat.iter k (Canvas.tick doc) p
     = (p - 1 + Z.of_nat k) mod Canvas.numPages doc + 1
  /\ Nat.iter (Z.to_nat (Canvas.numPages doc)) (Canvas.tick doc) p = p.
Proof.
  intros R. rewrite !canvas_tick_iter by exact R.
  set (n := Canvas.numPages doc) in *.
  pose proof (Z.mod_pos_bound (p - 1 + Z.of_nat k) n ltac:(lia)) as B.
  split; [lia |]. split; [reflexivity |].
  rewrite Z2Nat.id by lia.
  replace (p - 1 + n) with (p - 1 + 1 * n) by lia.
  rewrite Z.mod_add by lia. rewrite Z.mod_small by lia. lia.
Qed.

Lemma X17_canvas_ticks_cycle_witness :
  Nat.iter 3 (Canvas.tick (Canvas.mkPdfDoc 3)) 2 = 2
  /\ Nat.iter 4 (Canvas.tick (Canvas.mkPdfDoc 3)) 2 = 3.
Proof.
  assert (R : 1 <= 2 <= Canvas.numPages (Canvas.mkPdfDoc 3)) by (cbn; lia).
  split.
  - exact (proj2 (proj2 (X17_canvas_ticks_cycle (Canvas.mkPdfDoc 3) 2 0 R))).
  - rewrite (proj1 (proj2 (X17_canvas_ticks_cycle (Canvas.mkPdfDoc 3) 2 4 R))).
    reflexivity.
Defined.

Lemma nextPage_iter (st : ViewState) (k : nat) :
  currentPage st <= totalPages st ->
  currentPage (Nat.iter k nextPage st)
  = Z.min (currentPage st + Z.of_nat k) (totalPages st)
  /\ totalPages (Nat.iter k nextPage st) = totalPages st.
Proof.
  intros H. induction k as [| k [IH1 IH2]].
  - change (Nat.iter 0 nextPage st) with st. change (Z.of_nat 0) with 0. split; lia.
  - rewrite Nat.iter_succ.
    change (currentPage (nextPage (Nat.iter k nextPage st)))
      with (Z.min (currentPage (Nat.iter k nextPage st) + 1)
                  (totalPages (Nat.iter k nextPage st))).
    change (totalPages (nextPage (Nat.iter k nextPage st)))
      with (totalPages (Nat.iter k nextPage st)).
    rewrite IH1, IH2. split; lia.
Qed.

Lemma prevPage_iter (st : ViewState) (k : nat) :
  1 <= currentPage st ->
  currentPage (Nat.iter k prevPage st) = Z.max (currentPage st - Z.of_nat k) 1.
Proof.
  intros H. induction k as [| k IH].
  - change (Nat.iter 0 prevPage st) with st. change (Z.of_nat 0) with 0. lia.
  - rewrite Nat.iter_succ.
    change (currentPage (prevPage (Nat.iter k prevPage st)))
      with (Z.max (currentPage (Nat.iter k prevPage st) - 1) 1).
    rewrite IH. lia.
Qed.

(** X18.  Paging saturates at the ends: from a page p in [1, totalPages],
    k next-page commands lead to min(p + k, totalPages) and k previous-page
    commands to max(p - k, 1), so the cursor stays in [1, totalPages] and
    totalPages is never altered by paging. *)
Theorem X18_paging_saturates (st : ViewState) (k : nat) :
  1 <= currentPage st <= totalPages st ->
  currentPage (Nat.iter k nextPage st)
  = Z.min (currentPage st + Z.of_nat k) (totalPages st)
  /\ currentPage (Nat.iter k prevPage st) = Z.max (currentPage st - Z.of_nat k) 1
  /\ totalPages (Nat.iter k nextPage st) = totalPages st
  /\ 1 <= currentPage (Nat.iter k nextPage st) <= totalPages st
  /\ 1 <= currentPage (Nat.iter k prevPage st) <= totalPages st.
Proof.
  intros [L U].
  destruct (nextPage_iter st k U) as [N1 N2].
  pose proof (prevPage_iter st k L) as P1.
  rewrite N1, P1, N2. repeat split; lia.
Qed.

Lemma X18_paging_saturates_witness :
  currentPage (Nat.iter 7 nextPage (setTotalPages 3 initial)) = 3
  /\ currentPage (Nat.iter 7 prevPage (setTotalPages 3 initial)) = 1.
Proof.
  assert (R : 1 <= currentPage (setTotalPages 3 initial)
                <= totalPages (setTotalPages 3 initial)) by (cbn; lia).
  destruct (X18_paging_saturates (setTotalPages 3 initial) 7 R) as (A & B & _).
  split; [rewrite A | rewrite B]; reflexivity.
Defined.
